(** * A/B-test statistics of [streamlit_app.py]

    A shallow embedding of the three analytics functions of the dashboard,
    [calculate_conversion_rates], [perform_chi_squared_test] and
    [create_posterior_distribution_chart], together with the part of pandas,
    numpy and scipy they call, and the properties of the specification
    stated and settled over it; then of the query, the bar chart and the
    script that draws the page, with further properties of the code.

    Conventions of the embedding.
    - A pandas [DataFrame] is a row count and an ordered list of named
      columns; a cell is a [value].
    - A float64 is a [float64]: an exact rational, an infinity or NaN.  The
      rational stands for the double nearest to it: rounding is not
      modelled, the exceptional values are.  A quotient of two whole
      numbers is one correctly rounded division and is the double of its
      fraction; of a result of several operations the theorems state only
      what rounding keeps: nullness, finiteness, order and bounds.
    - A Python exception is the [Raised] case of [outcome]; the in-place
      update of the caller's frame is explicit state passing. *)

From Stdlib Require Import List String Ascii ZArith QArith Bool Lia Lqa.
From Stdlib Require Import Permutation Sorted.
Import ListNotations.

Close Scope Q_scope.
Local Open Scope string_scope.
Local Open Scope list_scope.

(* ================================================================= *)
(** * Scalars *)

Module Float.

(** numpy's float64, up to rounding. *)
Inductive float64 : Type :=
| Fin (q : Q)
| PInf
| NInf
| NaN.

Definition of_Z (z : Z) : float64 := Fin (inject_Z z).
Definition of_nat (n : nat) : float64 := of_Z (Z.of_nat n).

Definition opp (x : float64) : float64 :=
  match x with
  | Fin q => Fin (Qred (- q))
  | PInf => NInf
  | NInf => PInf
  | NaN => NaN
  end.

Definition add (x y : float64) : float64 :=
  match x, y with
  | NaN, _ | _, NaN => NaN
  | Fin a, Fin b => Fin (Qred (a + b))
  | PInf, NInf | NInf, PInf => NaN
  | PInf, _ | _, PInf => PInf
  | NInf, _ | _, NInf => NInf
  end.

Definition sub (x y : float64) : float64 := add x (opp y).

(** The sign of an infinite or zero-divided quotient.  A zero divisor is
    the positive zero: the only zeros the program divides by are rates
    [0 / count]. *)
Definition signed_inf (positive : bool) : float64 :=
  if positive then PInf else NInf.

(** IEEE division with numpy's default error state: a division by zero
    warns and yields an infinity, or NaN for [0 / 0]; it does not raise. *)
Definition div (x y : float64) : float64 :=
  match x, y with
  | NaN, _ | _, NaN => NaN
  | Fin a, Fin b =>
      if Qeq_bool b 0 then
        match (a ?= 0)%Q with
        | Eq => NaN
        | Gt => PInf
        | Lt => NInf
        end
      else Fin (Qred (a / b))
  | Fin _, (PInf | NInf) => Fin 0
  | (PInf | NInf), (PInf | NInf) => NaN
  | PInf, Fin b => signed_inf (Qle_bool 0 b)
  | NInf, Fin b => signed_inf (negb (Qle_bool 0 b))
  end.

(** [==] on floats: NaN equals nothing. *)
Definition eqb (x y : float64) : bool :=
  match x, y with
  | Fin a, Fin b => Qeq_bool a b
  | PInf, PInf | NInf, NInf => true
  | _, _ => false
  end.

(** [<=] on the floats that are not NaN. *)
Definition leb (x y : float64) : bool :=
  match x, y with
  | NInf, _ => true
  | _, PInf => true
  | Fin a, Fin b => Qle_bool a b
  | _, _ => false
  end.

End Float.
Export Float.

(** A cell of a frame: [None], a string, a number or a boolean.  A number
    cell that holds NaN is null as well, as in pandas. *)
Inductive value : Type :=
| VNull
| VStr (s : string)
| VNum (x : float64)
| VBool (b : bool).

Definition VInt (z : Z) : value := VNum (Float.of_Z z).

(** [pd.isnull] on a cell. *)
Definition isnull (v : value) : bool :=
  match v with
  | VNull | VNum NaN => true
  | _ => false
  end.

Definition notnull (v : value) : bool := negb (isnull v).

(** The number a cell counts as in arithmetic and comparisons: Python's
    [bool] is a subclass of [int]. *)
Definition num_of (v : value) : option float64 :=
  match v with
  | VNum x => Some x
  | VBool true => Some (Float.of_Z 1)
  | VBool false => Some (Float.of_Z 0)
  | _ => None
  end.

(** Python's [==] between a cell and a scalar, as [Series == scalar] applies
    it elementwise: a null cell equals nothing. *)
Definition py_eqb (u v : value) : bool :=
  match u, v with
  | VStr s, VStr t => String.eqb s t
  | (VNum _ | VBool _), (VNum _ | VBool _) =>
      match num_of u, num_of v with
      | Some x, Some y => Float.eqb x y
      | _, _ => false
      end
  | _, _ => false
  end.

(** Identity of keys in pandas' hash tables ([unique], [groupby],
    [crosstab]): [==], except that a null is the same key as itself. *)
Definition same_key (u v : value) : bool :=
  match u, v with
  | VNull, VNull => true
  | VNum NaN, VNum NaN => true
  | _, _ => py_eqb u v
  end.

(** The order pandas sorts group keys in: numbers ascending, then strings in
    code-point order, then nulls ([algorithms.safe_sort]).  A [string] is
    the UTF-8 encoding of the Python string, whose byte order is the
    code-point order. *)
Definition key_leb (u v : value) : bool :=
  if isnull v then true
  else if isnull u then false
  else
    match u, v with
    | VStr s, VStr t => String.leb s t
    | VStr _, _ => false
    | _, VStr _ => true
    | _, _ =>
        match num_of u, num_of v with
        | Some x, Some y => Float.leb x y
        | _, _ => true
        end
    end.

(* ================================================================= *)
(** * Exceptions *)

Inductive exn : Type :=
| ValueError
| TypeError
| KeyError
| IndexError.

Inductive outcome (A : Type) : Type :=
| Returned (a : A)
| Raised (e : exn).

Arguments Returned {A} a.
Arguments Raised {A} e.

Definition bind {A B : Type} (m : outcome A) (k : A -> outcome B) : outcome B :=
  match m with
  | Returned a => k a
  | Raised e => Raised e
  end.

Notation "x <- m ;; k" := (bind m (fun x => k))
  (at level 61, m at next level, right associativity).

Fixpoint mapM {A B : Type} (f : A -> outcome B) (l : list A) : outcome (list B) :=
  match l with
  | [] => Returned []
  | a :: l' =>
      b <- f a ;;
      bs <- mapM f l' ;;
      Returned (b :: bs)
  end.

(* ================================================================= *)
(** * Series *)

(** [Series.unique()]: the distinct values, in order of first appearance;
    a null is a value like another. *)
Fixpoint unique (vs : list value) : list value :=
  match vs with
  | [] => []
  | v :: vs' => v :: filter (fun w => negb (same_key v w)) (unique vs')
  end.

(** [x in array]: some element [==] x. *)
Definition contains (x : value) (vs : list value) : bool :=
  existsb (fun v => py_eqb v x) vs.

(** Sorting of the group keys. *)
Fixpoint insert_key (k : value) (ks : list value) : list value :=
  match ks with
  | [] => [k]
  | k' :: ks' => if key_leb k k' then k :: ks else k' :: insert_key k ks'
  end.

Fixpoint sort_keys (ks : list value) : list value :=
  match ks with
  | [] => []
  | k :: ks' => insert_key k (sort_keys ks')
  end.

(** [Series.sum()], nulls skipped.  A string in the column ends in a
    [TypeError], in the sum itself or in the arithmetic on its result. *)
Fixpoint series_sum (vs : list value) : outcome float64 :=
  match vs with
  | [] => Returned (Float.of_Z 0)
  | v :: vs' =>
      if isnull v then series_sum vs'
      else match num_of v with
           | Some x => s <- series_sum vs' ;; Returned (Float.add x s)
           | None => Raised TypeError
           end
  end.

(** [Series.count()]: the cells that are not null. *)
Definition series_count (vs : list value) : nat :=
  List.length (filter notnull vs).

(** [a / b] between two columns of one frame. *)
Definition cell_div (u v : value) : outcome value :=
  match u, v with
  | VStr _, _ | _, VStr _ => Raised TypeError
  | _, _ =>
      match num_of u, num_of v with
      | Some x, Some y => Returned (VNum (Float.div x y))
      | _, _ => Returned (VNum NaN)
      end
  end.

Definition series_div (us vs : list value) : outcome (list value) :=
  mapM (fun uv => cell_div (fst uv) (snd uv)) (combine us vs).

(** [Series.iloc[0]]. *)
Definition iloc0 (vs : list value) : outcome value :=
  match vs with
  | v :: _ => Returned v
  | [] => Raised IndexError
  end.

(** A cell read as a float for scalar arithmetic. *)
Definition as_float (v : value) : outcome float64 :=
  match v with
  | VStr _ => Raised TypeError
  | VNull => Raised TypeError
  | _ => match num_of v with
         | Some x => Returned x
         | None => Raised TypeError
         end
  end.

(** Boolean-mask selection [s[mask]]. *)
Fixpoint select {A : Type} (mask : list bool) (vs : list A) : list A :=
  match mask, vs with
  | true :: m, v :: vs' => v :: select m vs'
  | false :: m, _ :: vs' => select m vs'
  | _, _ => []
  end.

(* ================================================================= *)
(** * Frames *)

Record DataFrame : Type := mkDF {
  nrows : nat;
  columns : list (string * list value)
}.

(** Column names are distinct and every column has one cell per row. *)
Definition wf (df : DataFrame) : Prop :=
  NoDup (map fst (columns df)) /\
  Forall (fun c => List.length (snd c) = nrows df) (columns df).

(** [df.empty]: an axis of length 0. *)
Definition empty (df : DataFrame) : bool :=
  (nrows df =? 0)%nat ||
  match columns df with [] => true | _ => false end.

Definition col_names (df : DataFrame) : list string := map fst (columns df).

(** [c in df.columns]. *)
Definition has_col (c : string) (df : DataFrame) : bool :=
  existsb (String.eqb c) (col_names df).

Fixpoint lookup (c : string) (cols : list (string * list value)) : option (list value) :=
  match cols with
  | [] => None
  | (n, vs) :: cols' => if String.eqb c n then Some vs else lookup c cols'
  end.

(** [df[c]]. *)
Definition getitem (df : DataFrame) (c : string) : outcome (list value) :=
  match lookup c (columns df) with
  | Some vs => Returned vs
  | None => Raised KeyError
  end.

Fixpoint replace_col (c : string) (vs : list value) (cols : list (string * list value))
  : list (string * list value) :=
  match cols with
  | [] => []
  | (n, ws) :: cols' =>
      if String.eqb c n then (n, vs) :: cols' else (n, ws) :: replace_col c vs cols'
  end.

(** [df[c] = vs]: an existing column is overwritten where it stands, a new
    one is appended. *)
Definition setitem (df : DataFrame) (c : string) (vs : list value) : DataFrame :=
  if has_col c df
  then mkDF (nrows df) (replace_col c vs (columns df))
  else mkDF (nrows df) (columns df ++ [(c, vs)]).

(** [df[mask]]: the rows where the mask holds. *)
Definition filter_rows (mask : list bool) (df : DataFrame) : DataFrame :=
  mkDF (List.length (filter (fun b => b) mask))
       (map (fun c => (fst c, select mask (snd c))) (columns df)).

(** [reset_index()] of a frame indexed by [idx] under the name [name]: the
    index becomes the first column; pandas refuses a name that is taken
    ("cannot insert ..., already exists"). *)
Definition reset_index (name : string) (idx : list value) (df : DataFrame)
  : outcome DataFrame :=
  if has_col name df then Raised ValueError
  else Returned (mkDF (nrows df) ((name, idx) :: columns df)).

(** The rows of a group: those whose key is the group's. *)
Definition group_of (k : value) (rows : list (value * value)) : list value :=
  map snd (filter (fun r => same_key k (fst r)) rows).

(** The group keys of [groupby]: null keys dropped ([dropna=True]),
    distinct, sorted ([sort=True]). *)
Definition group_keys (keys : list value) : list value :=
  sort_keys (unique (filter notnull keys)).

(** [df.groupby(by)[col].agg(["count", "sum"])], before the index is reset:
    the keys, and one row of [count] and [sum] per key. *)
Definition groupby_count_sum (keys vals : list value)
  : outcome (list value * DataFrame) :=
  let rows := combine keys vals in
  let ks := group_keys keys in
  let counts := map (fun k => VNum (Float.of_nat (series_count (group_of k rows)))) ks in
  sums <- mapM (fun k => s <- series_sum (group_of k rows) ;; Returned (VNum s)) ks ;;
  Returned (ks, mkDF (List.length ks) [("count", counts); ("sum", sums)]).

(* ================================================================= *)
(** * The three analytics functions *)

Definition converted : string := "converted".

(** [~s.isnull()]. *)
Definition not_isnull (vs : list value) : list value :=
  map (fun v => VBool (negb (isnull v))) vs.

(** The guard of line 32. *)
Definition guard (df : DataFrame) (event1_col event2_col assignment_col : string) : bool :=
  empty df
  || negb (has_col event1_col df)
  || negb (has_col event2_col df)
  || negb (has_col assignment_col df).

(** Lines 35 to 40: the table of the groups, their [count], [sum] and
    [conversion_rate]. *)
Definition conversion_table (df : DataFrame) (assignment_col : string)
  : outcome DataFrame :=
  keys <- getitem df assignment_col ;;
  flags <- getitem df converted ;;
  grouped <- groupby_count_sum keys flags ;;
  conversion_rates <- reset_index assignment_col (fst grouped) (snd grouped) ;;
  sums <- getitem conversion_rates "sum" ;;
  counts <- getitem conversion_rates "count" ;;
  rates <- series_div sums counts ;;
  Returned (setitem conversion_rates "conversion_rate" rates).

(** [conversion_rates[conversion_rates[assignment_col] == label]["conversion_rate"].iloc[0]]. *)
Definition variant_rate (conversion_rates : DataFrame) (assignment_col : string)
  (label : string) : outcome float64 :=
  labels <- getitem conversion_rates assignment_col ;;
  let rows := filter_rows (map (fun v => py_eqb v (VStr label)) labels) conversion_rates in
  rates <- getitem rows "conversion_rate" ;;
  rate <- iloc0 rates ;;
  as_float rate.

(** Lines 41 to 49. *)
Definition lift_of (conversion_rates : DataFrame) (assignment_col : string)
  : outcome (option float64) :=
  labels <- getitem conversion_rates assignment_col ;;
  if (List.length (unique labels) =? 2)%nat then
    if contains (VStr "A") (unique labels) && contains (VStr "B") (unique labels) then
      variant_a_rate <- variant_rate conversion_rates assignment_col "A" ;;
      variant_b_rate <- variant_rate conversion_rates assignment_col "B" ;;
      Returned (Some (Float.div (Float.sub variant_b_rate variant_a_rate) variant_a_rate))
    else Returned None
  else Returned None.

(** [calculate_conversion_rates(df, event1_col, event2_col, assignment_col)]:
    the frame as the call leaves it, and what the call returns or raises. *)
Definition calculate_conversion_rates
  (df : DataFrame) (event1_col event2_col assignment_col : string)
  : DataFrame * outcome (option DataFrame * option float64) :=
  if guard df event1_col event2_col assignment_col then (df, Returned (None, None))
  else
    match getitem df event2_col with
    | Raised e => (df, Raised e)
    | Returned events =>
        let df' := setitem df converted (not_isnull events) in
        (df',
         conversion_rates <- conversion_table df' assignment_col ;;
         lift_drop <- lift_of conversion_rates assignment_col ;;
         Returned (Some conversion_rates, lift_drop))
    end.

(** [pd.crosstab(index, columns)]: the rows where either value is null are
    dropped; the labels of both axes are the distinct values left, sorted;
    a cell counts the rows that carry its two labels. *)
Record Crosstab : Type := mkCrosstab {
  row_labels : list value;
  col_labels : list value;
  cells : list (list Z)
}.

Definition observed_rows (index cols : list value) : list (value * value) :=
  filter (fun r => notnull (fst r) && notnull (snd r)) (combine index cols).

Definition cell_count (rows : list (value * value)) (r c : value) : Z :=
  Z.of_nat (List.length
    (filter (fun p => same_key r (fst p) && same_key c (snd p)) rows)).

Definition crosstab (index cols : list value) : Crosstab :=
  let rows := observed_rows index cols in
  let rl := group_keys (map fst rows) in
  let cl := group_keys (map snd rows) in
  mkCrosstab rl cl (map (fun r => map (cell_count rows r) cl) rl).

(** The array [np.asarray] makes of the table has one row per row label and
    one column per column label. *)
Definition n_rows (t : Crosstab) : nat := List.length (row_labels t).
Definition n_cols (t : Crosstab) : nat := List.length (col_labels t).

Definition zsum (l : list Z) : Z := fold_right Z.add 0%Z l.

Definition row_sums (t : Crosstab) : list Z := map zsum (cells t).

Definition col_sums (t : Crosstab) : list Z :=
  map (fun j => zsum (map (fun row => nth j row 0%Z) (cells t))) (seq 0 (n_cols t)).

Definition grand_total (t : Crosstab) : Z := zsum (row_sums t).

(** [scipy.stats.contingency.expected_freq]: the product of the marginal
    sums over the total. *)
Definition expected_freq (t : Crosstab) : list (list float64) :=
  map (fun r =>
         map (fun c => Float.div (Float.of_Z (r * c)) (Float.of_Z (grand_total t)))
             (col_sums t))
      (row_sums t).

Record Chi2Result : Type := mkChi2 {
  statistic : float64;
  pvalue : float64;
  dof : Z;
  expected : list (list float64)
}.

Record Line : Type := mkLine {
  line_x : list float64;
  line_y : list float64;
  line_variant : value;
  line_a : float64;
  line_b : float64
}.

Record Figure : Type := mkFigure {
  lines : list Line;
  xlabel : string;
  ylabel : string;
  title : string;
  legend : bool
}.

(** [np.linspace(start, stop, num)]: [num] points, [start + i * step] with
    [step = (stop - start) / (num - 1)].  The points stand for the doubles
    numpy computes, which are evenly spaced up to rounding. *)
Definition linspace (start stop : Q) (num : nat) : list float64 :=
  let step := ((stop - start) / inject_Z (Z.of_nat (num - 1)))%Q in
  map (fun i => Fin (Qred (start + inject_Z (Z.of_nat i) * step))) (seq 0 num).

Section Statistics.

(** The special functions of scipy are parameters of the embedding: the
    Pearson statistic of an observed against an expected table (with the
    continuity correction scipy applies at one degree of freedom) with its
    chi-squared tail probability, and the density of the Beta
    distribution. *)
Variable power_divergence :
  list (list Z) -> list (list float64) -> Z -> float64 * float64.
Variable beta_pdf : float64 -> float64 -> float64 -> float64.

(** [scipy.stats.chi2_contingency(observed)]. *)
Definition chi2_contingency (observed : Crosstab) : outcome Chi2Result :=
  if existsb (existsb (fun z => (z <? 0)%Z)) (cells observed)
  then Raised ValueError
  else if (n_rows observed * n_cols observed =? 0)%nat
  then Raised ValueError
  else
    let expected := expected_freq observed in
    if existsb (existsb (fun x => Float.eqb x (Float.of_Z 0))) expected
    then Raised ValueError
    else
      let size := Z.of_nat (n_rows observed * n_cols observed) in
      let dof := (size - Z.of_nat (n_rows observed + n_cols observed) + 2 - 1)%Z in
      if (dof =? 0)%Z
      then Returned (mkChi2 (Float.of_Z 0) (Float.of_Z 1) dof expected)
      else
        let sp := power_divergence (cells observed) expected dof in
        Returned (mkChi2 (fst sp) (snd sp) dof expected).

(** [perform_chi_squared_test(df, assignment_col)]. *)
Definition perform_chi_squared_test (df : option DataFrame) (assignment_col : string)
  : outcome (option Chi2Result) :=
  match df with
  | None => Returned None
  | Some df =>
      if negb (has_col assignment_col df) || negb (has_col converted df)
      then Returned None
      else
        index <- getitem df assignment_col ;;
        cols <- getitem df converted ;;
        result <- chi2_contingency (crosstab index cols) ;;
        Returned (Some result)
  end.

(** The body of the loop of lines 95 to 105, for one variant. *)
Definition posterior_line (df : DataFrame) (assignment_col : string)
  (x : list float64) (variant : value) : outcome Line :=
  keys <- getitem df assignment_col ;;
  let variant_data := filter_rows (map (fun v => py_eqb v variant) keys) df in
  flags <- getitem variant_data converted ;;
  successes <- series_sum flags ;;
  let failures := Float.sub (Float.of_nat (nrows variant_data)) successes in
  let a := Float.add successes (Float.of_Z 1) in
  let b := Float.add failures (Float.of_Z 1) in
  Returned (mkLine x (map (fun t => beta_pdf t a b) x) variant a b).

(** [create_posterior_distribution_chart(df, assignment_col)].  The legend
    entry [f"{variant} (a={a}, b={b})"] of a line is kept as its three
    parts. *)
Definition create_posterior_distribution_chart
  (df : option DataFrame) (assignment_col : string) : outcome (option Figure) :=
  match df with
  | None => Returned None
  | Some df =>
      if negb (has_col assignment_col df) || negb (has_col converted df)
      then Returned None
      else
        keys <- getitem df assignment_col ;;
        let variants := unique keys in
        if negb (List.length variants =? 2)%nat
           || negb (contains (VStr "A") variants)
           || negb (contains (VStr "B") variants)
        then Returned None
        else
          let x := linspace 0 1 1000 in
          plotted <- mapM (posterior_line df assignment_col x) variants ;;
          Returned (Some (mkFigure plotted
                            "Conversion Rate"
                            "Posterior Density"
                            "Posterior Distribution of Conversion Rates"
                            true))
  end.

End Statistics.

(* ================================================================= *)
(** * Vocabulary of the specification *)

(** The order of the group keys, as a relation. *)
Definition key_le (u v : value) : Prop := key_leb u v = true.

(** The frame [df'] is [df] enriched with the derived column read off the
    column [event2_col]: same rows, every other column untouched and in
    place, the derived column a non-null flag per row, appended when the
    name was free. *)
Definition enriched (df df' : DataFrame) (event2_col : string) : Prop :=
  nrows df' = nrows df /\
  (forall c, c <> converted -> getitem df' c = getitem df c) /\
  col_names df' =
    (if has_col converted df then col_names df else col_names df ++ [converted]) /\
  exists events,
    getitem df event2_col = Returned events /\
    getitem df' converted = Returned (not_isnull events).

(** Two datasets that differ at most in the values of the column [c]. *)
Definition same_except (c : string) (df1 df2 : DataFrame) : Prop :=
  nrows df1 = nrows df2 /\
  col_names df1 = col_names df2 /\
  forall c', c' <> c -> getitem df1 c' = getitem df2 c'.

(** The names [reset_index] finds taken in the aggregated frame. *)
Definition name_taken (g : string) : bool :=
  String.eqb g "count" || String.eqb g "sum".

(** The rows of a group, counted on the assignment column: the rows whose
    value is the key [k]; and those among them whose event is set. *)
Definition group_size (keys : list value) (k : value) : nat :=
  List.length (filter (same_key k) keys).

Definition group_successes (keys events : list value) (k : value) : nat :=
  List.length
    (filter (fun r => same_key k (fst r) && notnull (snd r)) (combine keys events)).

(** The conversion records as the specification describes them, one per
    group key: the key, the rows of the group, the successes among them and
    their quotient. *)
Definition record_count (keys : list value) (k : value) : value :=
  VNum (Float.of_nat (group_size keys k)).

Definition record_sum (keys events : list value) (k : value) : value :=
  VNum (Float.of_nat (group_successes keys events k)).

Definition record_rate (keys events : list value) (k : value) : value :=
  VNum (Float.div (Float.of_nat (group_successes keys events k))
                  (Float.of_nat (group_size keys k))).

Definition records_table (assignment_col : string) (keys events : list value)
  : DataFrame :=
  let ks := group_keys keys in
  setitem
    (mkDF (List.length ks)
       [(assignment_col, ks);
        ("count", map (record_count keys) ks);
        ("sum", map (record_sum keys events) ks)])
    "conversion_rate"
    (map (record_rate keys events) ks).

(** The rate of the group of key [k], as the float the table holds. *)
Definition rate_of (keys events : list value) (k : value) : float64 :=
  Float.div (Float.of_nat (group_successes keys events k))
            (Float.of_nat (group_size keys k)).

(** The lift of the records: defined when the labels are exactly "A" and
    "B", then the relative difference of the two rates. *)
Definition lift_of_records (assignment_col : string) (keys events : list value)
  : option float64 :=
  if String.eqb assignment_col "conversion_rate" then None
  else
    let labels := unique (group_keys keys) in
    if (List.length labels =? 2)%nat
       && contains (VStr "A") labels && contains (VStr "B") labels
    then
      let a := rate_of keys events (VStr "A") in
      let b := rate_of keys events (VStr "B") in
      Some (Float.div (Float.sub b a) a)
    else None.

(** Columns of counts and of finite rates. *)
Definition count_cells (counts : list nat) : list value :=
  map (fun n => VNum (Float.of_nat n)) counts.

Definition rate_cells (rates : list Q) : list value :=
  map (fun q => VNum (Fin q)) rates.

(** The rate of [s] successes among [c] rows, as an exact fraction. *)
Definition fraction (s c : nat) : Q :=
  Qred (inject_Z (Z.of_nat s) / inject_Z (Z.of_nat c)).

(** The two labels of an A/B test. *)
Definition is_A_or_B (v : value) : Prop := v = VStr "A" \/ v = VStr "B".

(** The groups and the outcomes a contingency table is built on. *)
Definition observed_groups (index cols : list value) : list value :=
  group_keys (map fst (observed_rows index cols)).

Definition observed_outcomes (index cols : list value) : list value :=
  group_keys (map snd (observed_rows index cols)).




(** A cell that is a boolean, and one that is [True]. *)
Definition is_bool (v : value) : Prop := exists b, v = VBool b.

Definition is_true (v : value) : bool :=
  match v with VBool true => true | _ => false end.

(** The rows of a variant, and its rows with the derived flag set. *)
Definition rows_of (keys : list value) (variant : value) : nat :=
  List.length (filter (fun v => py_eqb v variant) keys).

Definition successes_of (keys flags : list value) (variant : value) : nat :=
  List.length
    (filter (fun r => py_eqb (fst r) variant && is_true (snd r)) (combine keys flags)).

(** A grid of [n] points that rises from 0 to 1. *)
Definition rising_grid (xs : list float64) (n : nat) : Prop :=
  List.length xs = n /\
  nth 0 xs NaN = Fin 0 /\
  nth (n - 1) xs NaN = Fin 1 /\
  forall i, (S i < n)%nat ->
    exists p q, nth i xs NaN = Fin p /\ nth (S i) xs NaN = Fin q /\ (p < q)%Q.

(** A plotted line is the posterior of its variant: Beta parameters one
    above the successes and the failures of the group, on the grid [xs]. *)
Definition posterior_of (density : float64 -> float64 -> float64 -> float64)
  (keys flags : list value) (xs : list float64) (l : Line) : Prop :=
  let n := Z.of_nat (rows_of keys (line_variant l)) in
  let s := Z.of_nat (successes_of keys flags (line_variant l)) in
  line_a l = Float.of_Z (s + 1) /\
  line_b l = Float.of_Z (n - s + 1) /\
  Float.add (line_a l) (line_b l) = Float.of_Z (n + 2) /\
  line_x l = xs /\
  line_y l = map (fun t => density t (line_a l) (line_b l)) xs.

(** The assignment column of [df] has exactly two distinct values, the
    labels "A" and "B", and the derived column is there. *)
Definition two_variants_A_B (df : DataFrame) (assignment_col : string) : Prop :=
  has_col converted df = true /\
  exists keys,
    getitem df assignment_col = Returned keys /\
    (unique keys = [VStr "A"; VStr "B"] \/ unique keys = [VStr "B"; VStr "A"]).

(** The chart [fig] of the dataset: one line per variant in the order the
    variants are met, each the posterior of its variant on the grid of 1000
    points. *)
Definition posterior_chart_of (density : float64 -> float64 -> float64 -> float64)
  (df : DataFrame) (assignment_col : string) (fig : Figure) : Prop :=
  exists keys flags,
    getitem df assignment_col = Returned keys /\
    getitem df converted = Returned flags /\
    map line_variant (lines fig) = unique keys /\
    Forall (posterior_of density keys flags (linspace 0 1 1000)) (lines fig) /\
    rising_grid (linspace 0 1 1000) 1000.

(* ================================================================= *)
(** * Sample datasets *)

(** A stand-in for scipy's statistic and tail probability where an example
    is evaluated: no example depends on the two numbers. *)
Definition no_statistic (observed : list (list Z)) (expected : list (list float64))
  (dof : Z) : float64 * float64 := (NaN, NaN).

(** A stand-in for the density where an example is evaluated. *)
Definition no_density (x a b : float64) : float64 := NaN.

(** The scenario of the specification: four rows, two per variant. *)
Definition df_scenario : DataFrame :=
  mkDF 4
    [("signup", [VStr "s1"; VStr "s2"; VStr "s3"; VStr "s4"]);
     ("purchase", [VNull; VStr "x"; VNull; VStr "y"]);
     ("variant", [VStr "A"; VStr "A"; VStr "B"; VStr "B"])].

(** The scenario after the call, and its records. *)
Definition df_scenario_enriched : DataFrame :=
  mkDF 4
    [("signup", [VStr "s1"; VStr "s2"; VStr "s3"; VStr "s4"]);
     ("purchase", [VNull; VStr "x"; VNull; VStr "y"]);
     ("variant", [VStr "A"; VStr "A"; VStr "B"; VStr "B"]);
     ("converted", [VBool false; VBool true; VBool false; VBool true])].

Definition records_scenario : DataFrame :=
  mkDF 2
    [("variant", [VStr "A"; VStr "B"]);
     ("count", [VInt 2; VInt 2]);
     ("sum", [VInt 1; VInt 1]);
     ("conversion_rate", [VNum (Fin (1 # 2)); VNum (Fin (1 # 2))])].


(** The chart of the scenario. *)
Definition figure_scenario : Figure :=
  mkFigure
    [mkLine (linspace 0 1 1000) (map (fun _ => NaN) (linspace 0 1 1000))
            (VStr "A") (Float.of_Z 2) (Float.of_Z 2);
     mkLine (linspace 0 1 1000) (map (fun _ => NaN) (linspace 0 1 1000))
            (VStr "B") (Float.of_Z 2) (Float.of_Z 2)]
    "Conversion Rate"
    "Posterior Density"
    "Posterior Distribution of Conversion Rates"
    true.

(** The scenario with other values, nulls among them, in the first event
    column. *)
Definition df_scenario_other_signup : DataFrame :=
  mkDF 4
    [("signup", [VNull; VStr "t"; VNull; VNum (Fin 7)]);
     ("purchase", [VNull; VStr "x"; VNull; VStr "y"]);
     ("variant", [VStr "A"; VStr "A"; VStr "B"; VStr "B"])].

(** One event column, selected as both events. *)
Definition df_one_event_null : DataFrame :=
  mkDF 1 [("purchase", [VNull]); ("variant", [VStr "A"])].

Definition df_one_event_set : DataFrame :=
  mkDF 1 [("purchase", [VStr "x"]); ("variant", [VStr "A"])].

(** A query result that already has a column named [converted]. *)
Definition df_with_converted : DataFrame :=
  mkDF 1
    [("purchase", [VNull]);
     ("variant", [VStr "A"]);
     ("converted", [VStr "yes"])].

(** Variant "B" is met first. *)
Definition df_B_first : DataFrame :=
  mkDF 2
    [("purchase", [VStr "x"; VStr "y"]);
     ("variant", [VStr "B"; VStr "A"])].

Definition records_B_first : DataFrame :=
  mkDF 2
    [("variant", [VStr "A"; VStr "B"]);
     ("count", [VInt 1; VInt 1]);
     ("sum", [VInt 1; VInt 1]);
     ("conversion_rate", [VInt 1; VInt 1])].

(** Only variant "A" is present. *)
Definition df_only_A : DataFrame :=
  mkDF 2
    [("purchase", [VStr "x"; VNull]);
     ("variant", [VStr "A"; VStr "A"])].

Definition df_only_A_enriched : DataFrame :=
  mkDF 2
    [("purchase", [VStr "x"; VNull]);
     ("variant", [VStr "A"; VStr "A"]);
     ("converted", [VBool true; VBool false])].

Definition records_only_A : DataFrame :=
  mkDF 1
    [("variant", [VStr "A"]);
     ("count", [VInt 2]);
     ("sum", [VInt 1]);
     ("conversion_rate", [VNum (Fin (1 # 2))])].

(** A dataset with a row that has no assignment; it is also the one row
    that did not convert. *)
Definition df_unassigned_row : DataFrame :=
  mkDF 3
    [("purchase", [VStr "x"; VStr "y"; VNull]);
     ("variant", [VStr "A"; VStr "B"; VNull])].

Definition df_unassigned_row_enriched : DataFrame :=
  mkDF 3
    [("purchase", [VStr "x"; VStr "y"; VNull]);
     ("variant", [VStr "A"; VStr "B"; VNull]);
     ("converted", [VBool true; VBool true; VBool false])].

Definition records_unassigned_row : DataFrame :=
  mkDF 2
    [("variant", [VStr "A"; VStr "B"]);
     ("count", [VInt 1; VInt 1]);
     ("sum", [VInt 1; VInt 1]);
     ("conversion_rate", [VInt 1; VInt 1])].


(** Variant "A" has rows and no conversion. *)
Definition df_zero_rate : DataFrame :=
  mkDF 2
    [("signup", [VStr "s1"; VStr "s2"]);
     ("purchase", [VNull; VStr "x"]);
     ("variant", [VStr "A"; VStr "B"])].

Definition records_zero_rate : DataFrame :=
  mkDF 2
    [("variant", [VStr "A"; VStr "B"]);
     ("count", [VInt 1; VInt 1]);
     ("sum", [VInt 0; VInt 1]);
     ("conversion_rate", [VInt 0; VInt 1])].

(** Neither variant has a conversion. *)
Definition df_no_conversion : DataFrame :=
  mkDF 2
    [("signup", [VStr "s1"; VStr "s2"]);
     ("purchase", [VNull; VNull]);
     ("variant", [VStr "A"; VStr "B"])].

(** No row has an assignment. *)
Definition df_no_assignment : DataFrame :=
  mkDF 1
    [("purchase", [VStr "x"]);
     ("variant", [VNull])].

Definition df_no_assignment_enriched : DataFrame :=
  mkDF 1
    [("purchase", [VStr "x"]);
     ("variant", [VNull]);
     ("converted", [VBool true])].

Definition records_no_assignment : DataFrame :=
  mkDF 0
    [("variant", []); ("count", []); ("sum", []); ("conversion_rate", [])].

(** No row at all, the columns in place. *)
Definition df_no_rows : DataFrame :=
  mkDF 0 [("variant", []); ("converted", [])].

(** The assignment column is the derived column itself, and its second
    row is null. *)
Definition df_assigned_by_converted : DataFrame :=
  mkDF 3
    [("purchase", [VStr "x"; VNull; VStr "y"]);
     ("converted", [VStr "A"; VNull; VStr "B"])].

(** A dataset that brings a [converted] column of numbers. *)
Definition df_numeric_flags : DataFrame :=
  mkDF 2
    [("variant", [VStr "A"; VStr "B"]);
     ("converted", [VInt 2; VInt 0])].

(** The assignment column is named like an aggregate. *)
Definition df_count_column : DataFrame :=
  mkDF 2
    [("purchase", [VStr "x"; VNull]);
     ("count", [VStr "A"; VStr "B"])].

(* ================================================================= *)
(** * Vocabulary of the further properties *)

(** The assignment values that are not null are exactly the two labels
    "A" and "B", both met. *)
Definition exactly_A_and_B (keys : list value) : Prop :=
  In (VStr "A") keys /\
  In (VStr "B") keys /\
  forall v, In v keys -> notnull v = true -> is_A_or_B v.

(* ================================================================= *)
(** * The query *)

(** A row of the query result as [dict(row)] gives it: the fields in
    order, each name once. *)
Definition record : Type := list (string * value).

(** [d.get(k)]. *)
Fixpoint dict_get (k : string) (d : record) : option value :=
  match d with
  | [] => None
  | (n, v) :: d' => if String.eqb k n then Some v else dict_get k d'
  end.

(** The names met so far, then those of [ks] that are new, in order. *)
Fixpoint add_keys (seen ks : list string) : list string :=
  match ks with
  | [] => seen
  | k :: ks' =>
      if existsb (String.eqb k) seen then add_keys seen ks'
      else add_keys (seen ++ [k]) ks'
  end.

(** The columns [pd.DataFrame] gives a list of dicts: the field names in
    the order they are first met. *)
Definition union_keys (rows : list record) : list string :=
  fold_left (fun seen r => add_keys seen (map fst r)) rows [].

(** The cell of a row in a column: the value of the field, NaN where the
    row has no such field. *)
Definition cell_of (k : string) (r : record) : value :=
  match dict_get k r with
  | Some v => v
  | None => VNum NaN
  end.

Definition is_num (v : value) : bool :=
  match v with VNum _ => true | _ => false end.

(** The array pandas infers for the cells of a column
    ([lib.maybe_convert_objects]): cells that are numbers or null, with a
    number or a NaN among them, make a float64 array, in which a [None] is
    NaN; any other column keeps its cells, in a boolean or an object
    array.  A whole number beyond 2^53 is rounded in a float64 array; the
    embedding of numbers does not show it, and nothing is stated of the
    number cells. *)
Definition float_column (cells : list value) : bool :=
  existsb is_num cells
  && forallb (fun v => match v with VNum _ | VNull => true | _ => false end) cells.

Definition infer_cell (v : value) : value :=
  match v with
  | VNull => VNum NaN
  | _ => v
  end.

Definition infer_column (cells : list value) : list value :=
  if float_column cells then map infer_cell cells else cells.

(** [pd.DataFrame(rows)] on a list of dicts. *)
Definition frame_of_records (rows : list record) : DataFrame :=
  mkDF (List.length rows)
       (map (fun k => (k, infer_column (map (cell_of k) rows))) (union_keys rows)).

(* ================================================================= *)
(** * The page *)

(** What the script writes.  A formatted string is kept as the text it is
    and the numbers it prints. *)
Inductive message : Type :=
| SampleData
| LiftDrop (lift_drop : float64)
| NoLiftDrop
| ColumnProblem
| ChiSquaredResults
| ChiSquaredStatistic (chi2 : float64)
| PValue (p : float64)
| DegreesOfFreedom (dof : Z)
| Significant (p alpha : float64)
| NotSignificant (p alpha : float64)
| NoChiSquaredTest
| NoPosteriorChart
| PleaseEnterQuery
| AnErrorOccurred (e : exn).

(** The bar chart of the conversion rates: the bars, a label with a width
    each, the widths annotated on the bars as percentages, and the limits
    of the x axis. *)
Record BarChart : Type := mkBarChart {
  bars : list (value * value);
  annotations : list value;
  bar_xlabel : string;
  bar_title : string;
  bar_xlim : Q * Q
}.

Inductive output : Type :=
| Title (text : string)
| SidebarHeader (text : string)
| Selectbox (label : string) (options : list string) (disabled : bool)
| TextArea (label : string)
| Button (label : string)
| Write (m : message)
| Table (df : DataFrame)
| PyplotBars (chart : BarChart)
| PyplotPosterior (fig : Figure)
| Warning (m : message)
| Error (m : message).

Definition page : Type := list output.

(** A step of the script: it reads and updates a state, appends to the
    page, and returns or raises; what is on the page when it raises stays
    there. *)
Definition App (S A : Type) : Type := S * page -> (S * page) * outcome A.

Definition ret {S A : Type} (a : A) : App S A :=
  fun sp => (sp, Returned a).

Definition and_then {S A B : Type} (m : App S A) (k : A -> App S B) : App S B :=
  fun sp =>
    match m sp with
    | (sp', Returned a) => k a sp'
    | (sp', Raised e) => (sp', Raised e)
    end.

Notation "x <~ m ;; k" := (and_then m (fun x => k))
  (at level 61, m at next level, right associativity).
Notation "m ;;; k" := (and_then m (fun _ => k))
  (at level 61, right associativity).

Definition get_state {S : Type} : App S S :=
  fun sp => (sp, Returned (fst sp)).

Definition put_state {S : Type} (s : S) : App S unit :=
  fun sp => ((s, snd sp), Returned tt).

Definition show {S : Type} (o : output) : App S unit :=
  fun sp => ((fst sp, snd sp ++ [o]), Returned tt).

Definition try_call {S A : Type} (r : outcome A) : App S A :=
  fun sp => (sp, r).

(** A column selection: a name, or [None] when the select box had no
    option.  Column names are strings: [None] is never among them. *)
Definition selection : Type := option string.

(** [calculate_conversion_rates] on the selections of the side bar. *)
Definition calculate_selected (df : DataFrame) (e1 e2 g : selection)
  : DataFrame * outcome (option DataFrame * option float64) :=
  match e1, e2, g with
  | Some event1_col, Some event2_col, Some assignment_col =>
      calculate_conversion_rates df event1_col event2_col assignment_col
  | _, _, _ => (df, Returned (None, None))
  end.

(** [df.head(n)]. *)
Definition head (n : nat) (df : DataFrame) : DataFrame :=
  mkDF (Nat.min n (nrows df))
       (map (fun c => (fst c, firstn n (snd c))) (columns df)).

Definition is_str (v : value) : bool :=
  match v with VStr _ => true | _ => false end.

(** [ax.barh(y, width)]: one bar per label.  Labels are all strings, on a
    categorical axis, or none is; matplotlib refuses a mix of the two. *)
Definition barh (labels widths : list value) : outcome (list (value * value)) :=
  if forallb is_str labels || forallb (fun v => negb (is_str v)) labels
  then Returned (combine labels widths)
  else Raised TypeError.

(** [create_horizontal_conversion_chart(conversion_rates, assignment_col)]. *)
Definition create_horizontal_conversion_chart
  (conversion_rates : option DataFrame) (assignment_col : selection)
  : outcome (option BarChart) :=
  match conversion_rates with
  | None => Returned None
  | Some conversion_rates =>
      match assignment_col with
      | None => Raised KeyError
      | Some assignment_col =>
          labels <- getitem conversion_rates assignment_col ;;
          rates <- getitem conversion_rates "conversion_rate" ;;
          drawn <- barh labels rates ;;
          Returned (Some (mkBarChart drawn (map snd drawn)
                            "Conversion Rate"
                            "Conversion Rate by Assignment"
                            (0, 1)%Q))
      end
  end.

(** [x < y] on floats: false when either is NaN. *)
Definition float_ltb (x y : float64) : bool :=
  match x, y with
  | NaN, _ | _, NaN => false
  | Fin a, Fin b => negb (Qle_bool b a)
  | NInf, (Fin _ | PInf) => true
  | Fin _, PInf => true
  | _, _ => false
  end.

Definition alpha : float64 := Fin (5 # 100).

Section Script.

Variable client : string -> outcome (list record).
Variable power_divergence :
  list (list Z) -> list (list float64) -> Z -> float64 * float64.
Variable beta_pdf : float64 -> float64 -> float64 -> float64.

(** [run_query(query)]: the frame of the rows, or an error on the page and
    [None] when the client raises.  The cache hands out a copy of the
    frame on each call. *)
Definition run_query {S : Type} (query : string) : App S (option DataFrame) :=
  match client query with
  | Returned rows => ret (Some (frame_of_records rows))
  | Raised e => show (Error (AnErrorOccurred e)) ;;; ret None
  end.

(** Line 163: the derived column is written once more from the second
    event column. *)
Definition derive_again (event2_col : selection) : App DataFrame unit :=
  df <~ get_state ;;
  match event2_col with
  | None => try_call (Raised KeyError)
  | Some event2_col =>
      events <~ try_call (getitem df event2_col) ;;
      put_state (setitem df converted (not_isnull events))
  end.

(** Lines 152 to 173. *)
Definition show_conversion_rates (e1 e2 g : selection) : App DataFrame unit :=
  show (Write SampleData) ;;;
  df <~ get_state ;;
  show (Table (head 10 df)) ;;;
  put_state (fst (calculate_selected df e1 e2 g)) ;;;
  result <~ try_call (snd (calculate_selected df e1 e2 g)) ;;
  match fst result with
  | Some conversion_rates =>
      derive_again e2 ;;;
      conversion_chart <~
        try_call (create_horizontal_conversion_chart (Some conversion_rates) g) ;;
      match conversion_chart with
      | Some chart => show (PyplotBars chart)
      | None => ret tt
      end ;;;
      match snd result with
      | Some lift_drop => show (Write (LiftDrop lift_drop))
      | None => show (Write NoLiftDrop)
      end
  | None => show (Write ColumnProblem)
  end.

(** Lines 175 to 189. *)
Definition show_chi_squared_test (g : selection) : App DataFrame unit :=
  df <~ get_state ;;
  chi2_result <~
    try_call (match g with
              | Some assignment_col =>
                  perform_chi_squared_test power_divergence (Some df) assignment_col
              | None => Returned None
              end) ;;
  match chi2_result with
  | Some r =>
      show (Write ChiSquaredResults) ;;;
      show (Write (ChiSquaredStatistic (statistic r))) ;;;
      show (Write (PValue (pvalue r))) ;;;
      show (Write (DegreesOfFreedom (dof r))) ;;;
      if float_ltb (pvalue r) alpha
      then show (Write (Significant (pvalue r) alpha))
      else show (Write (NotSignificant (pvalue r) alpha))
  | None => show (Write NoChiSquaredTest)
  end.

(** Lines 191 to 196. *)
Definition show_posterior_chart (g : selection) : App DataFrame unit :=
  df <~ get_state ;;
  posterior_chart <~
    try_call (match g with
              | Some assignment_col =>
                  create_posterior_distribution_chart beta_pdf (Some df) assignment_col
              | None => Returned None
              end) ;;
  match posterior_chart with
  | Some fig => show (PyplotPosterior fig)
  | None => show (Write NoPosteriorChart)
  end.

(** Lines 152 to 196, on the frame the query gave. *)
Definition show_analysis (e1 e2 g : selection) : App DataFrame unit :=
  show_conversion_rates e1 e2 g ;;;
  show_chi_squared_test g ;;;
  show_posterior_chart g.

(** The session state of lines 116 to 123. *)
Record Session : Type := mkSession {
  session_df : option DataFrame;
  event1_column : selection;
  event2_column : selection;
  assignment_column : selection
}.

Definition new_session : Session := mkSession None None None None.

(** [st.selectbox(label, options, ...)]: [None] when there is no option;
    with options, the value the widget holds for its key, an option or
    [None], which is an input of the run. *)
Definition selectbox (options : list string) (held : selection) : selection :=
  match options with
  | [] => None
  | _ :: _ => held
  end.

(** What the widgets give when the script runs: the values held by the
    three select boxes, the text of the query, and whether the button was
    clicked. *)
Record Inputs : Type := mkInputs {
  picked1 : selection;
  picked2 : selection;
  picked3 : selection;
  query_text : string;
  clicked : bool
}.

(** The frame in the state of a run of the analysis, carried back to the
    session. *)
Definition on_frame (df : DataFrame) (s : Session) (m : App DataFrame unit)
  : App Session unit :=
  fun sp =>
    match m (df, snd sp) with
    | ((df', pg), r) =>
        ((mkSession (Some df') (event1_column s) (event2_column s)
                    (assignment_column s), pg), r)
    end.

(** One run of the script, lines 113 to 198. *)
Definition script (i : Inputs) : App Session unit :=
  show (Title "BigQuery Query Interface") ;;;
  s <~ get_state ;;
  show (SidebarHeader "Column Selection") ;;;
  let all_columns :=
    match session_df s with
    | Some df => col_names df
    | None => []
    end in
  let disabled := (List.length all_columns =? 0)%nat in
  show (Selectbox "Select Event 1 Column:" all_columns disabled) ;;;
  show (Selectbox "Select Event 2 Column:" all_columns disabled) ;;;
  show (Selectbox "Select Assignment Column:" all_columns disabled) ;;;
  let s1 := mkSession (session_df s)
                      (selectbox all_columns (picked1 i))
                      (selectbox all_columns (picked2 i))
                      (selectbox all_columns (picked3 i)) in
  put_state s1 ;;;
  show (TextArea "Enter your BigQuery SQL query here:") ;;;
  show (Button "Run Query") ;;;
  if clicked i then
    if (String.length (query_text i) =? 0)%nat
    then show (Warning PleaseEnterQuery)
    else
      df <~ run_query (query_text i) ;;
      put_state (mkSession df (event1_column s1) (event2_column s1)
                           (assignment_column s1)) ;;;
      match df with
      | Some df =>
          on_frame df s1
            (show_analysis (event1_column s1) (event2_column s1)
                           (assignment_column s1))
      | None => ret tt
      end
  else ret tt.

End Script.

(** The verdict the page gives on a test result. *)
Definition verdict (r : Chi2Result) : message :=
  if float_ltb (pvalue r) alpha
  then Significant (pvalue r) alpha
  else NotSignificant (pvalue r) alpha.

(** The columns the side bar lists: those of the frame the session holds
    when the run starts. *)
Definition listed_columns (s : Session) : list string :=
  match session_df s with
  | Some df => col_names df
  | None => []
  end.

(** The widgets every run draws. *)
Definition widgets (all_columns : list string) : page :=
  let disabled := (List.length all_columns =? 0)%nat in
  [Title "BigQuery Query Interface";
   SidebarHeader "Column Selection";
   Selectbox "Select Event 1 Column:" all_columns disabled;
   Selectbox "Select Event 2 Column:" all_columns disabled;
   Selectbox "Select Assignment Column:" all_columns disabled;
   TextArea "Enter your BigQuery SQL query here:";
   Button "Run Query"].

(* ================================================================= *)
(** * Sample query results *)

(** Two rows; the second has no purchase field. *)
Definition rows_sample : list record :=
  [[("purchase", VStr "x"); ("variant", VStr "A")];
   [("variant", VStr "B")]].

(** A client that answers every query with the sample rows, and one that
    fails. *)
Definition client_sample (query : string) : outcome (list record) :=
  Returned rows_sample.

Definition client_failing (query : string) : outcome (list record) :=
  Raised ValueError.

(** A click on the button with a query typed in. *)
Definition click_sample : Inputs := mkInputs None None None "SELECT 1" true.

(** Every row converted. *)
Definition df_all_converted : DataFrame :=
  mkDF 2
    [("variant", [VStr "A"; VStr "B"]);
     ("converted", [VBool true; VBool true])].
(* ================================================================= *)
(** * Properties of the frame operations *)

Lemma bind_returned {A B : Type} (m : outcome A) (k : A -> outcome B) (b : B) :
  bind m k = Returned b -> exists a, m = Returned a /\ k a = Returned b.
Proof.
  destruct m as [a | e]; simpl; intros H.
  - exists a. split; [reflexivity | exact H].
  - discriminate H.
Qed.

Lemma has_col_lookup (c : string) (df : DataFrame) :
  has_col c df = true <-> exists vs, lookup c (columns df) = Some vs.
Proof.
  unfold has_col, col_names.
  induction (columns df) as [| [n ws] cols IH]; simpl.
  - split; [discriminate | intros [vs H]; discriminate H].
  - destruct (String.eqb c n); simpl.
    + split; [intros _; exists ws; reflexivity | reflexivity].
    + exact IH.
Qed.

Lemma has_col_false_lookup (c : string) (df : DataFrame) :
  has_col c df = false <-> lookup c (columns df) = None.
Proof.
  unfold has_col, col_names.
  induction (columns df) as [| [n ws] cols IH]; simpl.
  - split; reflexivity.
  - destruct (String.eqb c n); simpl.
    + split; discriminate.
    + exact IH.
Qed.

Lemma getitem_has_col (df : DataFrame) (c : string) :
  has_col c df = true -> exists vs, getitem df c = Returned vs.
Proof.
  intros H. apply has_col_lookup in H. destruct H as [vs H].
  exists vs. unfold getitem. rewrite H. reflexivity.
Qed.

Lemma lookup_replace_col (c c' : string) (vs : list value) cols :
  lookup c' (replace_col c vs cols) =
  if String.eqb c' c
  then match lookup c cols with Some _ => Some vs | None => None end
  else lookup c' cols.
Proof.
  induction cols as [| [n ws] cols IH]; simpl.
  - destruct (String.eqb c' c); reflexivity.
  - destruct (String.eqb c n) eqn:Ecn; simpl.
    + apply String.eqb_eq in Ecn. subst n.
      destruct (String.eqb c' c); reflexivity.
    + destruct (String.eqb c' n) eqn:Ec'n.
      * apply String.eqb_eq in Ec'n. subst n.
        rewrite String.eqb_sym, Ecn. reflexivity.
      * exact IH.
Qed.

Lemma lookup_app_new (c c' : string) (vs : list value) cols :
  lookup c cols = None ->
  lookup c' (cols ++ [(c, vs)]) =
  if String.eqb c' c then Some vs else lookup c' cols.
Proof.
  induction cols as [| [n ws] cols IH]; simpl; intros Hnone.
  - reflexivity.
  - destruct (String.eqb c n) eqn:Ecn; [discriminate Hnone |].
    destruct (String.eqb c' n) eqn:Ec'n.
    + apply String.eqb_eq in Ec'n. subst n.
      rewrite String.eqb_sym, Ecn. reflexivity.
    + apply IH, Hnone.
Qed.

(** Reading a column back after [df[c] = vs]. *)
Lemma getitem_setitem (df : DataFrame) (c c' : string) (vs : list value) :
  getitem (setitem df c vs) c' =
  if String.eqb c' c then Returned vs else getitem df c'.
Proof.
  unfold getitem, setitem.
  destruct (has_col c df) eqn:Hc; simpl.
  - rewrite lookup_replace_col.
    apply has_col_lookup in Hc. destruct Hc as [ws Hc]. rewrite Hc.
    destruct (String.eqb c' c); reflexivity.
  - apply has_col_false_lookup in Hc.
    rewrite (lookup_app_new _ _ _ _ Hc).
    destruct (String.eqb c' c); reflexivity.
Qed.

Lemma nrows_setitem (df : DataFrame) (c : string) (vs : list value) :
  nrows (setitem df c vs) = nrows df.
Proof. unfold setitem. destruct (has_col c df); reflexivity. Qed.

Lemma map_fst_replace_col (c : string) (vs : list value) cols :
  map fst (replace_col c vs cols) = map fst cols.
Proof.
  induction cols as [| [n ws] cols IH]; simpl; [reflexivity |].
  destruct (String.eqb c n); simpl; [reflexivity | now rewrite IH].
Qed.

Lemma col_names_setitem (df : DataFrame) (c : string) (vs : list value) :
  col_names (setitem df c vs) =
  if has_col c df then col_names df else col_names df ++ [c].
Proof.
  unfold setitem, col_names. destruct (has_col c df); simpl.
  - apply map_fst_replace_col.
  - rewrite map_app. reflexivity.
Qed.

Lemma guard_false (df : DataFrame) (e1 e2 g : string) :
  guard df e1 e2 g = false ->
  empty df = false /\ has_col e1 df = true /\
  has_col e2 df = true /\ has_col g df = true.
Proof.
  unfold guard. intros H.
  apply orb_false_iff in H. destruct H as [H Hg].
  apply orb_false_iff in H. destruct H as [H H2].
  apply orb_false_iff in H. destruct H as [H0 H1].
  apply negb_false_iff in Hg, H2, H1. auto.
Qed.

(** Past its guard the function has written the derived column. *)
Lemma calculate_state (df : DataFrame) (e1 e2 g : string) :
  guard df e1 e2 g = false ->
  exists events,
    getitem df e2 = Returned events /\
    fst (calculate_conversion_rates df e1 e2 g) =
    setitem df converted (not_isnull events).
Proof.
  intros Hg. unfold calculate_conversion_rates. rewrite Hg.
  destruct (guard_false _ _ _ _ Hg) as (_ & _ & He2 & _).
  destruct (getitem_has_col _ _ He2) as [events Hev].
  exists events. rewrite Hev. split; reflexivity.
Qed.

(* ================================================================= *)
(** * The guard and the enrichment of the dataset *)

(** C4: the call returns [(None, None)] exactly when the dataset is empty or
    one of the three names is not a column of it; it then returns normally
    and leaves the dataset as it was. *)
Theorem calculate_conversion_rates_absent_iff
  (df : DataFrame) (event1_col event2_col assignment_col : string) :
  (snd (calculate_conversion_rates df event1_col event2_col assignment_col)
     = Returned (None, None)
   <-> (empty df = true \/ has_col event1_col df = false \/
        has_col event2_col df = false \/ has_col assignment_col df = false))
  /\ (snd (calculate_conversion_rates df event1_col event2_col assignment_col)
        = Returned (None, None) ->
      fst (calculate_conversion_rates df event1_col event2_col assignment_col) = df).
Proof.
  assert (Hiff :
    snd (calculate_conversion_rates df event1_col event2_col assignment_col)
      = Returned (None, None)
    <-> guard df event1_col event2_col assignment_col = true).
  { unfold calculate_conversion_rates.
    destruct (guard df event1_col event2_col assignment_col) eqn:Hg.
    - simpl. split; reflexivity.
    - destruct (getitem df event2_col) as [events | e]; simpl.
      + split; [| discriminate]. intros H.
        apply bind_returned in H. destruct H as (cr & _ & H).
        apply bind_returned in H. destruct H as (lift & _ & H).
        discriminate H.
      + split; discriminate. }
  split.
  - rewrite Hiff. unfold guard.
    rewrite !orb_true_iff, !negb_true_iff. tauto.
  - intros H. apply Hiff in H.
    unfold calculate_conversion_rates. rewrite H. reflexivity.
Qed.

(** C9, as the code has it: past the guard the dataset keeps its rows and
    every column other than [converted], values and position; the derived
    column is appended when no column had that name and written over the
    column that had it otherwise. *)
Theorem calculate_conversion_rates_enriches
  (df : DataFrame) (event1_col event2_col assignment_col : string) :
  guard df event1_col event2_col assignment_col = false ->
  enriched df
    (fst (calculate_conversion_rates df event1_col event2_col assignment_col))
    event2_col.
Proof.
  intros Hg.
  destruct (calculate_state _ _ _ _ Hg) as (events & Hev & ->).
  unfold enriched. repeat split.
  - apply nrows_setitem.
  - intros c Hc. rewrite getitem_setitem.
    destruct (String.eqb c converted) eqn:E; [| reflexivity].
    apply String.eqb_eq in E. contradiction.
  - apply col_names_setitem.
  - exists events. split; [exact Hev |].
    rewrite getitem_setitem, String.eqb_refl. reflexivity.
Qed.

Lemma calculate_conversion_rates_enriches_witness :
  guard df_scenario "signup" "purchase" "variant" = false /\
  enriched df_scenario
    (fst (calculate_conversion_rates df_scenario "signup" "purchase" "variant"))
    "purchase".
Proof.
  split.
  - reflexivity.
  - apply (calculate_conversion_rates_enriches df_scenario "signup" "purchase" "variant").
    reflexivity.
Defined.

(** C9 as stated fails on a dataset that has a [converted] column of its
    own: the call is past its guard and the values of that column are
    gone. *)
Lemma converted_column_overwritten :
  guard df_with_converted "purchase" "purchase" "variant" = false /\
  has_col converted df_with_converted = true /\
  getitem df_with_converted converted = Returned [VStr "yes"] /\
  getitem
    (fst (calculate_conversion_rates df_with_converted "purchase" "purchase" "variant"))
    converted = Returned [VBool false] /\
  ~ (forall c, has_col c df_with_converted = true ->
       getitem
         (fst (calculate_conversion_rates df_with_converted "purchase" "purchase" "variant"))
         c = getitem df_with_converted c).
Proof.
  repeat split.
  intros H. specialize (H converted eq_refl). discriminate H.
Qed.

(* ================================================================= *)
(** * The first event column *)

Lemma same_except_guard (c e2 g : string) (df1 df2 : DataFrame) :
  same_except c df1 df2 -> guard df1 c e2 g = guard df2 c e2 g.
Proof.
  intros (Hn & Hc & _). unfold guard, empty, has_col.
  rewrite Hn, Hc.
  assert (Hnil : match columns df1 with [] => true | _ => false end =
                 match columns df2 with [] => true | _ => false end).
  { unfold col_names in Hc.
    destruct (columns df1), (columns df2); simpl in Hc;
      try reflexivity; discriminate Hc. }
  rewrite Hnil. reflexivity.
Qed.

(** The table of line 35 reads the frame through two columns only. *)
Lemma conversion_table_ext (df1 df2 : DataFrame) (g : string) :
  getitem df1 g = getitem df2 g ->
  getitem df1 converted = getitem df2 converted ->
  conversion_table df1 g = conversion_table df2 g.
Proof.
  intros Hg Hc. unfold conversion_table. rewrite Hg, Hc. reflexivity.
Qed.

(** C5, as the code has it: when the first event column is selected
    neither as the second event column nor as the assignment column, two
    datasets that differ only in its values give the same conversion
    records and the same lift. *)
Theorem event1_values_unused
  (df1 df2 : DataFrame) (event1_col event2_col assignment_col : string) :
  same_except event1_col df1 df2 ->
  event1_col <> event2_col ->
  event1_col <> assignment_col ->
  snd (calculate_conversion_rates df1 event1_col event2_col assignment_col) =
  snd (calculate_conversion_rates df2 event1_col event2_col assignment_col).
Proof.
  intros Hsame H2 Hg.
  pose proof (same_except_guard _ event2_col assignment_col _ _ Hsame) as Hguard.
  destruct Hsame as (_ & _ & Hcols).
  unfold calculate_conversion_rates. rewrite Hguard.
  destruct (guard df2 event1_col event2_col assignment_col); [reflexivity |].
  rewrite (Hcols event2_col) by congruence.
  destruct (getitem df2 event2_col) as [events | e]; [| reflexivity].
  simpl.
  rewrite (conversion_table_ext
             (setitem df1 converted (not_isnull events))
             (setitem df2 converted (not_isnull events)) assignment_col).
  - reflexivity.
  - rewrite !getitem_setitem.
    destruct (String.eqb assignment_col converted); [reflexivity |].
    apply Hcols. congruence.
  - rewrite !getitem_setitem, String.eqb_refl. reflexivity.
Qed.

Lemma same_except_signup :
  same_except "signup" df_scenario df_scenario_other_signup.
Proof.
  unfold same_except. repeat split.
  intros c Hc. unfold getitem. simpl.
  destruct (String.eqb c "signup") eqn:E; [| reflexivity].
  apply String.eqb_eq in E. contradiction.
Defined.

Lemma event1_values_unused_witness :
  snd (calculate_conversion_rates df_scenario "signup" "purchase" "variant") =
  snd (calculate_conversion_rates df_scenario_other_signup "signup" "purchase" "variant").
Proof.
  apply (event1_values_unused df_scenario df_scenario_other_signup
           "signup" "purchase" "variant").
  - exact same_except_signup.
  - discriminate.
  - discriminate.
Defined.

(** C5 as stated fails when one column is selected as both events: the two
    datasets differ only in the values of the first event column, and the
    records differ. *)
Lemma event1_selected_twice_counterexample :
  same_except "purchase" df_one_event_null df_one_event_set /\
  has_col "purchase" df_one_event_null = true /\
  has_col "purchase" df_one_event_set = true /\
  snd (calculate_conversion_rates df_one_event_null "purchase" "purchase" "variant") <>
  snd (calculate_conversion_rates df_one_event_set "purchase" "purchase" "variant").
Proof.
  split; [| split; [reflexivity | split; [reflexivity |]]].
  - unfold same_except. repeat split.
    intros c Hc. unfold getitem. simpl.
    destruct (String.eqb c "purchase") eqn:E; [| reflexivity].
    apply String.eqb_eq in E. contradiction.
  - intros H. vm_compute in H. discriminate H.
Qed.

(* ================================================================= *)
(** * Floats and keys *)

Lemma Qred_inject_Z (z : Z) : Qred (inject_Z z) = inject_Z z.
Proof.
  unfold Qred, inject_Z.
  pose proof (Z.ggcd_gcd z 1) as Hg.
  pose proof (Z.ggcd_correct_divisors z 1) as Hd.
  destruct (Z.ggcd z 1) as [g [aa bb]]. simpl in Hg, Hd.
  rewrite Z.gcd_1_r in Hg. subst g. destruct Hd as [Ha Hb].
  rewrite Z.mul_1_l in Ha, Hb. subst aa bb. reflexivity.
Qed.

Lemma add_of_Z (a b : Z) :
  Float.add (Float.of_Z a) (Float.of_Z b) = Float.of_Z (a + b).
Proof.
  unfold Float.add, Float.of_Z. f_equal.
  rewrite <- inject_Z_plus. apply Qred_inject_Z.
Qed.

Lemma sub_of_Z (a b : Z) :
  Float.sub (Float.of_Z a) (Float.of_Z b) = Float.of_Z (a - b).
Proof.
  unfold Float.sub, Float.opp, Float.of_Z.
  rewrite <- inject_Z_opp, Qred_inject_Z. apply (add_of_Z a (- b)).
Qed.

(** Case analysis on the cells that occur in a goal about keys. *)
Ltac split_value v :=
  destruct v as [| ? | [? | | |] | [|]].

Lemma same_key_refl (v : value) : same_key v v = true.
Proof.
  split_value v; simpl; auto using String.eqb_refl, Qeq_bool_refl.
Qed.

Lemma same_key_sym (u v : value) : same_key u v = same_key v u.
Proof.
  split_value u; split_value v; simpl;
    auto using String.eqb_sym, Qeq_bool_comm.
Qed.

Lemma same_key_trans (u v w : value) :
  same_key u v = true -> same_key v w = true -> same_key u w = true.
Proof.
  split_value u; split_value v; simpl; try discriminate;
    split_value w; simpl; try discriminate; auto;
    try (intros H1 H2; apply String.eqb_eq in H1; subst; exact H2);
    try (intros H1 H2; exact (Qeq_bool_trans _ _ _ H1 H2)).
Qed.

Lemma same_key_isnull (u v : value) :
  same_key u v = true -> isnull v = isnull u.
Proof.
  split_value u; split_value v; simpl; auto; discriminate.
Qed.

Lemma py_eqb_str (v : value) (s : string) :
  py_eqb v (VStr s) = true <-> v = VStr s.
Proof.
  split.
  - split_value v; simpl; try discriminate.
    intros H. apply String.eqb_eq in H. now subst.
  - intros ->. simpl. apply String.eqb_refl.
Qed.

(* ================================================================= *)
(** * Distinct values and sorting *)

Lemma filter_length_le {A : Type} (f : A -> bool) (l : list A) :
  (List.length (filter f l) <= List.length l)%nat.
Proof.
  induction l as [| a l IH]; simpl; [lia |].
  destruct (f a); simpl; lia.
Qed.

Lemma filter_nil_iff {A : Type} (f : A -> bool) (l : list A) :
  (forall a, In a l -> f a = false) -> filter f l = [].
Proof.
  induction l as [| a l IH]; simpl; intros H; [reflexivity |].
  rewrite (H a) by auto. apply IH. intros b Hb. apply H. auto.
Qed.

Lemma filter_ext_in_eq {A : Type} (f g : A -> bool) (l : list A) :
  (forall a, In a l -> f a = g a) -> filter f l = filter g l.
Proof.
  induction l as [| a l IH]; simpl; intros H; [reflexivity |].
  rewrite (H a) by auto. rewrite IH; [reflexivity |].
  intros b Hb. apply H. auto.
Qed.

Lemma filter_filter {A : Type} (f g : A -> bool) (l : list A) :
  filter f (filter g l) = filter (fun a => g a && f a) l.
Proof.
  induction l as [| a l IH]; simpl; [reflexivity |].
  destruct (g a); simpl; [destruct (f a) |]; rewrite IH; reflexivity.
Qed.

Lemma filter_length_perm {A : Type} (f : A -> bool) (l l' : list A) :
  Permutation l l' -> List.length (filter f l) = List.length (filter f l').
Proof.
  induction 1 as [| a l l' _ IH | a b l | l l' l'' _ IH1 _ IH2]; simpl.
  - reflexivity.
  - destruct (f a); simpl; congruence.
  - destruct (f a), (f b); reflexivity.
  - congruence.
Qed.

Lemma unique_incl (vs : list value) (v : value) :
  In v (unique vs) -> In v vs.
Proof.
  induction vs as [| w vs IH]; simpl; [tauto |].
  intros [H | H]; [auto |].
  apply filter_In in H. right. apply IH, H.
Qed.

(** Every value of the column is the key of exactly one entry of
    [unique]. *)
Lemma unique_exactly_one (vs : list value) (v : value) :
  In v vs ->
  List.length (filter (fun k => same_key k v) (unique vs)) = 1%nat.
Proof.
  induction vs as [| w vs IH]; simpl; [tauto |].
  intros Hin. rewrite filter_filter.
  destruct (same_key w v) eqn:Ewv; simpl.
  - f_equal. rewrite filter_nil_iff; [reflexivity |].
    intros k _. destruct (same_key w k) eqn:Ewk; simpl; [reflexivity |].
    destruct (same_key k v) eqn:Ekv; [| reflexivity].
    rewrite same_key_sym in Ekv.
    rewrite (same_key_trans _ _ _ Ewv Ekv) in Ewk. discriminate Ewk.
  - destruct Hin as [-> | Hin].
    + rewrite same_key_refl in Ewv. discriminate Ewv.
    + rewrite <- (IH Hin). f_equal. apply filter_ext_in_eq.
      intros k _. destruct (same_key k v) eqn:Ekv; [| apply andb_false_r].
      destruct (same_key w k) eqn:Ewk; [| reflexivity].
      rewrite (same_key_trans _ _ _ Ewk Ekv) in Ewv. discriminate Ewv.
Qed.

Lemma insert_key_perm (k : value) (ks : list value) :
  Permutation (insert_key k ks) (k :: ks).
Proof.
  induction ks as [| k' ks IH]; simpl; [reflexivity |].
  destruct (key_leb k k'); [reflexivity |].
  rewrite IH. apply perm_swap.
Qed.

Lemma sort_keys_perm (ks : list value) : Permutation (sort_keys ks) ks.
Proof.
  induction ks as [| k ks IH]; simpl; [reflexivity |].
  rewrite insert_key_perm. now apply perm_skip.
Qed.

(** The key order is total. *)
Lemma key_leb_total (u v : value) :
  key_leb u v = false -> key_leb v u = true.
Proof.
  unfold key_leb.
  destruct (isnull v) eqn:Ev; [discriminate |].
  destruct (isnull u) eqn:Eu; [reflexivity |].
  split_value u; split_value v; simpl in *; try discriminate; auto;
    try (intros H; destruct (String.leb_total s s0) as [K | K]; congruence);
    try (intros H; apply Qle_bool_iff;
         match goal with
         | [ H : Qle_bool ?a ?b = false |- (?b <= ?a)%Q ] =>
             destruct (Qlt_le_dec b a) as [Hlt | Hle];
             [ apply Qlt_le_weak, Hlt
             | apply Qle_bool_iff in Hle; congruence ]
         end).
Qed.

Lemma ascii_compare_lt_trans (a b c : ascii) :
  Ascii.compare a b = Lt -> Ascii.compare b c = Lt -> Ascii.compare a c = Lt.
Proof.
  unfold Ascii.compare. rewrite !N.compare_lt_iff. lia.
Qed.

Lemma ascii_compare_refl (a : ascii) : Ascii.compare a a = Eq.
Proof. unfold Ascii.compare. apply N.compare_refl. Qed.

Lemma string_compare_refl (s : string) : String.compare s s = Eq.
Proof.
  induction s as [| a s IH]; simpl; [reflexivity |].
  rewrite ascii_compare_refl. exact IH.
Qed.

Lemma string_compare_lt_trans (s t u : string) :
  String.compare s t = Lt -> String.compare t u = Lt -> String.compare s u = Lt.
Proof.
  revert t u. induction s as [| a s IH]; intros [| b t] [| c u]; simpl;
    try discriminate; auto.
  destruct (Ascii.compare a b) eqn:Eab; try discriminate;
    destruct (Ascii.compare b c) eqn:Ebc; try discriminate; intros H1 H2.
  - apply Ascii.compare_eq_iff in Eab, Ebc. subst.
    rewrite ascii_compare_refl. eapply IH; eassumption.
  - apply Ascii.compare_eq_iff in Eab. subst. rewrite Ebc. reflexivity.
  - apply Ascii.compare_eq_iff in Ebc. subst. rewrite Eab. reflexivity.
  - rewrite (ascii_compare_lt_trans _ _ _ Eab Ebc). reflexivity.
Qed.

Lemma string_leb_trans (s t u : string) :
  String.leb s t = true -> String.leb t u = true -> String.leb s u = true.
Proof.
  unfold String.leb.
  destruct (String.compare s t) eqn:Est; try discriminate;
    destruct (String.compare t u) eqn:Etu; try discriminate; intros _ _.
  - apply String.compare_eq_iff in Est, Etu. subst.
    rewrite string_compare_refl. reflexivity.
  - apply String.compare_eq_iff in Est. subst. rewrite Etu. reflexivity.
  - apply String.compare_eq_iff in Etu. subst. rewrite Est. reflexivity.
  - rewrite (string_compare_lt_trans _ _ _ Est Etu). reflexivity.
Qed.

(** The key order is transitive. *)
Lemma key_leb_trans (u v w : value) :
  key_leb u v = true -> key_leb v w = true -> key_leb u w = true.
Proof.
  unfold key_leb.
  destruct (isnull w) eqn:Ew; [reflexivity |].
  destruct (isnull v) eqn:Ev; [discriminate |].
  destruct (isnull u) eqn:Eu; [discriminate |].
  split_value u; split_value v; simpl in *; try discriminate;
    split_value w; simpl in *; try discriminate; auto;
    try (apply string_leb_trans);
    try (intros H1 H2; apply Qle_bool_iff in H1, H2; apply Qle_bool_iff;
         eapply Qle_trans; eassumption).
Qed.

Lemma insert_key_forall (P : value -> Prop) (k : value) (ks : list value) :
  P k -> Forall P ks -> Forall P (insert_key k ks).
Proof.
  intros Hk H. induction H as [| k' ks Hk' Hks IH]; simpl.
  - repeat constructor. exact Hk.
  - destruct (key_leb k k'); repeat constructor; assumption.
Qed.

Lemma insert_key_strongly_sorted (k : value) (ks : list value) :
  StronglySorted key_le ks -> StronglySorted key_le (insert_key k ks).
Proof.
  induction 1 as [| k' ks Hs IH Hall]; simpl.
  - repeat constructor.
  - destruct (key_leb k k') eqn:E.
    + constructor; [constructor; assumption |].
      constructor; [exact E |].
      eapply Forall_impl; [| exact Hall].
      intros w Hw. exact (key_leb_trans _ _ _ E Hw).
    + constructor; [exact IH |].
      apply insert_key_forall; [apply key_leb_total, E | exact Hall].
Qed.

(** The group keys come out in ascending order. *)
Lemma sort_keys_strongly_sorted (ks : list value) :
  StronglySorted key_le (sort_keys ks).
Proof.
  induction ks as [| k ks IH]; simpl; [constructor |].
  apply insert_key_strongly_sorted, IH.
Qed.

(* ================================================================= *)
(** * The groups of [groupby] *)

Lemma mapM_returned {A B : Type} (f : A -> outcome B) (h : A -> B) (l : list A) :
  (forall a, In a l -> f a = Returned (h a)) -> mapM f l = Returned (map h l).
Proof.
  induction l as [| a l IH]; simpl; intros H; [reflexivity |].
  rewrite (H a) by auto. simpl. rewrite IH; [reflexivity |].
  intros b Hb. apply H. auto.
Qed.

Lemma group_count (keys events : list value) (k : value) :
  List.length keys = List.length events ->
  series_count (group_of k (combine keys (not_isnull events))) = group_size keys k.
Proof.
  unfold series_count, group_of, group_size, not_isnull.
  revert events. induction keys as [| a keys IH]; intros [| e events] Hlen;
    simpl in *; try discriminate; [reflexivity |].
  destruct (same_key k a); simpl; rewrite IH by lia; reflexivity.
Qed.

Lemma of_nat_succ (n : nat) :
  Float.add (Float.of_Z 1) (Float.of_nat n) = Float.of_nat (S n).
Proof.
  unfold Float.of_nat. rewrite add_of_Z. f_equal. lia.
Qed.

Lemma of_nat_same (n : nat) :
  Float.add (Float.of_Z 0) (Float.of_nat n) = Float.of_nat n.
Proof.
  unfold Float.of_nat. rewrite add_of_Z. reflexivity.
Qed.

Lemma group_sum (keys events : list value) (k : value) :
  series_sum (group_of k (combine keys (not_isnull events))) =
  Returned (Float.of_nat (group_successes keys events k)).
Proof.
  unfold group_of, group_successes, not_isnull.
  revert events. induction keys as [| a keys IH]; intros [| e events];
    try reflexivity.
  cbn [combine map filter fst snd].
  destruct (same_key k a); cbn [andb map snd]; [| apply IH].
  cbn [series_sum isnull]. unfold notnull.
  destruct (isnull e); cbn [negb num_of List.length]; rewrite IH; cbn [bind].
  - now rewrite of_nat_same.
  - now rewrite of_nat_succ.
Qed.

Lemma series_div_records (keys events ks : list value) :
  series_div (map (record_sum keys events) ks) (map (record_count keys) ks) =
  Returned (map (record_rate keys events) ks).
Proof.
  unfold series_div. induction ks as [| k ks IH]; [reflexivity |].
  cbn [map combine mapM]. rewrite IH. reflexivity.
Qed.

(** Lines 35 to 40 compute the records of the specification, unless the
    assignment column bears the name of one of the two aggregates. *)
Lemma conversion_table_records (df : DataFrame) (g : string) (keys events : list value) :
  getitem df g = Returned keys ->
  getitem df converted = Returned (not_isnull events) ->
  List.length keys = List.length events ->
  conversion_table df g =
  if name_taken g then Raised ValueError
  else Returned (records_table g keys events).
Proof.
  intros Hk Hf Hlen. unfold conversion_table. rewrite Hk, Hf. cbn [bind].
  unfold groupby_count_sum.
  rewrite (mapM_returned _ (record_sum keys events)).
  2:{ intros k _. rewrite group_sum. reflexivity. }
  cbn [bind fst snd].
  rewrite (map_ext _ (record_count keys)).
  2:{ intros k. unfold record_count. now rewrite group_count. }
  unfold reset_index, has_col, col_names, name_taken. cbn [columns map fst existsb].
  rewrite orb_false_r.
  destruct (String.eqb g "count") eqn:Ec; [reflexivity |].
  destruct (String.eqb g "sum") eqn:Es; [reflexivity |].
  cbn [orb bind]. unfold getitem. cbn [columns lookup].
  rewrite (String.eqb_sym "sum" g), Es, (String.eqb_sym "count" g), Ec.
  cbn [String.eqb Ascii.eqb Bool.eqb bind].
  rewrite series_div_records. reflexivity.
Qed.

Lemma list_sum_map_add {A : Type} (a b : A -> nat) (l : list A) :
  list_sum (map (fun x => a x + b x)%nat l) =
  (list_sum (map a l) + list_sum (map b l))%nat.
Proof.
  induction l as [| x l IH]; simpl; [reflexivity |]. rewrite IH. lia.
Qed.

Lemma list_sum_indicator {A : Type} (p : A -> bool) (l : list A) :
  list_sum (map (fun x => if p x then 1 else 0)%nat l) = List.length (filter p l).
Proof.
  induction l as [| x l IH]; simpl; [reflexivity |].
  destruct (p x); simpl; rewrite IH; reflexivity.
Qed.

(** Keys that each element matches exactly once split a list. *)
Lemma partition_sizes {X K : Type} (m : K -> X -> bool) (ks : list K) (l : list X) :
  (forall x, In x l -> List.length (filter (fun k => m k x) ks) = 1%nat) ->
  list_sum (map (fun k => List.length (filter (m k) l)) ks) = List.length l.
Proof.
  induction l as [| x l IH]; intros H.
  - simpl. clear H. induction ks as [| k ks IHk]; simpl; auto.
  - rewrite (map_ext _
      (fun k => (if m k x then 1 else 0) + List.length (filter (m k) l))%nat).
    2:{ intros k. simpl. destruct (m k x); reflexivity. }
    rewrite list_sum_map_add, list_sum_indicator, IH.
    + rewrite (H x) by (left; reflexivity). reflexivity.
    + intros y Hy. apply H. right. exact Hy.
Qed.

(** When every value has exactly one key among [ks], the groups of [ks]
    partition the values. *)
Lemma group_sizes_total (ks l : list value) :
  (forall v, In v l ->
     List.length (filter (fun k => same_key k v) ks) = 1%nat) ->
  list_sum (map (group_size l) ks) = List.length l.
Proof. apply (partition_sizes same_key). Qed.

Lemma group_keys_in (keys : list value) (k : value) :
  In k (group_keys keys) -> In k keys /\ notnull k = true.
Proof.
  unfold group_keys. intros H.
  apply (Permutation_in _ (sort_keys_perm _)) in H.
  apply unique_incl, filter_In in H. exact H.
Qed.

Lemma group_keys_exactly_one (keys : list value) (v : value) :
  In v keys -> notnull v = true ->
  List.length (filter (fun k => same_key k v) (group_keys keys)) = 1%nat.
Proof.
  intros Hin Hnn. unfold group_keys.
  rewrite (filter_length_perm _ _ _ (sort_keys_perm _)).
  apply unique_exactly_one. apply filter_In. auto.
Qed.

Lemma group_size_dropna (keys : list value) (k : value) :
  notnull k = true ->
  group_size (filter notnull keys) k = group_size keys k.
Proof.
  intros Hk. unfold group_size. rewrite filter_filter. f_equal.
  apply filter_ext_in_eq. intros a _.
  destruct (same_key k a) eqn:E; [| apply andb_false_r].
  apply same_key_isnull in E. unfold notnull in *. rewrite E, Hk. reflexivity.
Qed.

(** The counts of the groups add up to the rows whose assignment value is
    not null. *)
Lemma group_counts_total (keys : list value) :
  list_sum (map (group_size keys) (group_keys keys)) =
  List.length (filter notnull keys).
Proof.
  rewrite <- (group_sizes_total (group_keys keys) (filter notnull keys)).
  - f_equal. apply map_ext_in. intros k Hk.
    symmetry. apply group_size_dropna. apply (group_keys_in _ _ Hk).
  - intros v Hv. apply filter_In in Hv. destruct Hv as [Hin Hnn].
    apply group_keys_exactly_one; assumption.
Qed.

Lemma group_size_pos (keys : list value) (k : value) :
  In k keys -> (0 < group_size keys k)%nat.
Proof.
  unfold group_size. induction keys as [| a keys IH]; simpl; [tauto |].
  intros [-> | H].
  - rewrite same_key_refl. simpl. lia.
  - destruct (same_key k a); simpl; [lia | apply IH, H].
Qed.

Lemma group_successes_le (keys events : list value) (k : value) :
  (group_successes keys events k <= group_size keys k)%nat.
Proof.
  unfold group_successes, group_size.
  revert events. induction keys as [| a keys IH]; intros [| e events];
    simpl; try lia.
  specialize (IH events).
  destruct (same_key k a); simpl; [destruct (notnull e); simpl |]; lia.
Qed.

(* ================================================================= *)
(** * What [calculate_conversion_rates] returns *)

Lemma wf_getitem_length (df : DataFrame) (c : string) (vs : list value) :
  wf df -> getitem df c = Returned vs -> List.length vs = nrows df.
Proof.
  intros [_ Hlen]. unfold getitem.
  destruct (lookup c (columns df)) as [ws |] eqn:E; [| discriminate].
  intros H. injection H as ->.
  induction (columns df) as [| [n xs] cols IH]; simpl in E; [discriminate |].
  inversion Hlen as [| ? ? Hx Hrest]; subst.
  destruct (String.eqb c n).
  - injection E as ->. exact Hx.
  - apply IH; assumption.
Qed.

Lemma not_isnull_length (vs : list value) :
  List.length (not_isnull vs) = List.length vs.
Proof. unfold not_isnull. apply length_map. Qed.

Lemma not_isnull_notnull (vs : list value) (v : value) :
  In v (not_isnull vs) -> notnull v = true.
Proof.
  unfold not_isnull. intros H. apply in_map_iff in H.
  destruct H as (w & <- & _). reflexivity.
Qed.

Lemma name_taken_false (g : string) :
  name_taken g = false -> g <> "count" /\ g <> "sum".
Proof.
  unfold name_taken. intros H. apply orb_false_iff in H. destruct H as [Hc Hs].
  apply String.eqb_neq in Hc, Hs. auto.
Qed.

Lemma getitem_records_count (g : string) (keys events : list value) :
  name_taken g = false ->
  getitem (records_table g keys events) "count" =
  Returned (map (record_count keys) (group_keys keys)).
Proof.
  intros H. apply name_taken_false in H. destruct H as [Hc _].
  unfold records_table. rewrite getitem_setitem. cbn [String.eqb Ascii.eqb Bool.eqb].
  unfold getitem. cbn [columns lookup].
  apply String.eqb_neq in Hc. rewrite String.eqb_sym, Hc. reflexivity.
Qed.

Lemma getitem_records_sum (g : string) (keys events : list value) :
  name_taken g = false ->
  getitem (records_table g keys events) "sum" =
  Returned (map (record_sum keys events) (group_keys keys)).
Proof.
  intros H. apply name_taken_false in H. destruct H as [_ Hs].
  unfold records_table. rewrite getitem_setitem. cbn [String.eqb Ascii.eqb Bool.eqb].
  unfold getitem. cbn [columns lookup].
  apply String.eqb_neq in Hs. rewrite String.eqb_sym, Hs. reflexivity.
Qed.

Lemma getitem_records_rate (g : string) (keys events : list value) :
  getitem (records_table g keys events) "conversion_rate" =
  Returned (map (record_rate keys events) (group_keys keys)).
Proof.
  unfold records_table. rewrite getitem_setitem, String.eqb_refl. reflexivity.
Qed.

Lemma getitem_records_key (g : string) (keys events : list value) :
  g <> "conversion_rate" ->
  getitem (records_table g keys events) g = Returned (group_keys keys).
Proof.
  intros H. unfold records_table. rewrite getitem_setitem.
  apply String.eqb_neq in H. rewrite H.
  unfold getitem. cbn [columns lookup]. rewrite String.eqb_refl. reflexivity.
Qed.

Lemma nrows_records_table (g : string) (keys events : list value) :
  nrows (records_table g keys events) = List.length (group_keys keys).
Proof. unfold records_table. rewrite nrows_setitem. reflexivity. Qed.

(* ================================================================= *)
(** * Arithmetic of the rates *)

Lemma div_of_nat (s c : nat) :
  (0 < c)%nat ->
  Float.div (Float.of_nat s) (Float.of_nat c) = Fin (fraction s c).
Proof.
  intros Hc. unfold Float.div, Float.of_nat, Float.of_Z, fraction.
  destruct (Qeq_bool (inject_Z (Z.of_nat c)) 0) eqn:E; [| reflexivity].
  apply Qeq_bool_eq in E. unfold Qeq, inject_Z in E.
  cbn [Qnum Qden] in E. lia.
Qed.

Lemma fraction_bounds (s c : nat) :
  (s <= c)%nat -> (0 < c)%nat -> (0 <= fraction s c /\ fraction s c <= 1)%Q.
Proof.
  intros Hsc Hc. unfold fraction. rewrite Qred_correct.
  assert (Hpos : (0 < inject_Z (Z.of_nat c))%Q).
  { unfold Qlt, inject_Z. cbn [Qnum Qden]. lia. }
  split.
  - apply Qle_shift_div_l; [exact Hpos |].
    unfold Qle, Qmult, inject_Z. cbn [Qnum Qden]. lia.
  - apply Qle_shift_div_r; [exact Hpos |].
    unfold Qle, Qmult, inject_Z. cbn [Qnum Qden]. lia.
Qed.

Lemma filter_all {A : Type} (f : A -> bool) (l : list A) :
  (forall a, In a l -> f a = true) -> filter f l = l.
Proof.
  induction l as [| a l IH]; simpl; intros H; [reflexivity |].
  rewrite (H a) by auto. f_equal. apply IH. intros b Hb. apply H. auto.
Qed.

(* ================================================================= *)
(** * The lift *)

Lemma lookup_filter_rows (mask : list bool) (c : string) cols :
  lookup c (map (fun col : string * list value => (fst col, select mask (snd col))) cols) =
  option_map (select mask) (lookup c cols).
Proof.
  induction cols as [| [n vs] cols IH]; simpl; [reflexivity |].
  destruct (String.eqb c n); [reflexivity | exact IH].
Qed.

Lemma getitem_filter_rows (mask : list bool) (df : DataFrame) (c : string) :
  getitem (filter_rows mask df) c =
  (vs <- getitem df c ;; Returned (select mask vs)).
Proof.
  unfold getitem, filter_rows. cbn [columns].
  rewrite lookup_filter_rows.
  destruct (lookup c (columns df)); reflexivity.
Qed.

Lemma select_map {A B : Type} (p : A -> bool) (f : A -> B) (l : list A) :
  select (map p l) (map f l) = map f (filter p l).
Proof.
  induction l as [| a l IH]; simpl; [reflexivity |].
  destruct (p a); simpl; rewrite IH; reflexivity.
Qed.

Lemma contains_unique_filter (x : value) (ks : list value) :
  contains x (unique ks) = true ->
  exists k rest, filter (fun v => py_eqb v x) ks = k :: rest.
Proof.
  unfold contains. intros H. apply existsb_exists in H.
  destruct H as (k & Hin & Hk). apply unique_incl in Hin.
  destruct (filter (fun v => py_eqb v x) ks) as [| k' rest] eqn:E.
  - assert (Hf : In k (filter (fun v => py_eqb v x) ks))
      by (apply filter_In; auto).
    rewrite E in Hf. destruct Hf.
  - eauto.
Qed.

(** The rate the function reads for a label that is among the keys. *)
Lemma variant_rate_records (g : string) (keys events : list value) (s : string) :
  name_taken g = false ->
  g <> "conversion_rate" ->
  contains (VStr s) (unique (group_keys keys)) = true ->
  variant_rate (records_table g keys events) g s =
  Returned (rate_of keys events (VStr s)).
Proof.
  intros Hname Hg Hin. unfold variant_rate.
  rewrite (getitem_records_key _ _ _ Hg). cbn [bind].
  rewrite getitem_filter_rows, getitem_records_rate. cbn [bind].
  rewrite select_map.
  destruct (contains_unique_filter _ _ Hin) as (k & rest & E). rewrite E.
  assert (Hk : In k (filter (fun v => py_eqb v (VStr s)) (group_keys keys)))
    by (rewrite E; left; reflexivity).
  apply filter_In in Hk. destruct Hk as [_ Hk]. apply py_eqb_str in Hk. subst k.
  reflexivity.
Qed.

Lemma contains_str_numbers (s : string) (f : value -> float64) (ks : list value) :
  contains (VStr s) (unique (map (fun k => VNum (f k)) ks)) = false.
Proof.
  unfold contains.
  destruct (existsb _ _) eqn:E; [| reflexivity].
  apply existsb_exists in E. destruct E as (v & Hin & Hv).
  apply unique_incl, in_map_iff in Hin. destruct Hin as (k & <- & _).
  simpl in Hv. discriminate Hv.
Qed.

(** Lines 41 to 49 on the table of records: they never raise. *)
Lemma lift_of_records_table (g : string) (keys events : list value) :
  name_taken g = false ->
  lift_of (records_table g keys events) g =
  Returned (lift_of_records g keys events).
Proof.
  intros Hname. unfold lift_of, lift_of_records.
  destruct (String.eqb g "conversion_rate") eqn:Eg.
  - apply String.eqb_eq in Eg. subst g.
    rewrite getitem_records_rate. cbn [bind].
    unfold record_rate. rewrite contains_str_numbers. cbn [andb].
    destruct (_ =? 2)%nat; reflexivity.
  - apply String.eqb_neq in Eg.
    rewrite (getitem_records_key _ _ _ Eg). cbn [bind].
    destruct (_ =? 2)%nat; [| reflexivity]. cbn [andb].
    destruct (contains (VStr "A") _) eqn:EA; [| reflexivity].
    destruct (contains (VStr "B") _) eqn:EB; [| reflexivity].
    rewrite (variant_rate_records _ _ _ _ Hname Eg EA),
            (variant_rate_records _ _ _ _ Hname Eg EB).
    reflexivity.
Qed.

(* ================================================================= *)
(** * The outcome of a call past the guard *)

(** Past the guard the call raises when the assignment column is named
    after one of the two aggregates, and otherwise returns the records of
    the assignment column, as the function groups it, and their lift. *)
Lemma calculate_outcome (df : DataFrame) (e1 e2 g : string) :
  wf df ->
  guard df e1 e2 g = false ->
  exists keys events,
    getitem df e2 = Returned events /\
    getitem (fst (calculate_conversion_rates df e1 e2 g)) g = Returned keys /\
    (g <> converted -> getitem df g = Returned keys) /\
    (g = converted -> keys = not_isnull events) /\
    List.length keys = nrows df /\
    List.length events = nrows df /\
    snd (calculate_conversion_rates df e1 e2 g) =
      if name_taken g then Raised ValueError
      else Returned (Some (records_table g keys events),
                     lift_of_records g keys events).
Proof.
  intros Hwf Hg.
  destruct (calculate_state _ e1 _ _ Hg) as (events & Hev & Hst).
  destruct (guard_false _ _ _ _ Hg) as (_ & _ & _ & Hhas).
  destruct (getitem_has_col _ _ Hhas) as [keys0 Hk0].
  pose proof (wf_getitem_length _ _ _ Hwf Hev) as Hlev.
  pose proof (wf_getitem_length _ _ _ Hwf Hk0) as Hlk0.
  rewrite Hst.
  unfold calculate_conversion_rates. rewrite Hg, Hev. cbn [snd].
  set (df' := setitem df converted (not_isnull events)).
  set (keys := if String.eqb g converted then not_isnull events else keys0).
  assert (Hk : getitem df' g = Returned keys).
  { unfold df', keys. rewrite getitem_setitem.
    destruct (String.eqb g converted); [reflexivity | exact Hk0]. }
  assert (Hf : getitem df' converted = Returned (not_isnull events)).
  { unfold df'. rewrite getitem_setitem, String.eqb_refl. reflexivity. }
  assert (Hlen : List.length keys = nrows df).
  { unfold keys. destruct (String.eqb g converted);
      [rewrite not_isnull_length |]; assumption. }
  exists keys, events. repeat split; try assumption.
  - intros Hne. unfold keys.
    destruct (String.eqb g converted) eqn:E; [| exact Hk0].
    apply String.eqb_eq in E. contradiction.
  - intros ->. unfold keys. rewrite String.eqb_refl. reflexivity.
  - rewrite (conversion_table_records df' g keys events Hk Hf) by congruence.
    destruct (name_taken g) eqn:Hname; [reflexivity |].
    cbn [bind]. rewrite (lift_of_records_table _ _ _ Hname). reflexivity.
Qed.

(** The shape of a successful call. *)
Lemma calculate_returned
  (df df' cr : DataFrame) (e1 e2 g : string) (lift : option float64) :
  wf df ->
  calculate_conversion_rates df e1 e2 g = (df', Returned (Some cr, lift)) ->
  exists keys events,
    guard df e1 e2 g = false /\
    name_taken g = false /\
    getitem df e2 = Returned events /\
    getitem df' g = Returned keys /\
    (g <> converted -> getitem df g = Returned keys) /\
    (g = converted -> keys = not_isnull events) /\
    List.length keys = nrows df /\
    List.length events = nrows df /\
    cr = records_table g keys events /\
    lift = lift_of_records g keys events.
Proof.
  intros Hwf Hcall.
  destruct (guard df e1 e2 g) eqn:Hg.
  { unfold calculate_conversion_rates in Hcall. rewrite Hg in Hcall.
    discriminate Hcall. }
  destruct (calculate_outcome _ e1 _ _ Hwf Hg)
    as (keys & events & Hev & Hk & Hsame & Hconv & Hlk & Hle & Hout).
  rewrite Hcall in Hk, Hout. cbn [fst snd] in Hk, Hout.
  destruct (name_taken g); [discriminate Hout |].
  injection Hout as -> ->.
  exists keys, events. repeat split; assumption.
Qed.

(* ================================================================= *)
(** * Counts and rates *)

(** C6: on a dataset whose assignment column holds only "A" and "B", the
    counts of the emitted groups add up to the number of rows of the
    dataset, every count is positive and every conversion rate lies between
    0 and 1. *)
Theorem counts_cover_rows_and_rates_bounded
  (df df' cr : DataFrame) (event1_col event2_col assignment_col : string)
  (lift : option float64) (assignments : list value) :
  wf df ->
  getitem df assignment_col = Returned assignments ->
  Forall is_A_or_B assignments ->
  calculate_conversion_rates df event1_col event2_col assignment_col
    = (df', Returned (Some cr, lift)) ->
  exists (counts : list nat) (rates : list Q),
    getitem cr "count" = Returned (count_cells counts) /\
    getitem cr "conversion_rate" = Returned (rate_cells rates) /\
    List.length counts = nrows cr /\
    List.length rates = nrows cr /\
    list_sum counts = nrows df /\
    Forall (fun n => 0 < n)%nat counts /\
    Forall (fun q => 0 <= q /\ q <= 1)%Q rates.
Proof.
  intros Hwf Hcol HAB Hcall.
  destruct (calculate_returned _ _ _ _ _ _ _ Hwf Hcall)
    as (keys & events & _ & Hname & _ & _ & Hsame & Hconv & Hlen & _ & -> & _).
  assert (Hnn : forall k, In k keys -> notnull k = true).
  { destruct (string_dec assignment_col converted) as [E | E].
    - rewrite (Hconv E). apply not_isnull_notnull.
    - rewrite (Hsame E) in Hcol. injection Hcol as ->.
      intros k Hk. rewrite Forall_forall in HAB.
      destruct (HAB k Hk) as [-> | ->]; reflexivity. }
  exists (map (group_size keys) (group_keys keys)),
         (map (fun k => fraction (group_successes keys events k) (group_size keys k))
              (group_keys keys)).
  repeat split.
  - rewrite (getitem_records_count _ _ _ Hname).
    unfold count_cells. rewrite map_map. reflexivity.
  - rewrite getitem_records_rate. unfold rate_cells. rewrite map_map.
    f_equal. apply map_ext_in. intros k Hk. unfold record_rate. f_equal.
    apply div_of_nat, group_size_pos. apply (group_keys_in _ _ Hk).
  - rewrite length_map, nrows_records_table. reflexivity.
  - rewrite length_map, nrows_records_table. reflexivity.
  - rewrite group_counts_total, (filter_all _ _ Hnn). exact Hlen.
  - apply Forall_forall. intros n Hn. apply in_map_iff in Hn.
    destruct Hn as (k & <- & Hk). apply group_size_pos, (group_keys_in _ _ Hk).
  - apply Forall_forall. intros q Hq. apply in_map_iff in Hq.
    destruct Hq as (k & <- & Hk). apply fraction_bounds.
    + apply group_successes_le.
    + apply group_size_pos, (group_keys_in _ _ Hk).
Qed.


Ltac prove_wf :=
  split;
  [ repeat (constructor; [simpl; intuition discriminate |]); constructor
  | repeat (constructor; [reflexivity |]); constructor ].

Lemma wf_df_scenario : wf df_scenario.
Proof. prove_wf. Defined.

Lemma counts_cover_rows_and_rates_bounded_witness :
  exists (counts : list nat) (rates : list Q),
    getitem records_scenario "count" = Returned (count_cells counts) /\
    getitem records_scenario "conversion_rate" = Returned (rate_cells rates) /\
    List.length counts = nrows records_scenario /\
    List.length rates = nrows records_scenario /\
    list_sum counts = nrows df_scenario /\
    Forall (fun n => 0 < n)%nat counts /\
    Forall (fun q => 0 <= q /\ q <= 1)%Q rates.
Proof.
  apply (counts_cover_rows_and_rates_bounded
           df_scenario df_scenario_enriched records_scenario
           "signup" "purchase" "variant" (Some (Fin 0))
           [VStr "A"; VStr "A"; VStr "B"; VStr "B"]).
  - exact wf_df_scenario.
  - reflexivity.
  - repeat (constructor; [first [left; reflexivity | right; reflexivity] |]).
    constructor.
  - vm_compute. reflexivity.
Defined.

(* ================================================================= *)
(** * The order of the records *)

(** C3, as the code has it: on a non-empty dataset that has the three
    columns, unless the assignment column is named "count", "sum" or
    "converted", the call returns one record per distinct value of the
    assignment column that is not null, with the rows of its group, their
    successes and their rate, in ascending order of the values, not in the
    order they are first met.  The records are read from the table by
    their columns; the key column is the one named after the assignment
    column, which the rates overwrite when that name is
    "conversion_rate". *)
Theorem records_one_per_key_ascending
  (df : DataFrame) (event1_col event2_col assignment_col : string)
  (keys : list value) :
  wf df ->
  guard df event1_col event2_col assignment_col = false ->
  name_taken assignment_col = false ->
  assignment_col <> converted ->
  getitem df assignment_col = Returned keys ->
  exists df' cr lift events ks,
    calculate_conversion_rates df event1_col event2_col assignment_col
      = (df', Returned (Some cr, lift)) /\
    getitem df event2_col = Returned events /\
    nrows cr = List.length ks /\
    (assignment_col <> "conversion_rate" ->
     getitem cr assignment_col = Returned ks) /\
    getitem cr "count" = Returned (map (record_count keys) ks) /\
    getitem cr "sum" = Returned (map (record_sum keys events) ks) /\
    getitem cr "conversion_rate" = Returned (map (record_rate keys events) ks) /\
    StronglySorted key_le ks /\
    Forall (fun k => In k keys /\ notnull k = true) ks /\
    (forall v, In v keys -> notnull v = true ->
       List.length (filter (fun k => same_key k v) ks) = 1%nat).
Proof.
  intros Hwf Hg Hname Hconv Hkeys.
  destruct (calculate_outcome _ event1_col _ _ Hwf Hg)
    as (keys' & events & Hev & _ & Hsame & _ & _ & _ & Hout).
  rewrite (Hsame Hconv) in Hkeys. injection Hkeys as <-.
  rewrite Hname in Hout.
  exists (fst (calculate_conversion_rates df event1_col event2_col assignment_col)),
         (records_table assignment_col keys' events),
         (lift_of_records assignment_col keys' events),
         events, (group_keys keys').
  repeat split.
  - rewrite <- Hout. apply surjective_pairing.
  - exact Hev.
  - apply nrows_records_table.
  - intros Hne. apply getitem_records_key, Hne.
  - apply getitem_records_count, Hname.
  - apply getitem_records_sum, Hname.
  - apply getitem_records_rate.
  - apply sort_keys_strongly_sorted.
  - apply Forall_forall. intros k Hin. apply group_keys_in, Hin.
  - intros v Hv Hnn. apply group_keys_exactly_one; assumption.
Qed.

Lemma records_one_per_key_ascending_witness :
  exists df' cr lift events ks,
    calculate_conversion_rates df_scenario "signup" "purchase" "variant"
      = (df', Returned (Some cr, lift)) /\
    getitem df_scenario "purchase" = Returned events /\
    nrows cr = List.length ks /\
    ("variant" <> "conversion_rate" -> getitem cr "variant" = Returned ks) /\
    getitem cr "count"
      = Returned (map (record_count [VStr "A"; VStr "A"; VStr "B"; VStr "B"]) ks) /\
    getitem cr "sum"
      = Returned (map (record_sum [VStr "A"; VStr "A"; VStr "B"; VStr "B"] events) ks) /\
    getitem cr "conversion_rate"
      = Returned (map (record_rate [VStr "A"; VStr "A"; VStr "B"; VStr "B"] events) ks) /\
    StronglySorted key_le ks /\
    Forall (fun k => In k [VStr "A"; VStr "A"; VStr "B"; VStr "B"] /\ notnull k = true)
           ks /\
    (forall v, In v [VStr "A"; VStr "A"; VStr "B"; VStr "B"] -> notnull v = true ->
       List.length (filter (fun k => same_key k v) ks) = 1%nat).
Proof.
  apply (records_one_per_key_ascending df_scenario "signup" "purchase" "variant"
           [VStr "A"; VStr "A"; VStr "B"; VStr "B"]).
  - exact wf_df_scenario.
  - reflexivity.
  - reflexivity.
  - discriminate.
  - reflexivity.
Defined.

(** C3 as stated fails where a later value sorts first: "B" is met before
    "A" and the record of "A" comes first. *)
Lemma first_occurrence_order_counterexample :
  getitem df_B_first "variant" = Returned [VStr "B"; VStr "A"] /\
  unique [VStr "B"; VStr "A"] = [VStr "B"; VStr "A"] /\
  snd (calculate_conversion_rates df_B_first "purchase" "purchase" "variant")
    = Returned (Some records_B_first, Some (Fin 0)) /\
  getitem records_B_first "variant" = Returned [VStr "A"; VStr "B"] /\
  getitem records_B_first "variant" <> Returned (unique [VStr "B"; VStr "A"]).
Proof.
  repeat split; try (vm_compute; reflexivity).
  intros H. vm_compute in H. discriminate H.
Qed.

(* ================================================================= *)
(** * Rows without an assignment *)

Lemma select_map_self {A : Type} (p : A -> bool) (l : list A) :
  select (map p l) l = filter p l.
Proof.
  induction l as [| a l IH]; simpl; [reflexivity |].
  destruct (p a); rewrite IH; reflexivity.
Qed.

Lemma select_map_r {A B : Type} (f : A -> B) (mask : list bool) (l : list A) :
  select mask (map f l) = map f (select mask l).
Proof.
  revert l. induction mask as [| b mask IH]; intros [| a l]; simpl;
    try reflexivity.
  - destruct b; reflexivity.
  - destruct b; simpl; rewrite IH; reflexivity.
Qed.

Lemma combine_filter_select {A B : Type} (p : A -> bool) (l : list A) (l' : list B) :
  combine (filter p l) (select (map p l) l') =
  filter (fun r => p (fst r)) (combine l l').
Proof.
  revert l'. induction l as [| a l IH]; intros [| b l']; simpl;
    try reflexivity.
  - destruct (p a); simpl; [| destruct (filter p l)]; reflexivity.
  - destruct (p a); simpl; rewrite IH; reflexivity.
Qed.

Lemma length_select_filter {A B : Type} (p : A -> bool) (l : list A) (l' : list B) :
  List.length l = List.length l' ->
  List.length (select (map p l) l') = List.length (filter p l).
Proof.
  revert l'. induction l as [| a l IH]; intros [| b l'] H; simpl in *;
    try discriminate; [reflexivity |].
  destruct (p a); simpl; rewrite IH by lia; reflexivity.
Qed.

Lemma group_keys_dropna (keys : list value) :
  group_keys (filter notnull keys) = group_keys keys.
Proof.
  unfold group_keys. rewrite filter_filter.
  do 2 f_equal. apply filter_ext_in_eq. intros a _. apply andb_diag.
Qed.

Lemma group_successes_dropna (keys events : list value) (k : value) :
  notnull k = true ->
  group_successes (filter notnull keys) (select (map notnull keys) events) k =
  group_successes keys events k.
Proof.
  intros Hk. unfold group_successes.
  rewrite combine_filter_select, filter_filter. f_equal.
  apply filter_ext_in_eq. intros r _.
  destruct (same_key k (fst r)) eqn:E; [| apply andb_false_r].
  apply same_key_isnull in E. unfold notnull in *. rewrite E, Hk. reflexivity.
Qed.

(** The records do not change when the rows whose assignment value is null
    are taken out of the dataset. *)
Lemma records_table_dropna (g : string) (keys events : list value) :
  records_table g (filter notnull keys) (select (map notnull keys) events) =
  records_table g keys events.
Proof.
  unfold records_table. rewrite group_keys_dropna.
  set (keys' := filter notnull keys).
  set (events' := select (map notnull keys) events).
  assert (Hc : map (record_count keys') (group_keys keys) =
               map (record_count keys) (group_keys keys)).
  { apply map_ext_in. intros k Hk. unfold record_count, keys'.
    rewrite group_size_dropna; [reflexivity | apply (group_keys_in _ _ Hk)]. }
  assert (Hs : map (record_sum keys' events') (group_keys keys) =
               map (record_sum keys events) (group_keys keys)).
  { apply map_ext_in. intros k Hk. unfold record_sum, keys', events'.
    rewrite group_successes_dropna; [reflexivity | apply (group_keys_in _ _ Hk)]. }
  assert (Hr : map (record_rate keys' events') (group_keys keys) =
               map (record_rate keys events) (group_keys keys)).
  { apply map_ext_in. intros k Hk. unfold record_rate, keys', events'.
    rewrite group_successes_dropna, group_size_dropna;
      [reflexivity | apply (group_keys_in _ _ Hk) ..]. }
  rewrite Hc, Hs, Hr. reflexivity.
Qed.

Lemma filter_notnull_lt (keys : list value) :
  existsb isnull keys = true ->
  (List.length (filter notnull keys) < List.length keys)%nat.
Proof.
  induction keys as [| a keys IH]; simpl; [discriminate |].
  unfold notnull at 1. destruct (isnull a); simpl.
  - intros _. pose proof (filter_length_le notnull keys). lia.
  - intros H. specialize (IH H). lia.
Qed.

(** C10, as the code has it: unless the assignment column is named
    "converted", the rows whose assignment value is null take no part in
    the grouping.  The table of records is the one the dataset gives with
    those rows taken out, so they add to no count, no sum and no rate; the
    counts add up to the rows that have an assignment, fewer than the rows
    of the dataset when some assignment is null. *)
Theorem null_assignment_rows_excluded
  (df df' cr : DataFrame) (event1_col event2_col assignment_col : string)
  (lift : option float64) (keys : list value) :
  wf df ->
  assignment_col <> converted ->
  getitem df assignment_col = Returned keys ->
  calculate_conversion_rates df event1_col event2_col assignment_col
    = (df', Returned (Some cr, lift)) ->
  conversion_table (filter_rows (map notnull keys) df') assignment_col
    = Returned cr /\
  exists counts : list nat,
    getitem cr "count" = Returned (count_cells counts) /\
    list_sum counts = List.length (filter notnull keys) /\
    (existsb isnull keys = true -> (list_sum counts < nrows df)%nat).
Proof.
  intros Hwf Hconv Hinput Hcall.
  destruct (calculate_returned _ _ _ _ _ _ _ Hwf Hcall)
    as (keys' & events & Hg & Hname & Hev & Hkeys & Hsame & _ & Hlk & Hle & -> & _).
  rewrite (Hsame Hconv) in Hinput. injection Hinput as <-.
  assert (Hflags : getitem df' converted = Returned (not_isnull events)).
  { destruct (calculate_state _ event1_col _ _ Hg) as (events' & Hev' & Hst).
    rewrite Hcall in Hst. cbn [fst] in Hst. subst df'.
    rewrite Hev in Hev'. injection Hev' as <-.
    rewrite getitem_setitem, String.eqb_refl. reflexivity. }
  split.
  - rewrite (conversion_table_records _ _
               (filter notnull keys') (select (map notnull keys') events)).
    + rewrite Hname. f_equal. apply records_table_dropna.
    + rewrite getitem_filter_rows, Hkeys. cbn [bind].
      rewrite select_map_self. reflexivity.
    + rewrite getitem_filter_rows, Hflags. cbn [bind].
      unfold not_isnull. rewrite select_map_r. reflexivity.
    + symmetry. apply length_select_filter. congruence.
  - exists (map (group_size keys') (group_keys keys')). repeat split.
    + rewrite (getitem_records_count _ _ _ Hname).
      unfold count_cells. rewrite map_map. reflexivity.
    + apply group_counts_total.
    + intros Hnull. rewrite group_counts_total, <- Hlk.
      apply filter_notnull_lt, Hnull.
Qed.

Lemma wf_df_unassigned_row : wf df_unassigned_row.
Proof. prove_wf. Defined.

Lemma null_assignment_rows_excluded_witness :
  conversion_table
    (filter_rows (map notnull [VStr "A"; VStr "B"; VNull]) df_unassigned_row_enriched)
    "variant" = Returned records_unassigned_row /\
  exists counts : list nat,
    getitem records_unassigned_row "count" = Returned (count_cells counts) /\
    list_sum counts = List.length (filter notnull [VStr "A"; VStr "B"; VNull]) /\
    (existsb isnull [VStr "A"; VStr "B"; VNull] = true ->
     (list_sum counts < nrows df_unassigned_row)%nat).
Proof.
  apply (null_assignment_rows_excluded
           df_unassigned_row df_unassigned_row_enriched records_unassigned_row
           "purchase" "purchase" "variant" (Some (Fin 0))).
  - exact wf_df_unassigned_row.
  - discriminate.
  - reflexivity.
  - vm_compute. reflexivity.
Defined.

(** C10 as stated fails where the assignment column is the derived column
    itself: line 34 overwrites it before the grouping, the row whose
    assignment was null is grouped under its flag, and the counts add up
    to all the rows of the dataset. *)
Lemma null_assignment_grouped_under_flag_counterexample :
  guard df_assigned_by_converted "purchase" "purchase" converted = false /\
  getitem df_assigned_by_converted converted
    = Returned [VStr "A"; VNull; VStr "B"] /\
  existsb isnull [VStr "A"; VNull; VStr "B"] = true /\
  exists cr,
    snd (calculate_conversion_rates df_assigned_by_converted
           "purchase" "purchase" converted)
      = Returned (Some cr, None) /\
    getitem cr converted = Returned [VBool false; VBool true] /\
    getitem cr "count" = Returned (count_cells [1; 2]%nat) /\
    list_sum [1; 2]%nat = nrows df_assigned_by_converted /\
    ~ (list_sum [1; 2] < nrows df_assigned_by_converted)%nat.
Proof.
  repeat split; try (vm_compute; reflexivity).
  eexists. repeat split; try (vm_compute; reflexivity).
  vm_compute. lia.
Qed.

(* ================================================================= *)
(** * A control rate of zero *)

(** C1: the code divides by the rate of "A" without looking at it.  On a
    dataset with one row per variant and a conversion in "B" only, the
    records are those of "A" and "B", the rate of "A" is 0, and the call
    returns an infinite lift, not an absent one. *)
Theorem zero_rate_lift_not_absent :
  snd (calculate_conversion_rates df_zero_rate "signup" "purchase" "variant")
    = Returned (Some records_zero_rate, Some PInf) /\
  getitem records_zero_rate "variant" = Returned [VStr "A"; VStr "B"] /\
  getitem records_zero_rate "conversion_rate" = Returned [VInt 0; VInt 1].
Proof. repeat split; vm_compute; reflexivity. Qed.

(** With no conversion in either variant the lift is NaN. *)
Lemma zero_rates_lift_nan :
  exists cr,
    snd (calculate_conversion_rates df_no_conversion "signup" "purchase" "variant")
      = Returned (Some cr, Some NaN).
Proof. eexists. vm_compute. reflexivity. Qed.

Lemma group_size_in_keys (keys : list value) (k : value) :
  In k (group_keys keys) -> (0 < group_size keys k)%nat.
Proof. intros H. apply group_size_pos, (group_keys_in _ _ H). Qed.

(** In general: whenever the records are those of "A" and "B" and no row
    of "A" converted, the lift is returned and is an infinity or NaN. *)
Lemma zero_rate_lift_inf_or_nan
  (df df' cr : DataFrame) (e1 e2 g : string) (lift : option float64)
  (rate_b : value) :
  wf df ->
  calculate_conversion_rates df e1 e2 g = (df', Returned (Some cr, lift)) ->
  getitem cr g = Returned [VStr "A"; VStr "B"] ->
  getitem cr "conversion_rate" = Returned [VInt 0; rate_b] ->
  lift = Some PInf \/ lift = Some NaN.
Proof.
  intros Hwf Hcall Hlabels Hrates.
  destruct (calculate_returned _ _ _ _ _ _ _ Hwf Hcall)
    as (keys & events & _ & Hname & _ & _ & _ & _ & _ & _ & -> & ->).
  rewrite getitem_records_rate in Hrates. injection Hrates as Hrates.
  assert (Hg : g <> "conversion_rate").
  { intros ->. rewrite getitem_records_rate in Hlabels.
    injection Hlabels as Hlabels.
    destruct (group_keys keys); discriminate Hlabels. }
  rewrite (getitem_records_key _ _ _ Hg) in Hlabels. injection Hlabels as Hks.
  unfold lift_of_records.
  apply String.eqb_neq in Hg. rewrite Hg, Hks. cbn [unique filter same_key py_eqb
    String.eqb Ascii.eqb Bool.eqb negb List.length Nat.eqb contains existsb andb orb].
  rewrite Hks in Hrates. cbn [map] in Hrates.
  assert (Ha : rate_of keys events (VStr "A") = Float.of_Z 0).
  { unfold rate_of. unfold record_rate, VInt in Hrates. congruence. }
  rewrite Ha.
  assert (HB : In (VStr "B") (group_keys keys)) by (rewrite Hks; simpl; auto).
  unfold rate_of.
  rewrite (div_of_nat _ _ (group_size_in_keys _ _ HB)).
  set (q := fraction _ _).
  assert (Hq : (0 <= q)%Q).
  { apply fraction_bounds.
    - apply group_successes_le.
    - apply (group_size_in_keys _ _ HB). }
  unfold Float.sub, Float.opp, Float.add, Float.div, Float.of_Z.
  change (inject_Z 0) with 0%Q.
  change (Qeq_bool 0 0) with true. cbv iota.
  set (x := Qred (q + Qred (- 0))).
  assert (Hx : (x == q)%Q).
  { unfold x. rewrite Qred_correct, Qred_correct. ring. }
  destruct (x ?= 0)%Q eqn:E.
  - right. reflexivity.
  - apply Qlt_alt in E. rewrite Hx in E.
    exfalso. apply (Qlt_not_le _ _ E Hq).
  - left. reflexivity.
Qed.

(* ================================================================= *)
(** * Calls that raise *)

Section Raising.

Variable power_divergence :
  list (list Z) -> list (list float64) -> Z -> float64 * float64.

(** C2: the chi-squared test raises where the contingency table is empty.
    On a dataset in which no row has an assignment, the first function
    returns an empty table of records and leaves the derived column, and
    the test on the dataset as it was left raises [ValueError]; so does
    the test on a dataset that has the two columns and no row. *)
Theorem chi_squared_test_raises_on_empty_table :
  calculate_conversion_rates df_no_assignment "purchase" "purchase" "variant"
    = (df_no_assignment_enriched, Returned (Some records_no_assignment, None)) /\
  perform_chi_squared_test power_divergence (Some df_no_assignment_enriched) "variant"
    = Raised ValueError /\
  empty df_no_rows = true /\
  perform_chi_squared_test power_divergence (Some df_no_rows) "variant"
    = Raised ValueError.
Proof. repeat split. Qed.

End Raising.

(** The first function raises as well when the assignment column is named
    "count": [reset_index] cannot insert a column of that name. *)
Lemma assignment_named_count_raises :
  guard df_count_column "purchase" "purchase" "count" = false /\
  snd (calculate_conversion_rates df_count_column "purchase" "purchase" "count")
    = Raised ValueError.
Proof. split; reflexivity. Qed.

(* ================================================================= *)
(** * The contingency table *)

Lemma zsum_of_nat {A : Type} (f : A -> nat) (l : list A) :
  zsum (map (fun x => Z.of_nat (f x)) l) = Z.of_nat (list_sum (map f l)).
Proof.
  induction l as [| a l IH]; simpl; [reflexivity |]. rewrite IH. lia.
Qed.

Lemma observed_rows_notnull (index cols : list value) (p : value * value) :
  In p (observed_rows index cols) ->
  notnull (fst p) = true /\ notnull (snd p) = true.
Proof.
  unfold observed_rows. intros H. apply filter_In in H.
  destruct H as [_ H]. apply andb_true_iff in H. exact H.
Qed.

(** A row of the table adds up to the rows of the group. *)
Lemma crosstab_row_total (index cols : list value) (r : value) :
  zsum (map (cell_count (observed_rows index cols) r)
            (observed_outcomes index cols)) =
  Z.of_nat (List.length
    (filter (fun p => same_key r (fst p)) (observed_rows index cols))).
Proof.
  unfold cell_count. rewrite zsum_of_nat. f_equal.
  rewrite <- (partition_sizes (fun c p => same_key c (snd p))
                (observed_outcomes index cols)).
  - f_equal. apply map_ext. intros c. rewrite filter_filter. reflexivity.
  - intros p Hp. apply filter_In in Hp. destruct Hp as [Hp _].
    apply group_keys_exactly_one.
    + apply in_map, Hp.
    + apply (observed_rows_notnull _ _ _ Hp).
Qed.

(** The table adds up to the rows that enter it. *)
Lemma crosstab_grand_total (index cols : list value) :
  grand_total (crosstab index cols) =
  Z.of_nat (List.length (observed_rows index cols)).
Proof.
  unfold grand_total, row_sums, crosstab. cbn [cells].
  rewrite map_map.
  rewrite (map_ext _ (fun r => Z.of_nat (List.length
             (filter (fun p => same_key r (fst p)) (observed_rows index cols))))).
  2:{ intros r. apply crosstab_row_total. }
  rewrite zsum_of_nat. f_equal.
  apply (partition_sizes (fun r p => same_key r (fst p))).
  intros p Hp. apply group_keys_exactly_one.
  - apply in_map, Hp.
  - apply (observed_rows_notnull _ _ _ Hp).
Qed.





(* ================================================================= *)
(** * Expected frequencies *)



Lemma div_of_Z (a n : Z) :
  n <> 0%Z ->
  Float.div (Float.of_Z a) (Float.of_Z n) = Fin (Qred (inject_Z a / inject_Z n)).
Proof.
  intros Hn. unfold Float.div, Float.of_Z.
  destruct (Qeq_bool (inject_Z n) 0) eqn:E; [| reflexivity].
  apply Qeq_bool_eq in E. unfold Qeq, inject_Z in E. cbn [Qnum Qden] in E. lia.
Qed.



(* ================================================================= *)
(** * The chi-squared test *)


Section Significance.

Variable power_divergence :
  list (list Z) -> list (list float64) -> Z -> float64 * float64.

(** A result of [chi2_contingency] on a table that has a row. *)
Lemma chi2_contingency_returned (t : Crosstab) (r : Chi2Result) :
  chi2_contingency power_divergence t = Returned r ->
  n_rows t <> 0%nat /\
  dof r = ((Z.of_nat (n_rows t) - 1) * (Z.of_nat (n_cols t) - 1))%Z /\
  expected r = expected_freq t.
Proof.
  unfold chi2_contingency.
  destruct (existsb _ (cells t)); [discriminate |].
  destruct (n_rows t * n_cols t =? 0)%nat eqn:Esize; [discriminate |].
  destruct (existsb _ (expected_freq t)); [discriminate |].
  apply Nat.eqb_neq in Esize.
  match goal with
  | [ |- (if ?b then _ else _) = _ -> _ ] => destruct b
  end; intros H; injection H as <-; cbn [dof expected];
    (split; [| split; [| reflexivity]]); nia.
Qed.


End Significance.



(* ================================================================= *)
(** * The posterior chart *)

Lemma series_sum_bools (vs : list value) :
  Forall is_bool vs ->
  series_sum vs = Returned (Float.of_nat (List.length (filter is_true vs))).
Proof.
  induction 1 as [| v vs [b ->] _ IH]; [reflexivity |].
  cbn [series_sum isnull filter is_true]. rewrite IH.
  destruct b; cbn [num_of bind List.length].
  - now rewrite of_nat_succ.
  - now rewrite of_nat_same.
Qed.

Lemma select_combine {A B : Type} (p : A -> bool) (l : list A) (l' : list B) :
  select (map p l) l' = map snd (filter (fun r => p (fst r)) (combine l l')).
Proof.
  revert l'. induction l as [| a l IH]; intros [| b l']; simpl;
    try reflexivity.
  - destruct (p a); reflexivity.
  - destruct (p a); simpl; rewrite IH; reflexivity.
Qed.

Lemma Forall_select {A : Type} (P : A -> Prop) (mask : list bool) (l : list A) :
  Forall P l -> Forall P (select mask l).
Proof.
  intros H. revert mask. induction H as [| a l Ha _ IH]; intros [| b mask];
    simpl; try constructor.
  - destruct b; constructor.
  - destruct b; [constructor; [exact Ha | apply IH] | apply IH].
Qed.

Lemma filter_map_length {A B : Type} (f : A -> B) (p : B -> bool) (l : list A) :
  List.length (filter p (map f l)) = List.length (filter (fun a => p (f a)) l).
Proof.
  induction l as [| a l IH]; simpl; [reflexivity |].
  destruct (p (f a)); simpl; rewrite IH; reflexivity.
Qed.

Lemma mask_count {A : Type} (p : A -> bool) (l : list A) :
  List.length (filter (fun b : bool => b) (map p l)) = List.length (filter p l).
Proof. exact (filter_map_length p (fun b : bool => b) l). Qed.

Lemma successes_le_rows (keys flags : list value) (variant : value) :
  (successes_of keys flags variant <= rows_of keys variant)%nat.
Proof.
  unfold successes_of, rows_of.
  revert flags. induction keys as [| a keys IH]; intros [| e flags];
    simpl; try lia.
  specialize (IH flags).
  destruct (py_eqb a variant); simpl; [destruct (is_true e); simpl |]; lia.
Qed.

Section Posterior.

Variable beta_pdf : float64 -> float64 -> float64 -> float64.

(** One turn of the loop, on a boolean derived column. *)
Lemma posterior_line_returned
  (df : DataFrame) (g : string) (keys flags : list value)
  (x : list float64) (variant : value) :
  getitem df g = Returned keys ->
  getitem df converted = Returned flags ->
  Forall is_bool flags ->
  exists l,
    posterior_line beta_pdf df g x variant = Returned l /\
    line_variant l = variant /\
    posterior_of beta_pdf keys flags x l.
Proof.
  intros Hk Hf Hbool. unfold posterior_line. rewrite Hk. cbn [bind].
  rewrite getitem_filter_rows, Hf. cbn [bind].
  rewrite series_sum_bools by (apply Forall_select, Hbool). cbn [bind].
  eexists. split; [reflexivity |]. split; [reflexivity |].
  unfold posterior_of. cbn [line_variant line_a line_b line_x line_y].
  unfold filter_rows. cbn [nrows].
  rewrite mask_count, select_combine, filter_map_length, filter_filter.
  fold (rows_of keys variant). fold (successes_of keys flags variant).
  pose proof (successes_le_rows keys flags variant) as Hle.
  unfold Float.of_nat. rewrite sub_of_Z, !add_of_Z.
  repeat split; f_equal; lia.
Qed.

End Posterior.

Lemma linspace_nth (a b : Q) (n i : nat) :
  (i < n)%nat ->
  nth i (linspace a b n) NaN =
  Fin (Qred (a + inject_Z (Z.of_nat i)
                 * ((b - a) / inject_Z (Z.of_nat (n - 1))))).
Proof.
  intros Hi. unfold linspace.
  set (f := fun i0 : nat => Fin _).
  rewrite (nth_indep _ NaN (f 0%nat)) by (rewrite length_map, length_seq; exact Hi).
  rewrite map_nth, seq_nth by exact Hi. reflexivity.
Qed.

(** The grid of line 93. *)
Lemma grid_rising : rising_grid (linspace 0 1 1000) 1000.
Proof.
  unfold rising_grid. split; [| split; [| split]].
  - unfold linspace. rewrite length_map, length_seq. reflexivity.
  - vm_compute. reflexivity.
  - vm_compute. reflexivity.
  - intros i Hi. eexists. eexists.
    split; [apply linspace_nth; lia |]. split; [apply linspace_nth, Hi |].
    rewrite !Qred_correct.
    apply Qplus_lt_r, Qmult_lt_compat_r.
    + reflexivity.
    + rewrite <- Zlt_Qlt. lia.
Qed.

(** Two distinct values among which "A" and "B" are found are "A" and
    "B". *)
Lemma two_variants (variants : list value) :
  List.length variants = 2%nat ->
  contains (VStr "A") variants = true ->
  contains (VStr "B") variants = true ->
  variants = [VStr "A"; VStr "B"] \/ variants = [VStr "B"; VStr "A"].
Proof.
  destruct variants as [| u [| v [| w rest]]]; try discriminate.
  intros _ HA HB. unfold contains in HA, HB. cbn [existsb] in HA, HB.
  rewrite orb_false_r in HA, HB.
  apply orb_true_iff in HA, HB.
  destruct HA as [HA | HA], HB as [HB | HB];
    apply py_eqb_str in HA, HB; subst; try discriminate; auto.
Qed.

Lemma two_variants_conv (variants : list value) :
  variants = [VStr "A"; VStr "B"] \/ variants = [VStr "B"; VStr "A"] ->
  negb (List.length variants =? 2)%nat
  || negb (contains (VStr "A") variants)
  || negb (contains (VStr "B") variants) = false.
Proof. intros [-> | ->]; reflexivity. Qed.

Section PosteriorChart.

Variable beta_pdf : float64 -> float64 -> float64 -> float64.

(** The loop of lines 95 to 105 on a boolean derived column. *)
Lemma posterior_lines_returned
  (df : DataFrame) (g : string) (keys flags : list value)
  (x : list float64) (variants : list value) :
  getitem df g = Returned keys ->
  getitem df converted = Returned flags ->
  Forall is_bool flags ->
  exists ls,
    mapM (posterior_line beta_pdf df g x) variants = Returned ls /\
    map line_variant ls = variants /\
    Forall (posterior_of beta_pdf keys flags x) ls.
Proof.
  intros Hk Hf Hbool. induction variants as [| v vs (ls & Hls & Hmap & Hall)].
  - exists []. repeat split; constructor.
  - destruct (posterior_line_returned beta_pdf df g keys flags x v Hk Hf Hbool)
      as (l & Hl & Hv & Hpost).
    exists (l :: ls). cbn [mapM]. rewrite Hl. cbn [bind]. rewrite Hls.
    repeat split.
    + cbn [map]. congruence.
    + constructor; assumption.
Qed.

(** C7, as the code has it: the chart is absent unless the assignment
    column has exactly two distinct values and these are "A" and "B"; when
    it has, on a dataset whose derived column is boolean, the chart is
    drawn, with one line per variant whose Beta parameters are
    [a = successes + 1] and [b = failures + 1], so that
    [a + b = group size + 2], the successes being the rows of the group
    whose flag is set, and with all lines sampled on one grid of 1000
    points that rises from 0 to 1. *)
Theorem posterior_chart_parameters (df : DataFrame) (assignment_col : string) :
  (~ two_variants_A_B df assignment_col ->
   create_posterior_distribution_chart beta_pdf (Some df) assignment_col
     = Returned None) /\
  (two_variants_A_B df assignment_col ->
   (forall flags, getitem df converted = Returned flags -> Forall is_bool flags) ->
   exists fig,
     create_posterior_distribution_chart beta_pdf (Some df) assignment_col
       = Returned (Some fig) /\
     posterior_chart_of beta_pdf df assignment_col fig).
Proof.
  unfold create_posterior_distribution_chart, two_variants_A_B.
  destruct (has_col assignment_col df) eqn:Hg; cbn [negb orb].
  2:{ split; [reflexivity |]. intros (_ & keys & Hk & _).
      apply has_col_false_lookup in Hg. unfold getitem in Hk.
      rewrite Hg in Hk. discriminate Hk. }
  destruct (has_col converted df) eqn:Hc; cbn [negb].
  2:{ split; [reflexivity |]. intros [H _]. discriminate H. }
  destruct (getitem_has_col _ _ Hg) as [keys Hk].
  destruct (getitem_has_col _ _ Hc) as [flags Hf].
  rewrite Hk. cbn [bind].
  destruct (negb (List.length (unique keys) =? 2)%nat
            || negb (contains (VStr "A") (unique keys))
            || negb (contains (VStr "B") (unique keys))) eqn:Etest.
  - split; [reflexivity |]. intros (_ & keys' & Hk' & Hvariants).
    injection Hk' as <-.
    rewrite (two_variants_conv _ Hvariants) in Etest. discriminate Etest.
  - split.
    + intros Hnot. exfalso. apply Hnot. split; [reflexivity |].
      exists keys. split; [reflexivity |].
      apply orb_false_iff in Etest. destruct Etest as [Etest EB].
      apply orb_false_iff in Etest. destruct Etest as [Elen EA].
      apply negb_false_iff in Elen, EA, EB. apply Nat.eqb_eq in Elen.
      apply two_variants; assumption.
    + intros _ Hbool.
      destruct (posterior_lines_returned df assignment_col keys flags
                  (linspace 0 1 1000) (unique keys) Hk Hf (Hbool _ Hf))
        as (ls & Hls & Hmap & Hall).
      rewrite Hls. cbn [bind]. eexists. split; [reflexivity |].
      exists keys, flags. cbn [lines].
      repeat split; try assumption; apply grid_rising.
Qed.

End PosteriorChart.

Lemma two_variants_scenario : two_variants_A_B df_scenario_enriched "variant".
Proof.
  split; [reflexivity |].
  exists [VStr "A"; VStr "A"; VStr "B"; VStr "B"].
  split; [reflexivity | left; reflexivity].
Defined.

Lemma posterior_chart_parameters_witness :
  exists fig,
    create_posterior_distribution_chart no_density (Some df_scenario_enriched) "variant"
      = Returned (Some fig) /\
    posterior_chart_of no_density df_scenario_enriched "variant" fig.
Proof.
  apply (proj2 (posterior_chart_parameters no_density df_scenario_enriched "variant")).
  - exact two_variants_scenario.
  - intros flags H. injection H as <-.
    repeat (constructor; [eexists; reflexivity |]). constructor.
Defined.

(** C7 as stated fails on a dataset that brings a [converted] column of
    numbers: the successes of line 97 are the sum of the values.  With the
    value 2 in the one row of "A" the parameters are a = 3 and b = 0,
    which no number of converted rows among one row gives. *)
Lemma numeric_flags_counterexample :
  two_variants_A_B df_numeric_flags "variant" /\
  rows_of [VStr "A"; VStr "B"] (VStr "A") = 1%nat /\
  exists l_a l_b,
    create_posterior_distribution_chart no_density (Some df_numeric_flags) "variant"
      = Returned (Some (mkFigure [l_a; l_b]
                          "Conversion Rate"
                          "Posterior Density"
                          "Posterior Distribution of Conversion Rates"
                          true)) /\
    line_variant l_a = VStr "A" /\
    line_a l_a = Float.of_Z 3 /\
    line_b l_a = Float.of_Z 0 /\
    (forall successes : nat,
       (successes <= 1)%nat ->
       ~ (line_a l_a = Float.of_Z (Z.of_nat successes + 1) /\
          line_b l_a = Float.of_Z (1 - Z.of_nat successes + 1))) /\
    ~ posterior_of no_density [VStr "A"; VStr "B"] [VInt 2; VInt 0]
        (linspace 0 1 1000) l_a.
Proof.
  split.
  { split; [reflexivity |]. exists [VStr "A"; VStr "B"].
    split; [reflexivity | left; reflexivity]. }
  split; [reflexivity |].
  eexists. eexists. split; [vm_compute; reflexivity |].
  cbn [line_variant line_a line_b].
  repeat split.
  - intros successes Hle [Ha _].
    destruct successes as [| [| n]]; [| | lia]; vm_compute in Ha; discriminate Ha.
  - intros (Ha & _). cbn [line_a line_variant] in Ha.
    vm_compute in Ha. discriminate Ha.
Qed.

(** The chart of the scenario: Beta(2, 2) for either variant. *)
Lemma posterior_chart_scenario :
  create_posterior_distribution_chart no_density (Some df_scenario_enriched) "variant"
    = Returned (Some figure_scenario).
Proof. vm_compute. reflexivity. Qed.

(* ================================================================= *)
(** * The scenarios of the specification *)

(** Four rows, two per variant, one conversion each: both rates are 0.5 and
    the lift is 0.0. *)
Example scenario_two_variants :
  calculate_conversion_rates df_scenario "signup" "purchase" "variant"
    = (df_scenario_enriched, Returned (Some records_scenario, Some (Fin 0))).
Proof. vm_compute. reflexivity. Qed.

(** Only variant "A": one record, no lift, no chart. *)
Example scenario_only_A :
  calculate_conversion_rates df_only_A "purchase" "purchase" "variant"
    = (df_only_A_enriched, Returned (Some records_only_A, None)) /\
  create_posterior_distribution_chart no_density (Some df_only_A_enriched) "variant"
    = Returned None.
Proof. split; vm_compute; reflexivity. Qed.

(** A dataset without rows or columns: the three functions return absent. *)
Example scenario_empty :
  calculate_conversion_rates (mkDF 0 []) "signup" "purchase" "variant"
    = (mkDF 0 [], Returned (None, None)) /\
  perform_chi_squared_test no_statistic (Some (mkDF 0 [])) "variant"
    = Returned None /\
  create_posterior_distribution_chart no_density (Some (mkDF 0 [])) "variant"
    = Returned None.
Proof. repeat split. Qed.

(* ================================================================= *)
(** * Further properties: the dataset across calls *)

Lemma replace_col_length (c : string) (vs : list value) (n : nat) cols :
  List.length vs = n ->
  Forall (fun col : string * list value => List.length (snd col) = n) cols ->
  Forall (fun col : string * list value => List.length (snd col) = n)
         (replace_col c vs cols).
Proof.
  intros Hvs H. induction H as [| [m ws] cols Hcol Hcols IH]; simpl.
  - constructor.
  - destruct (String.eqb c m); constructor; assumption.
Qed.

Lemma has_col_In (c : string) (df : DataFrame) :
  has_col c df = true <-> In c (col_names df).
Proof.
  unfold has_col. rewrite existsb_exists. split.
  - intros (n & Hn & E). apply String.eqb_eq in E. now subst.
  - intros H. exists c. split; [exact H | apply String.eqb_refl].
Qed.

(** Writing a column of the right length keeps a frame well formed. *)
Lemma wf_setitem (df : DataFrame) (c : string) (vs : list value) :
  wf df -> List.length vs = nrows df -> wf (setitem df c vs).
Proof.
  intros [Hnd Hlen] Hvs. unfold wf.
  fold (col_names (setitem df c vs)). rewrite col_names_setitem, nrows_setitem.
  unfold setitem. destruct (has_col c df) eqn:Hc; cbn [columns]; split.
  - exact Hnd.
  - apply replace_col_length; assumption.
  - unfold col_names. apply NoDup_app; [exact Hnd | repeat constructor; auto |].
    intros n Hn [<- | []].
    apply has_col_In in Hn. congruence.
  - apply Forall_app. split; [exact Hlen | repeat constructor; exact Hvs].
Qed.

Lemma replace_col_same (c : string) (vs : list value) cols :
  lookup c cols = Some vs -> replace_col c vs cols = cols.
Proof.
  induction cols as [| [n ws] cols IH]; simpl; [reflexivity |].
  destruct (String.eqb c n).
  - intros H. injection H as ->. reflexivity.
  - intros H. rewrite IH by exact H. reflexivity.
Qed.

(** Writing to a column the values it holds changes nothing. *)
Lemma setitem_same (df : DataFrame) (c : string) (vs : list value) :
  getitem df c = Returned vs -> setitem df c vs = df.
Proof.
  unfold getitem. destruct (lookup c (columns df)) as [ws |] eqn:E;
    [| discriminate].
  intros H. injection H as ->. unfold setitem.
  assert (Hc : has_col c df = true) by (apply has_col_lookup; eauto).
  rewrite Hc, (replace_col_same _ _ _ E). destruct df; reflexivity.
Qed.

Lemma has_col_setitem (df : DataFrame) (c c' : string) (vs : list value) :
  has_col c' df = true -> has_col c' (setitem df c vs) = true.
Proof.
  rewrite !has_col_In, col_names_setitem.
  destruct (has_col c df); [auto |]. intros H. apply in_or_app. auto.
Qed.

Lemma empty_setitem (df : DataFrame) (c : string) (vs : list value) :
  empty df = false -> empty (setitem df c vs) = false.
Proof.
  unfold empty. intros H. apply orb_false_iff in H. destruct H as [Hn Hc].
  rewrite nrows_setitem, Hn. cbn [orb].
  unfold setitem. destruct (has_col c df); cbn [columns].
  - destruct (columns df) as [| [n ws] cols]; [discriminate Hc |].
    simpl. destruct (String.eqb c n); reflexivity.
  - destruct (columns df); [discriminate Hc | reflexivity].
Qed.

(** X1: past the guard, on a well-formed dataset, the call raises exactly
    when the assignment column is named "count" or "sum" (from
    [reset_index]); on every other dataset it returns a table and a lift,
    and the lookups of lines 43 and 44 never fail. *)
Theorem calculate_raises_exactly_on_aggregate_name
  (df : DataFrame) (event1_col event2_col assignment_col : string) :
  wf df ->
  guard df event1_col event2_col assignment_col = false ->
  (name_taken assignment_col = true ->
   snd (calculate_conversion_rates df event1_col event2_col assignment_col)
     = Raised ValueError) /\
  (name_taken assignment_col = false ->
   exists cr lift,
     snd (calculate_conversion_rates df event1_col event2_col assignment_col)
       = Returned (Some cr, lift)).
Proof.
  intros Hwf Hg.
  destruct (calculate_outcome _ event1_col _ _ Hwf Hg)
    as (keys & events & _ & _ & _ & _ & _ & _ & Hout).
  split; intros Hname; rewrite Hname in Hout; eauto.
Qed.

Lemma wf_df_count_column : wf df_count_column.
Proof. prove_wf. Defined.

Lemma calculate_raises_exactly_on_aggregate_name_witness :
  (name_taken "count" = true ->
   snd (calculate_conversion_rates df_count_column "purchase" "purchase" "count")
     = Raised ValueError) /\
  (name_taken "count" = false ->
   exists cr lift,
     snd (calculate_conversion_rates df_count_column "purchase" "purchase" "count")
       = Returned (Some cr, lift)).
Proof.
  apply (calculate_raises_exactly_on_aggregate_name
           df_count_column "purchase" "purchase" "count").
  - exact wf_df_count_column.
  - reflexivity.
Defined.

Lemma wf_records_table (g : string) (keys events : list value) :
  name_taken g = false ->
  wf (records_table g keys events) /\
  col_names (records_table g keys events) =
    if String.eqb g "conversion_rate"
    then ["conversion_rate"; "count"; "sum"]
    else [g; "count"; "sum"; "conversion_rate"].
Proof.
  intros Hname. destruct (name_taken_false _ Hname) as [Hc Hs].
  unfold records_table.
  set (base := mkDF _ _).
  assert (Hbase : wf base).
  { unfold base. split; cbn [columns nrows map fst snd].
    - repeat constructor; simpl; intuition (try discriminate; congruence).
    - repeat constructor; cbn [snd]; apply length_map. }
  split.
  - apply wf_setitem; [exact Hbase |]. unfold base. cbn [nrows]. apply length_map.
  - rewrite col_names_setitem. unfold base, has_col, col_names.
    cbn [columns map fst existsb].
    rewrite (String.eqb_sym "conversion_rate" g).
    destruct (String.eqb g "conversion_rate") eqn:E.
    + apply String.eqb_eq in E. subst g. reflexivity.
    + reflexivity.
Qed.

(** X2: the call keeps frames well formed.  Past the guard the dataset it
    leaves has distinct column names and one cell per row in every column;
    the table it returns is well formed too, with the columns
    assignment, count, sum, conversion_rate in this order (the first of
    them replaced by the rates when the assignment column is itself named
    "conversion_rate"). *)
Theorem calculate_keeps_frames_well_formed
  (df : DataFrame) (event1_col event2_col assignment_col : string) :
  wf df ->
  guard df event1_col event2_col assignment_col = false ->
  wf (fst (calculate_conversion_rates df event1_col event2_col assignment_col)) /\
  forall cr lift,
    snd (calculate_conversion_rates df event1_col event2_col assignment_col)
      = Returned (Some cr, lift) ->
    wf cr /\
    col_names cr =
      if String.eqb assignment_col "conversion_rate"
      then ["conversion_rate"; "count"; "sum"]
      else [assignment_col; "count"; "sum"; "conversion_rate"].
Proof.
  intros Hwf Hg. split.
  - destruct (calculate_state _ event1_col _ _ Hg) as (events & Hev & ->).
    apply wf_setitem; [exact Hwf |].
    rewrite not_isnull_length. apply (wf_getitem_length _ _ _ Hwf Hev).
  - intros cr lift Hout.
    destruct (calculate_outcome _ event1_col _ _ Hwf Hg)
      as (keys & events & _ & _ & _ & _ & _ & _ & Hout').
    rewrite Hout in Hout'.
    destruct (name_taken assignment_col) eqn:Hname; [discriminate Hout' |].
    injection Hout' as -> _. apply wf_records_table, Hname.
Qed.

Lemma calculate_keeps_frames_well_formed_witness :
  wf (fst (calculate_conversion_rates df_scenario "signup" "purchase" "variant")) /\
  forall cr lift,
    snd (calculate_conversion_rates df_scenario "signup" "purchase" "variant")
      = Returned (Some cr, lift) ->
    wf cr /\
    col_names cr =
      if String.eqb "variant" "conversion_rate"
      then ["conversion_rate"; "count"; "sum"]
      else ["variant"; "count"; "sum"; "conversion_rate"].
Proof.
  apply (calculate_keeps_frames_well_formed df_scenario "signup" "purchase" "variant").
  - exact wf_df_scenario.
  - reflexivity.
Defined.

Lemma guard_setitem (df : DataFrame) (e1 e2 g c : string) (vs : list value) :
  guard df e1 e2 g = false -> guard (setitem df c vs) e1 e2 g = false.
Proof.
  intros H. destruct (guard_false _ _ _ _ H) as (H0 & H1 & H2 & H3).
  unfold guard.
  rewrite (empty_setitem _ _ _ H0), !has_col_setitem by assumption.
  reflexivity.
Qed.

(** X3: the call is idempotent on the dataset.  When the second event
    column is not the derived column itself, a second call on the dataset
    the first call left finds the derived column already equal to what it
    writes: it leaves the dataset as it is and returns what the first call
    returned. *)
Theorem calculate_twice
  (df : DataFrame) (event1_col event2_col assignment_col : string) :
  guard df event1_col event2_col assignment_col = false ->
  event2_col <> converted ->
  calculate_conversion_rates
    (fst (calculate_conversion_rates df event1_col event2_col assignment_col))
    event1_col event2_col assignment_col
  = calculate_conversion_rates df event1_col event2_col assignment_col.
Proof.
  intros Hg Hne.
  destruct (calculate_state _ event1_col _ _ Hg) as (events & Hev & Hst).
  rewrite Hst.
  set (df' := setitem df converted (not_isnull events)).
  assert (Hev' : getitem df' event2_col = Returned events).
  { unfold df'. rewrite getitem_setitem.
    apply String.eqb_neq in Hne. rewrite Hne. exact Hev. }
  assert (Hsame : setitem df' converted (not_isnull events) = df').
  { apply setitem_same. unfold df'.
    rewrite getitem_setitem, String.eqb_refl. reflexivity. }
  unfold calculate_conversion_rates at 1.
  rewrite (guard_setitem _ _ _ _ _ _ Hg : guard df' _ _ _ = false), Hev', Hsame.
  unfold calculate_conversion_rates. rewrite Hg, Hev. reflexivity.
Qed.

Lemma calculate_twice_witness :
  calculate_conversion_rates
    (fst (calculate_conversion_rates df_scenario "signup" "purchase" "variant"))
    "signup" "purchase" "variant"
  = calculate_conversion_rates df_scenario "signup" "purchase" "variant".
Proof.
  apply (calculate_twice df_scenario "signup" "purchase" "variant").
  - reflexivity.
  - discriminate.
Defined.

(* ================================================================= *)
(** * Further properties: the lift *)

Lemma same_key_str (s : string) (v : value) :
  same_key (VStr s) v = true -> v = VStr s.
Proof.
  split_value v; simpl; try discriminate.
  intros H. apply String.eqb_eq in H. now subst.
Qed.

Lemma filter_length_one_in {A : Type} (p : A -> bool) (l : list A) :
  List.length (filter p l) = 1%nat -> exists a, In a l /\ p a = true.
Proof.
  destruct (filter p l) as [| a rest] eqn:E; [discriminate |].
  intros _. exists a. apply filter_In. rewrite E. left. reflexivity.
Qed.

Lemma length_A_B (l : list value) :
  Forall is_A_or_B l ->
  List.length l =
  (List.length (filter (fun k => same_key k (VStr "A")) l)
   + List.length (filter (fun k => same_key k (VStr "B")) l))%nat.
Proof.
  induction 1 as [| v l [-> | ->] _ IH]; [reflexivity | |];
    cbn [filter same_key py_eqb String.eqb Ascii.eqb Bool.eqb List.length];
    rewrite IH; lia.
Qed.

(** The test of lines 41 and 42, on the group keys. *)
Lemma labels_test (keys : list value) :
  (List.length (unique (group_keys keys)) =? 2)%nat
  && contains (VStr "A") (unique (group_keys keys))
  && contains (VStr "B") (unique (group_keys keys)) = true
  <-> exactly_A_and_B keys.
Proof.
  set (ks := group_keys keys). split.
  - intros H. apply andb_true_iff in H. destruct H as [H HB].
    apply andb_true_iff in H. destruct H as [Hlen HA].
    apply Nat.eqb_eq in Hlen.
    pose proof (two_variants _ Hlen HA HB) as Hu.
    assert (HinA : In (VStr "A") (unique ks))
      by (destruct Hu as [-> | ->]; simpl; auto).
    assert (HinB : In (VStr "B") (unique ks))
      by (destruct Hu as [-> | ->]; simpl; auto).
    repeat split.
    + apply unique_incl in HinA. apply (group_keys_in _ _ HinA).
    + apply unique_incl in HinB. apply (group_keys_in _ _ HinB).
    + intros v Hv Hnn.
      pose proof (group_keys_exactly_one _ _ Hv Hnn) as H1.
      apply filter_length_one_in in H1. destruct H1 as (k & Hk & Hkv).
      pose proof (unique_exactly_one _ _ Hk) as H2.
      apply filter_length_one_in in H2. destruct H2 as (k' & Hk' & Hk'k).
      fold ks in Hk'.
      assert (Hstr : k' = VStr "A" \/ k' = VStr "B")
        by (destruct Hu as [E | E]; rewrite E in Hk'; simpl in Hk'; intuition).
      destruct Hstr as [-> | ->]; apply same_key_str in Hk'k; subst k;
        apply same_key_str in Hkv; subst v; [left | right]; reflexivity.
  - intros (HA & HB & Hall).
    assert (Hks : Forall is_A_or_B ks).
    { apply Forall_forall. intros k Hk.
      destruct (group_keys_in _ _ Hk). auto. }
    assert (Hu : Forall is_A_or_B (unique ks)).
    { apply Forall_forall. intros k Hk. apply unique_incl in Hk.
      rewrite Forall_forall in Hks. auto. }
    assert (Hone : forall s, In (VStr s) keys ->
              List.length (filter (fun k => same_key k (VStr s)) (unique ks)) = 1%nat).
    { intros s Hs.
      pose proof (group_keys_exactly_one _ _ Hs eq_refl) as H1.
      apply filter_length_one_in in H1. destruct H1 as (k & Hk & Hkv).
      rewrite same_key_sym in Hkv. apply same_key_str in Hkv. subst k.
      apply unique_exactly_one, Hk. }
    pose proof (Hone _ HA) as H1A. pose proof (Hone _ HB) as H1B.
    pose proof (length_A_B _ Hu) as Hlen. rewrite H1A, H1B in Hlen.
    rewrite Hlen. cbn [Nat.add Nat.eqb andb].
    apply andb_true_iff. unfold contains. rewrite !existsb_exists. split.
    + apply filter_length_one_in in H1A. destruct H1A as (k & Hk & Hkv).
      rewrite same_key_sym in Hkv. apply same_key_str in Hkv. subst k.
      exists (VStr "A"). auto.
    + apply filter_length_one_in in H1B. destruct H1B as (k & Hk & Hkv).
      rewrite same_key_sym in Hkv. apply same_key_str in Hkv. subst k.
      exists (VStr "B"). auto.
Qed.

Lemma flags_not_A_and_B (events : list value) :
  ~ exactly_A_and_B (not_isnull events).
Proof.
  intros (HA & _). apply in_map_iff in HA. destruct HA as (v & Hv & _).
  discriminate Hv.
Qed.

(** X4: when the call returns a table, the lift is present exactly when
    the assignment column is named neither "conversion_rate" nor
    "converted" and its values in the dataset that are not null are "A"
    and "B", both met; it is then the quotient of line 45 on the two
    rates.  Rows without an assignment do not count: they neither hide the
    lift nor change it. *)
Theorem lift_present_iff_A_and_B
  (df df' cr : DataFrame) (event1_col event2_col assignment_col : string)
  (lift : option float64) (keys events : list value) :
  wf df ->
  calculate_conversion_rates df event1_col event2_col assignment_col
    = (df', Returned (Some cr, lift)) ->
  getitem df assignment_col = Returned keys ->
  getitem df event2_col = Returned events ->
  (lift <> None <->
   assignment_col <> "conversion_rate" /\
   assignment_col <> converted /\
   exactly_A_and_B keys) /\
  (lift <> None ->
   lift = Some (Float.div
                  (Float.sub (rate_of keys events (VStr "B"))
                             (rate_of keys events (VStr "A")))
                  (rate_of keys events (VStr "A")))).
Proof.
  intros Hwf Hcall Hkeys Hevents.
  destruct (calculate_returned _ _ _ _ _ _ _ Hwf Hcall)
    as (keys' & events' & _ & _ & Hev & _ & Hsame & Hconv & _ & _ & _ & ->).
  rewrite Hevents in Hev. injection Hev as <-.
  pose proof (labels_test keys') as Htest.
  unfold lift_of_records.
  destruct (String.eqb assignment_col "conversion_rate") eqn:Eg.
  { apply String.eqb_eq in Eg. split.
    - split; [intros H; now contradiction H | intros [H _]; contradiction].
    - intros H. now contradiction H. }
  apply String.eqb_neq in Eg.
  destruct (string_dec assignment_col converted) as [Ec | Ec].
  { rewrite (Hconv Ec) in *.
    destruct (_ && _ && _).
    - exfalso. apply (flags_not_A_and_B events), Htest. reflexivity.
    - split.
      + split; [intros H; now contradiction H | intros (_ & H & _); contradiction].
      + intros H. now contradiction H. }
  rewrite (Hsame Ec) in Hkeys. injection Hkeys as <-.
  destruct (_ && _ && _).
  - split; [| reflexivity].
    split; [| discriminate].
    intros _. split; [exact Eg |]. split; [exact Ec |]. now apply Htest.
  - split.
    + split; [intros H; now contradiction H |].
      intros (_ & _ & H). apply Htest in H. discriminate H.
    + intros H. now contradiction H.
Qed.

Lemma lift_present_iff_A_and_B_witness :
  (Some (Fin 0) <> None <->
   "variant" <> "conversion_rate" /\
   "variant" <> converted /\
   exactly_A_and_B [VStr "A"; VStr "A"; VStr "B"; VStr "B"]) /\
  (Some (Fin 0) <> None ->
   Some (Fin 0) =
   Some (Float.div
           (Float.sub
              (rate_of [VStr "A"; VStr "A"; VStr "B"; VStr "B"]
                       [VNull; VStr "x"; VNull; VStr "y"] (VStr "B"))
              (rate_of [VStr "A"; VStr "A"; VStr "B"; VStr "B"]
                       [VNull; VStr "x"; VNull; VStr "y"] (VStr "A")))
           (rate_of [VStr "A"; VStr "A"; VStr "B"; VStr "B"]
                    [VNull; VStr "x"; VNull; VStr "y"] (VStr "A")))).
Proof.
  apply (lift_present_iff_A_and_B
           df_scenario df_scenario_enriched records_scenario
           "signup" "purchase" "variant").
  - exact wf_df_scenario.
  - vm_compute. reflexivity.
  - reflexivity.
  - reflexivity.
Defined.

Lemma lift_of_records_A_and_B (g : string) (keys events : list value) :
  g <> "conversion_rate" ->
  exactly_A_and_B keys ->
  lift_of_records g keys events =
  Some (Float.div
          (Float.sub (rate_of keys events (VStr "B"))
                     (rate_of keys events (VStr "A")))
          (rate_of keys events (VStr "A"))).
Proof.
  intros Hg HAB. unfold lift_of_records.
  apply String.eqb_neq in Hg. rewrite Hg.
  apply labels_test in HAB. rewrite HAB. reflexivity.
Qed.

Lemma fraction_pos (s c : nat) :
  (0 < s)%nat -> (0 < c)%nat -> (0 < fraction s c)%Q.
Proof.
  intros Hs Hc. unfold fraction. rewrite Qred_correct.
  apply Qlt_shift_div_l.
  - unfold Qlt, inject_Z. cbn [Qnum Qden]. lia.
  - unfold Qlt, Qmult, inject_Z. cbn [Qnum Qden]. lia.
Qed.

Lemma fraction_zero (c : nat) : (fraction 0 c == 0)%Q.
Proof.
  unfold fraction. rewrite Qred_correct.
  unfold Qeq, Qdiv, Qmult, inject_Z. cbn [Qnum Qden Z.of_nat]. lia.
Qed.

(** The relative difference of a rate [b] to a positive rate [a]. *)
Lemma relative_difference_bounds (a b : Q) :
  (0 < a)%Q -> (0 <= b)%Q ->
  (-1 <= (b - a) / a)%Q /\
  ((a <= b)%Q -> (0 <= (b - a) / a)%Q) /\
  ((b <= a)%Q -> ((b - a) / a <= 0)%Q) /\
  ((b == 0)%Q -> ((b - a) / a == -1)%Q).
Proof.
  intros Ha Hb. repeat split.
  - apply Qle_shift_div_l; [exact Ha | lra].
  - intros H. apply Qle_shift_div_l; [exact Ha | lra].
  - intros H. apply Qle_shift_div_r; [exact Ha | lra].
  - intros H. rewrite H. field. lra.
Qed.

(** X5: when the assignment column, named neither "conversion_rate" nor
    "converted", holds "A" and "B", both met, and nothing else that is not
    null, and some row of "A" converted, the lift is a finite number, not
    below -1; it is not negative when the rate of "B", successes over
    rows, is at least that of "A", not positive when it is at most that of
    "A", and -1 when no row of "B" converted. *)
Theorem lift_sign_and_bounds
  (df df' cr : DataFrame) (event1_col event2_col assignment_col : string)
  (lift : option float64) (keys events : list value) :
  wf df ->
  calculate_conversion_rates df event1_col event2_col assignment_col
    = (df', Returned (Some cr, lift)) ->
  getitem df assignment_col = Returned keys ->
  getitem df event2_col = Returned events ->
  assignment_col <> "conversion_rate" ->
  assignment_col <> converted ->
  exactly_A_and_B keys ->
  (0 < group_successes keys events (VStr "A"))%nat ->
  exists q,
    lift = Some (Fin q) /\
    (-1 <= q)%Q /\
    ((fraction (group_successes keys events (VStr "A")) (group_size keys (VStr "A"))
      <= fraction (group_successes keys events (VStr "B")) (group_size keys (VStr "B")))%Q
     -> (0 <= q)%Q) /\
    ((fraction (group_successes keys events (VStr "B")) (group_size keys (VStr "B"))
      <= fraction (group_successes keys events (VStr "A")) (group_size keys (VStr "A")))%Q
     -> (q <= 0)%Q) /\
    (group_successes keys events (VStr "B") = 0%nat -> (q == -1)%Q).
Proof.
  intros Hwf Hcall Hkeys Hevents Hg Hc HAB Hpos.
  destruct (calculate_returned _ _ _ _ _ _ _ Hwf Hcall)
    as (keys' & events' & _ & _ & Hev & _ & Hsame & _ & _ & _ & _ & ->).
  rewrite (Hsame Hc) in Hkeys. injection Hkeys as <-.
  rewrite Hevents in Hev. injection Hev as <-.
  rewrite (lift_of_records_A_and_B _ _ _ Hg HAB).
  destruct HAB as (HA & HB & _).
  unfold rate_of.
  rewrite !div_of_nat by (apply group_size_pos; assumption).
  set (a := fraction (group_successes keys' events (VStr "A")) _).
  set (b := fraction (group_successes keys' events (VStr "B")) _).
  assert (Ha : (0 < a)%Q)
    by (apply fraction_pos; [exact Hpos | apply group_size_pos, HA]).
  assert (Hb : (0 <= b)%Q).
  { apply fraction_bounds; [apply group_successes_le | apply group_size_pos, HB]. }
  destruct (relative_difference_bounds a b Ha Hb) as (Hlow & Hup & Hdown & Hnone).
  unfold Float.sub, Float.opp, Float.add, Float.div.
  destruct (Qeq_bool a 0) eqn:E.
  { apply Qeq_bool_eq in E. rewrite E in Ha. exfalso. apply (Qlt_irrefl _ Ha). }
  eexists. split; [reflexivity |].
  assert (Hq : (Qred (Qred (b + Qred (- a)) / a) == (b - a) / a)%Q).
  { rewrite !Qred_correct. unfold Qminus. reflexivity. }
  rewrite Hq. repeat split; try assumption.
  intros Hzero. apply Hnone. unfold b. rewrite Hzero. apply fraction_zero.
Qed.

Lemma lift_sign_and_bounds_witness :
  exists q,
    Some (Fin 0) = Some (Fin q) /\
    (-1 <= q)%Q /\
    ((fraction (group_successes [VStr "A"; VStr "A"; VStr "B"; VStr "B"]
                  [VNull; VStr "x"; VNull; VStr "y"] (VStr "A"))
               (group_size [VStr "A"; VStr "A"; VStr "B"; VStr "B"] (VStr "A"))
      <= fraction (group_successes [VStr "A"; VStr "A"; VStr "B"; VStr "B"]
                     [VNull; VStr "x"; VNull; VStr "y"] (VStr "B"))
                  (group_size [VStr "A"; VStr "A"; VStr "B"; VStr "B"] (VStr "B")))%Q
     -> (0 <= q)%Q) /\
    ((fraction (group_successes [VStr "A"; VStr "A"; VStr "B"; VStr "B"]
                  [VNull; VStr "x"; VNull; VStr "y"] (VStr "B"))
               (group_size [VStr "A"; VStr "A"; VStr "B"; VStr "B"] (VStr "B"))
      <= fraction (group_successes [VStr "A"; VStr "A"; VStr "B"; VStr "B"]
                     [VNull; VStr "x"; VNull; VStr "y"] (VStr "A"))
                  (group_size [VStr "A"; VStr "A"; VStr "B"; VStr "B"] (VStr "A")))%Q
     -> (q <= 0)%Q) /\
    (group_successes [VStr "A"; VStr "A"; VStr "B"; VStr "B"]
       [VNull; VStr "x"; VNull; VStr "y"] (VStr "B") = 0%nat -> (q == -1)%Q).
Proof.
  apply (lift_sign_and_bounds
           df_scenario df_scenario_enriched records_scenario
           "signup" "purchase" "variant" (Some (Fin 0))
           [VStr "A"; VStr "A"; VStr "B"; VStr "B"]
           [VNull; VStr "x"; VNull; VStr "y"]).
  - exact wf_df_scenario.
  - vm_compute. reflexivity.
  - reflexivity.
  - reflexivity.
  - discriminate.
  - discriminate.
  - repeat split; simpl; auto.
    intros v Hv _. unfold is_A_or_B. simpl in Hv. intuition.
  - vm_compute. lia.
Defined.

Lemma wf_df_zero_rate : wf df_zero_rate.
Proof. prove_wf. Defined.

(** X6: when the labels are exactly "A" and "B" and no row of "A"
    converted, the quotient of line 45 divides by a zero rate and the call
    still returns: the lift is plus infinity when some row of "B"
    converted, and NaN when none did. *)
Theorem lift_without_conversion_in_A
  (df df' cr : DataFrame) (event1_col event2_col assignment_col : string)
  (lift : option float64) (keys events : list value) :
  wf df ->
  calculate_conversion_rates df event1_col event2_col assignment_col
    = (df', Returned (Some cr, lift)) ->
  getitem df' assignment_col = Returned keys ->
  getitem df event2_col = Returned events ->
  assignment_col <> "conversion_rate" ->
  exactly_A_and_B keys ->
  group_successes keys events (VStr "A") = 0%nat ->
  ((0 < group_successes keys events (VStr "B"))%nat -> lift = Some PInf) /\
  (group_successes keys events (VStr "B") = 0%nat -> lift = Some NaN).
Proof.
  intros Hwf Hcall Hkeys Hevents Hg HAB Hzero.
  destruct (calculate_returned _ _ _ _ _ _ _ Hwf Hcall)
    as (keys' & events' & _ & _ & Hev & Hk & _ & _ & _ & _ & _ & ->).
  rewrite Hkeys in Hk. injection Hk as <-.
  rewrite Hevents in Hev. injection Hev as <-.
  rewrite (lift_of_records_A_and_B _ _ _ Hg HAB).
  destruct HAB as (HA & HB & _).
  unfold rate_of.
  rewrite !div_of_nat by (apply group_size_pos; assumption).
  rewrite Hzero.
  set (a := fraction 0 _).
  set (b := fraction (group_successes keys events (VStr "B")) _).
  assert (Ha : (a == 0)%Q) by apply fraction_zero.
  unfold Float.sub, Float.opp, Float.add, Float.div.
  rewrite (Qeq_eq_bool _ _ Ha).
  set (x := Qred (b + Qred (- a))).
  assert (Hx : (x == b)%Q).
  { unfold x. rewrite !Qred_correct, Ha. ring. }
  split; intros Hb.
  - assert (Hpos : (0 < x)%Q).
    { rewrite Hx. apply fraction_pos; [exact Hb | apply group_size_pos, HB]. }
    apply Qgt_alt in Hpos. rewrite Hpos. reflexivity.
  - assert (Hnull : (x == 0)%Q).
    { rewrite Hx. unfold b. rewrite Hb. apply fraction_zero. }
    apply Qeq_alt in Hnull. rewrite Hnull. reflexivity.
Qed.

Lemma lift_without_conversion_in_A_witness :
  ((0 < group_successes [VStr "A"; VStr "B"] [VNull; VStr "x"] (VStr "B"))%nat ->
   Some PInf = Some PInf) /\
  (group_successes [VStr "A"; VStr "B"] [VNull; VStr "x"] (VStr "B") = 0%nat ->
   Some PInf = Some NaN).
Proof.
  apply (lift_without_conversion_in_A
           df_zero_rate
           (fst (calculate_conversion_rates df_zero_rate "signup" "purchase" "variant"))
           records_zero_rate "signup" "purchase" "variant" (Some PInf)
           [VStr "A"; VStr "B"] [VNull; VStr "x"]).
  - exact wf_df_zero_rate.
  - vm_compute. reflexivity.
  - reflexivity.
  - reflexivity.
  - discriminate.
  - repeat split; simpl; auto.
    intros v Hv _. unfold is_A_or_B. simpl in Hv. intuition.
  - reflexivity.
Defined.

(* ================================================================= *)
(** * Further properties: the assignment column named like the derived one *)

(** X19: the assignment column named "converted".  Line 34 overwrites the
    column before the grouping, so the call groups the rows by their
    flags, whatever the dataset had in the column: the keys of the records
    are booleans, every row of the dataset is counted, also a row whose
    assignment was null, and the lift is absent. *)
Theorem grouping_by_the_derived_column
  (df : DataFrame) (event1_col event2_col : string) :
  wf df ->
  guard df event1_col event2_col converted = false ->
  exists events cr ks counts,
    getitem df event2_col = Returned events /\
    snd (calculate_conversion_rates df event1_col event2_col converted)
      = Returned (Some cr, None) /\
    getitem cr converted = Returned ks /\
    Forall is_bool ks /\
    getitem cr "count" = Returned (count_cells counts) /\
    List.length counts = List.length ks /\
    list_sum counts = nrows df.
Proof.
  intros Hwf Hg.
  destruct (calculate_outcome _ event1_col _ _ Hwf Hg)
    as (keys & events & Hev & _ & _ & Hconv & _ & Hle & Hout).
  rewrite (Hconv eq_refl) in Hout. clear Hconv keys.
  assert (Hname : name_taken converted = false) by reflexivity.
  rewrite Hname in Hout.
  assert (Hlift : lift_of_records converted (not_isnull events) events = None).
  { unfold lift_of_records.
    change (String.eqb converted "conversion_rate") with false. cbv iota.
    pose proof (labels_test (not_isnull events)) as Htest.
    destruct (_ && _ && _); [| reflexivity].
    exfalso. apply (flags_not_A_and_B events), Htest. reflexivity. }
  rewrite Hlift in Hout.
  exists events, (records_table converted (not_isnull events) events),
         (group_keys (not_isnull events)),
         (map (group_size (not_isnull events)) (group_keys (not_isnull events))).
  split; [exact Hev |]. split; [exact Hout |]. split; [| split; [| split; [| split]]].
  - apply getitem_records_key. discriminate.
  - apply Forall_forall. intros k Hk.
    destruct (group_keys_in _ _ Hk) as [Hin _].
    apply in_map_iff in Hin. destruct Hin as (v & <- & _). eexists. reflexivity.
  - rewrite (getitem_records_count _ _ _ Hname).
    unfold count_cells. rewrite map_map. reflexivity.
  - apply length_map.
  - rewrite group_counts_total, filter_all, not_isnull_length; [exact Hle |].
    apply not_isnull_notnull.
Qed.

Lemma grouping_by_the_derived_column_witness :
  exists events cr ks counts,
    getitem df_assigned_by_converted "purchase" = Returned events /\
    snd (calculate_conversion_rates df_assigned_by_converted
           "purchase" "purchase" converted)
      = Returned (Some cr, None) /\
    getitem cr converted = Returned ks /\
    Forall is_bool ks /\
    getitem cr "count" = Returned (count_cells counts) /\
    List.length counts = List.length ks /\
    list_sum counts = nrows df_assigned_by_converted.
Proof.
  apply (grouping_by_the_derived_column df_assigned_by_converted
           "purchase" "purchase").
  - prove_wf.
  - reflexivity.
Defined.

(* ================================================================= *)
(** * Further properties: when the chi-squared test raises *)

Lemma existsb_false_forall {A : Type} (p : A -> bool) (l : list A) :
  (forall a, In a l -> p a = false) -> existsb p l = false.
Proof.
  induction l as [| a l IH]; simpl; intros H; [reflexivity |].
  rewrite (H a) by auto. apply IH. intros b Hb. apply H. auto.
Qed.

Lemma group_keys_member (keys : list value) (v : value) :
  In v keys -> notnull v = true -> exists k, In k (group_keys keys).
Proof.
  intros Hv Hnn.
  pose proof (group_keys_exactly_one _ _ Hv Hnn) as H.
  apply filter_length_one_in in H. destruct H as (k & Hk & _). eauto.
Qed.

Lemma filter_length_pos {A : Type} (p : A -> bool) (l : list A) (a : A) :
  In a l -> p a = true -> (0 < List.length (filter p l))%nat.
Proof.
  intros Hin Hp.
  assert (H : In a (filter p l)) by (apply filter_In; auto).
  destruct (filter p l); [destruct H | simpl; lia].
Qed.

Lemma crosstab_row_sums_pos (index cols : list value) :
  Forall (fun z => 0 < z)%Z (row_sums (crosstab index cols)).
Proof.
  unfold row_sums, crosstab. cbn [cells]. rewrite map_map.
  apply Forall_forall. intros z Hz. apply in_map_iff in Hz.
  destruct Hz as (r & <- & Hr).
  fold (observed_outcomes index cols). rewrite crosstab_row_total.
  apply group_keys_in in Hr. destruct Hr as [Hr _].
  apply in_map_iff in Hr. destruct Hr as (p & <- & Hp).
  pose proof (filter_length_pos (fun q => same_key (fst p) (fst q)) _ p Hp
                (same_key_refl _)).
  lia.
Qed.

Lemma crosstab_col_total (index cols : list value) (c : value) :
  zsum (map (fun r => cell_count (observed_rows index cols) r c)
            (observed_groups index cols)) =
  Z.of_nat (List.length
    (filter (fun p => same_key c (snd p)) (observed_rows index cols))).
Proof.
  unfold cell_count. rewrite zsum_of_nat. f_equal.
  rewrite <- (partition_sizes (fun r p => same_key r (fst p))
                (observed_groups index cols)).
  - f_equal. apply map_ext. intros r. rewrite filter_filter.
    f_equal. apply filter_ext_in_eq. intros p _. apply andb_comm.
  - intros p Hp. apply filter_In in Hp. destruct Hp as [Hp _].
    apply group_keys_exactly_one.
    + apply in_map, Hp.
    + apply (observed_rows_notnull _ _ _ Hp).
Qed.

Lemma crosstab_col_sums_pos (index cols : list value) :
  Forall (fun z => 0 < z)%Z (col_sums (crosstab index cols)).
Proof.
  unfold col_sums, n_cols, crosstab. cbn [cells col_labels].
  fold (observed_outcomes index cols). fold (observed_groups index cols).
  apply Forall_forall. intros z Hz. apply in_map_iff in Hz.
  destruct Hz as (j & <- & Hj). apply in_seq in Hj. destruct Hj as [_ Hj].
  cbn [Nat.add] in Hj.
  rewrite map_map.
  rewrite (map_ext _ (fun r => cell_count (observed_rows index cols) r
                                 (nth j (observed_outcomes index cols) VNull))).
  2:{ intros r.
      rewrite (nth_indep _ 0%Z
                 (cell_count (observed_rows index cols) r VNull))
        by (rewrite length_map; exact Hj).
      apply (map_nth (cell_count (observed_rows index cols) r)). }
  rewrite crosstab_col_total.
  pose proof (nth_In (observed_outcomes index cols) VNull Hj) as Hc.
  apply group_keys_in in Hc. destruct Hc as [Hc _].
  apply in_map_iff in Hc. destruct Hc as (p & Hpc & Hp).
  assert (Hsame : same_key (nth j (observed_outcomes index cols) VNull) (snd p)
                  = true) by (rewrite Hpc; apply same_key_refl).
  pose proof (filter_length_pos
                (fun q => same_key (nth j (observed_outcomes index cols) VNull) (snd q))
                _ p Hp Hsame) as Hpos.
  lia.
Qed.

Lemma expected_cell_nonzero (r c n : Z) :
  (0 < r)%Z -> (0 < c)%Z -> (0 < n)%Z ->
  Float.eqb (Float.div (Float.of_Z (r * c)) (Float.of_Z n)) (Float.of_Z 0) = false.
Proof.
  intros Hr Hc Hn. rewrite div_of_Z by lia.
  unfold Float.eqb, Float.of_Z.
  destruct (Qeq_bool _ _) eqn:E; [| reflexivity].
  apply Qeq_bool_eq in E. rewrite Qred_correct in E.
  assert (Hpos : (0 < inject_Z (r * c) / inject_Z n)%Q).
  { apply Qlt_shift_div_l.
    - unfold Qlt, inject_Z. cbn [Qnum Qden]. lia.
    - unfold Qlt, Qmult, inject_Z. cbn [Qnum Qden]. nia. }
  rewrite E in Hpos. exfalso. apply (Qlt_irrefl _ Hpos).
Qed.

Section WhenTheTestRaises.

Variable power_divergence :
  list (list Z) -> list (list float64) -> Z -> float64 * float64.

(** On a table that has an observation [chi2_contingency] returns: no
    cell is negative and no expected frequency is zero. *)
Lemma chi2_contingency_returns (index cols : list value) :
  observed_rows index cols <> [] ->
  exists r, chi2_contingency power_divergence (crosstab index cols) = Returned r.
Proof.
  intros Hrows. unfold chi2_contingency.
  rewrite existsb_false_forall.
  2:{ intros row Hrow. apply existsb_false_forall. intros z Hz.
      unfold crosstab in Hrow. cbn [cells] in Hrow.
      apply in_map_iff in Hrow. destruct Hrow as (r & <- & _).
      apply in_map_iff in Hz. destruct Hz as (c & <- & _).
      unfold cell_count. apply Z.ltb_ge. lia. }
  assert (Hex : exists p, In p (observed_rows index cols)).
  { destruct (observed_rows index cols) as [| p rows];
      [now contradiction Hrows | exists p; left; reflexivity]. }
  destruct Hex as [p Hp].
  destruct (observed_rows_notnull _ _ _ Hp) as [Hn1 Hn2].
  destruct (group_keys_member (map fst (observed_rows index cols)) (fst p))
    as [r Hr]; [apply in_map, Hp | exact Hn1 |].
  destruct (group_keys_member (map snd (observed_rows index cols)) (snd p))
    as [c Hc]; [apply in_map, Hp | exact Hn2 |].
  assert (Hsize : (n_rows (crosstab index cols) * n_cols (crosstab index cols)
                   =? 0)%nat = false).
  { apply Nat.eqb_neq. unfold n_rows, n_cols, crosstab.
    cbn [row_labels col_labels].
    destruct (group_keys (map fst (observed_rows index cols))); [destruct Hr |].
    destruct (group_keys (map snd (observed_rows index cols))); [destruct Hc |].
    simpl. lia. }
  rewrite Hsize.
  rewrite existsb_false_forall.
  2:{ intros row Hrow. apply existsb_false_forall. intros x Hx.
      unfold expected_freq in Hrow.
      apply in_map_iff in Hrow. destruct Hrow as (rs & <- & Hrs).
      apply in_map_iff in Hx. destruct Hx as (cs & <- & Hcs).
      pose proof (crosstab_row_sums_pos index cols) as Hrp.
      pose proof (crosstab_col_sums_pos index cols) as Hcp.
      rewrite Forall_forall in Hrp, Hcp.
      apply expected_cell_nonzero; [apply Hrp, Hrs | apply Hcp, Hcs |].
      rewrite crosstab_grand_total.
      destruct (observed_rows index cols); [destruct Hp | simpl; lia]. }
  match goal with
  | [ |- exists r, (if ?b then _ else _) = _ ] => destruct b
  end; eexists; reflexivity.
Qed.

Lemma chi2_contingency_empty (index cols : list value) :
  observed_rows index cols = [] ->
  chi2_contingency power_divergence (crosstab index cols) = Raised ValueError.
Proof.
  intros E. unfold chi2_contingency, n_rows, crosstab.
  cbn [cells row_labels]. rewrite E. reflexivity.
Qed.

(** Past its guard the test is [chi2_contingency] on the table of the two
    columns. *)
Lemma perform_with_columns
  (df : DataFrame) (assignment_col : string) (index flags : list value) :
  getitem df assignment_col = Returned index ->
  getitem df converted = Returned flags ->
  perform_chi_squared_test power_divergence (Some df) assignment_col =
  (result <- chi2_contingency power_divergence (crosstab index flags) ;;
   Returned (Some result)).
Proof.
  intros Hi Hf. unfold perform_chi_squared_test.
  assert (H1 : has_col assignment_col df = true).
  { apply has_col_lookup. unfold getitem in Hi.
    destruct (lookup assignment_col (columns df)); [eauto | discriminate]. }
  assert (H2 : has_col converted df = true).
  { apply has_col_lookup. unfold getitem in Hf.
    destruct (lookup converted (columns df)); [eauto | discriminate]. }
  rewrite H1, H2, Hi, Hf. reflexivity.
Qed.

(** X7: on a dataset that has the two columns, the chi-squared test raises
    exactly when no row has both an assignment and an outcome that are not
    null; with one such row it returns a result: no other check of
    [chi2_contingency] can fail on a table built by [crosstab]. *)
Theorem chi_squared_test_raises_iff_no_observation
  (df : DataFrame) (assignment_col : string) (index flags : list value) :
  getitem df assignment_col = Returned index ->
  getitem df converted = Returned flags ->
  (observed_rows index flags = [] ->
   perform_chi_squared_test power_divergence (Some df) assignment_col
     = Raised ValueError) /\
  (observed_rows index flags <> [] ->
   exists r,
     perform_chi_squared_test power_divergence (Some df) assignment_col
       = Returned (Some r)).
Proof.
  intros Hi Hf. rewrite (perform_with_columns _ _ _ _ Hi Hf). split.
  - intros E. rewrite (chi2_contingency_empty _ _ E). reflexivity.
  - intros Hne. destruct (chi2_contingency_returns _ _ Hne) as [r Hr].
    rewrite Hr. eexists. reflexivity.
Qed.

End WhenTheTestRaises.

Lemma chi_squared_test_raises_iff_no_observation_witness :
  (observed_rows [VStr "A"; VStr "A"; VStr "B"; VStr "B"]
                 [VBool false; VBool true; VBool false; VBool true] = [] ->
   perform_chi_squared_test no_statistic (Some df_scenario_enriched) "variant"
     = Raised ValueError) /\
  (observed_rows [VStr "A"; VStr "A"; VStr "B"; VStr "B"]
                 [VBool false; VBool true; VBool false; VBool true] <> [] ->
   exists r,
     perform_chi_squared_test no_statistic (Some df_scenario_enriched) "variant"
       = Returned (Some r)).
Proof.
  apply (chi_squared_test_raises_iff_no_observation
           no_statistic df_scenario_enriched "variant").
  - reflexivity.
  - reflexivity.
Defined.

(* ================================================================= *)
(** * Further properties: the test and the chart after the conversion rates *)

Lemma observed_rows_flags (keys flags : list value) :
  List.length keys = List.length flags ->
  (forall f, In f flags -> notnull f = true) ->
  (observed_rows keys flags = [] <-> existsb notnull keys = false).
Proof.
  unfold observed_rows. revert flags.
  induction keys as [| k keys IH]; intros [| f flags] Hlen Hnn;
    simpl in *; try discriminate; [tauto |].
  rewrite (Hnn f) by auto. rewrite andb_true_r.
  destruct (notnull k); simpl.
  - split; discriminate.
  - apply IH; [lia | auto].
Qed.

(** The dataset the call leaves, past the guard: its derived column holds
    the flags of the second event column. *)
Lemma calculate_leaves_flags (df : DataFrame) (e1 e2 g : string) :
  wf df ->
  guard df e1 e2 g = false ->
  exists keys events,
    getitem df e2 = Returned events /\
    getitem (fst (calculate_conversion_rates df e1 e2 g)) g = Returned keys /\
    getitem (fst (calculate_conversion_rates df e1 e2 g)) converted
      = Returned (not_isnull events) /\
    List.length keys = List.length events.
Proof.
  intros Hwf Hg.
  destruct (calculate_outcome _ e1 _ _ Hwf Hg)
    as (keys & events & Hev & Hk & _ & _ & Hlk & Hle & _).
  exists keys, events. repeat split; try assumption; [| congruence].
  destruct (calculate_state _ e1 _ _ Hg) as (events' & Hev' & ->).
  rewrite Hev in Hev'. injection Hev' as <-.
  rewrite getitem_setitem, String.eqb_refl. reflexivity.
Qed.

Section AfterTheConversionRates.

Variable power_divergence :
  list (list Z) -> list (list float64) -> Z -> float64 * float64.
Variable beta_pdf : float64 -> float64 -> float64 -> float64.

(** X8: after the conversion rates, whether or not that call raised, the
    chi-squared test on the dataset as it was left raises [ValueError]
    exactly when no row has an assignment, and returns a result as soon as
    one row has one. *)
Theorem chi_squared_test_after_conversion_rates
  (df : DataFrame) (event1_col event2_col assignment_col : string)
  (keys : list value) :
  wf df ->
  guard df event1_col event2_col assignment_col = false ->
  getitem (fst (calculate_conversion_rates df event1_col event2_col assignment_col))
          assignment_col = Returned keys ->
  (existsb notnull keys = false ->
   perform_chi_squared_test power_divergence
     (Some (fst (calculate_conversion_rates df event1_col event2_col assignment_col)))
     assignment_col = Raised ValueError) /\
  (existsb notnull keys = true ->
   exists r,
     perform_chi_squared_test power_divergence
       (Some (fst (calculate_conversion_rates df event1_col event2_col assignment_col)))
       assignment_col = Returned (Some r)).
Proof.
  intros Hwf Hg Hkeys.
  destruct (calculate_leaves_flags _ event1_col _ _ Hwf Hg)
    as (keys' & events & _ & Hk & Hf & Hlen).
  rewrite Hkeys in Hk. injection Hk as <-.
  pose proof (observed_rows_flags keys (not_isnull events)) as Hobs.
  rewrite not_isnull_length in Hobs.
  specialize (Hobs Hlen (not_isnull_notnull events)).
  rewrite (perform_with_columns power_divergence _ _ _ _ Hkeys Hf). split.
  - intros H. apply Hobs in H.
    rewrite (chi2_contingency_empty power_divergence _ _ H). reflexivity.
  - intros H.
    destruct (chi2_contingency_returns power_divergence keys (not_isnull events))
      as [r Hr].
    + intros E. apply Hobs in E. congruence.
    + rewrite Hr. eexists. reflexivity.
Qed.

End AfterTheConversionRates.

Lemma wf_df_no_assignment : wf df_no_assignment.
Proof. prove_wf. Defined.

Lemma chi_squared_test_after_conversion_rates_witness :
  (existsb notnull [VNull] = false ->
   perform_chi_squared_test no_statistic
     (Some (fst (calculate_conversion_rates df_no_assignment
                   "purchase" "purchase" "variant")))
     "variant" = Raised ValueError) /\
  (existsb notnull [VNull] = true ->
   exists r,
     perform_chi_squared_test no_statistic
       (Some (fst (calculate_conversion_rates df_no_assignment
                     "purchase" "purchase" "variant")))
       "variant" = Returned (Some r)).
Proof.
  apply (chi_squared_test_after_conversion_rates
           no_statistic df_no_assignment "purchase" "purchase" "variant").
  - exact wf_df_no_assignment.
  - reflexivity.
  - reflexivity.
Defined.

Lemma variants_test (keys : list value) :
  Forall is_A_or_B keys ->
  In (VStr "A") keys ->
  In (VStr "B") keys ->
  negb (List.length (unique keys) =? 2)%nat
  || negb (contains (VStr "A") (unique keys))
  || negb (contains (VStr "B") (unique keys)) = false.
Proof.
  intros Hall HA HB.
  assert (Hu : Forall is_A_or_B (unique keys)).
  { apply Forall_forall. intros k Hk. apply unique_incl in Hk.
    rewrite Forall_forall in Hall. auto. }
  pose proof (unique_exactly_one _ _ HA) as H1A.
  pose proof (unique_exactly_one _ _ HB) as H1B.
  pose proof (length_A_B _ Hu) as Hlen. rewrite H1A, H1B in Hlen.
  rewrite Hlen. cbn [Nat.add Nat.eqb negb orb].
  assert (Hc : forall s,
    List.length (filter (fun k => same_key k (VStr s)) (unique keys)) = 1%nat ->
    contains (VStr s) (unique keys) = true).
  { intros s H. apply filter_length_one_in in H. destruct H as (k & Hk & Hkv).
    rewrite same_key_sym in Hkv. apply same_key_str in Hkv. subst k.
    unfold contains. apply existsb_exists. exists (VStr s).
    split; [exact Hk | apply py_eqb_str; reflexivity]. }
  rewrite (Hc _ H1A), (Hc _ H1B). reflexivity.
Qed.

Lemma unique_covers (keys : list value) (v : value) :
  In v keys -> exists k, In k (unique keys) /\ same_key k v = true.
Proof.
  intros H. apply unique_exactly_one in H.
  apply filter_length_one_in in H. exact H.
Qed.

Lemma variants_all_A_or_B (keys : list value) :
  unique keys = [VStr "A"; VStr "B"] \/ unique keys = [VStr "B"; VStr "A"] ->
  Forall is_A_or_B keys /\ In (VStr "A") keys /\ In (VStr "B") keys.
Proof.
  intros Hu. repeat split.
  - apply Forall_forall. intros v Hv.
    destruct (unique_covers _ _ Hv) as (k & Hk & Hkv).
    assert (Hstr : k = VStr "A" \/ k = VStr "B")
      by (destruct Hu as [E | E]; rewrite E in Hk; simpl in Hk; intuition).
    destruct Hstr as [-> | ->]; apply same_key_str in Hkv; subst v;
      [left | right]; reflexivity.
  - apply unique_incl. destruct Hu as [-> | ->]; simpl; auto.
  - apply unique_incl. destruct Hu as [-> | ->]; simpl; auto.
Qed.

Lemma all_notnull_no_null (keys : list value) :
  (forall v, In v keys -> notnull v = true) <-> existsb isnull keys = false.
Proof.
  unfold notnull. induction keys as [| k keys IH]; simpl.
  - split; [reflexivity | intros _ v []].
  - rewrite orb_false_iff, <- IH. split.
    + intros H. split.
      * specialize (H k (or_introl eq_refl)). now apply negb_true_iff in H.
      * intros v Hv. apply H. auto.
    + intros [Hk H] v [<- | Hv]; [now rewrite Hk | auto].
Qed.

Section ChartAfterTheConversionRates.

Variable beta_pdf : float64 -> float64 -> float64 -> float64.

(** X9: after a call that returned the conversion rates, the posterior
    chart on the dataset as it was left never raises, and, unless the
    assignment column is named "conversion_rate", it is drawn exactly when
    the lift is present and no row lacks an assignment: a null assignment
    counts as a third variant for the chart and is ignored by the lift. *)
Theorem posterior_chart_after_conversion_rates
  (df df' cr : DataFrame) (event1_col event2_col assignment_col : string)
  (lift : option float64) (keys : list value) :
  wf df ->
  calculate_conversion_rates df event1_col event2_col assignment_col
    = (df', Returned (Some cr, lift)) ->
  getitem df' assignment_col = Returned keys ->
  assignment_col <> "conversion_rate" ->
  (exists r,
     create_posterior_distribution_chart beta_pdf (Some df') assignment_col
       = Returned r) /\
  ((exists fig,
      create_posterior_distribution_chart beta_pdf (Some df') assignment_col
        = Returned (Some fig))
   <-> lift <> None /\ existsb isnull keys = false).
Proof.
  intros Hwf Hcall Hkeys Hg.
  destruct (calculate_returned _ _ _ _ _ _ _ Hwf Hcall)
    as (keys' & events & Hguard & _ & _ & Hk & _ & _ & _ & _ & _ & ->).
  rewrite Hkeys in Hk. injection Hk as <-.
  destruct (calculate_leaves_flags _ event1_col _ _ Hwf Hguard)
    as (keys' & events' & _ & Hk' & Hf & _).
  rewrite Hcall in Hk', Hf. cbn [fst] in Hk', Hf.
  assert (Hbool : Forall is_bool (not_isnull events')).
  { apply Forall_forall. intros v Hv. apply in_map_iff in Hv.
    destruct Hv as (w & <- & _). eexists. reflexivity. }
  assert (Hlift : lift_of_records assignment_col keys events <> None
                  <-> exactly_A_and_B keys).
  { unfold lift_of_records. apply String.eqb_neq in Hg. rewrite Hg.
    pose proof (labels_test keys) as Htest.
    destruct (_ && _ && _); split; try discriminate; try (intros; apply Htest; reflexivity).
    - intros H. now contradiction H.
    - intros H. apply Htest in H. discriminate H. }
  unfold create_posterior_distribution_chart.
  assert (H1 : has_col assignment_col df' = true).
  { apply has_col_lookup. unfold getitem in Hkeys.
    destruct (lookup assignment_col (columns df')); [eauto | discriminate]. }
  assert (H2 : has_col converted df' = true).
  { apply has_col_lookup. unfold getitem in Hf.
    destruct (lookup converted (columns df')); [eauto | discriminate]. }
  rewrite H1, H2, Hkeys. cbn [negb orb bind].
  destruct (negb (List.length (unique keys) =? 2)%nat
            || negb (contains (VStr "A") (unique keys))
            || negb (contains (VStr "B") (unique keys))) eqn:Etest.
  - split; [eexists; reflexivity |]. split.
    + intros [fig H]. discriminate H.
    + intros [Hl Hnull]. exfalso.
      apply Hlift in Hl. destruct Hl as (HA & HB & Hall).
      rewrite variants_test in Etest; [discriminate Etest | | exact HA | exact HB].
      apply Forall_forall. intros v Hv. apply Hall; [exact Hv |].
      apply (proj2 (all_notnull_no_null keys) Hnull v Hv).
  - destruct (posterior_lines_returned beta_pdf df' assignment_col keys
                (not_isnull events') (linspace 0 1 1000) (unique keys)
                Hkeys Hf Hbool) as (ls & Hls & _).
    rewrite Hls. cbn [bind].
    split; [eexists; reflexivity |]. split; [intros _ | eexists; reflexivity].
    apply orb_false_iff in Etest. destruct Etest as [Etest EB].
    apply orb_false_iff in Etest. destruct Etest as [Elen EA].
    apply negb_false_iff in Elen, EA, EB. apply Nat.eqb_eq in Elen.
    pose proof (two_variants _ Elen EA EB) as Hu.
    destruct (variants_all_A_or_B _ Hu) as (Hall & HA & HB).
    rewrite Forall_forall in Hall. split.
    + apply Hlift. repeat split; auto.
    + apply all_notnull_no_null. intros v Hv.
      destruct (Hall v Hv) as [-> | ->]; reflexivity.
Qed.

End ChartAfterTheConversionRates.

Lemma posterior_chart_after_conversion_rates_witness :
  (exists r,
     create_posterior_distribution_chart no_density
       (Some df_unassigned_row_enriched) "variant" = Returned r) /\
  ((exists fig,
      create_posterior_distribution_chart no_density
        (Some df_unassigned_row_enriched) "variant" = Returned (Some fig))
   <-> Some (Fin 0) <> None /\
       existsb isnull [VStr "A"; VStr "B"; VNull] = false).
Proof.
  apply (posterior_chart_after_conversion_rates no_density
           df_unassigned_row df_unassigned_row_enriched records_unassigned_row
           "purchase" "purchase" "variant").
  - exact wf_df_unassigned_row.
  - vm_compute. reflexivity.
  - reflexivity.
  - discriminate.
Defined.

(* ================================================================= *)
(** * Further properties: the frame of a query result *)

Lemma existsb_eqb_In (k : string) (l : list string) :
  existsb (String.eqb k) l = true <-> In k l.
Proof.
  rewrite existsb_exists. split.
  - intros (n & Hn & E). apply String.eqb_eq in E. now subst.
  - intros H. exists k. split; [exact H | apply String.eqb_refl].
Qed.

Lemma add_keys_In (seen ks : list string) (k : string) :
  In k (add_keys seen ks) <-> In k seen \/ In k ks.
Proof.
  revert seen. induction ks as [| n ks IH]; intros seen; simpl.
  - tauto.
  - destruct (existsb (String.eqb n) seen) eqn:E; rewrite IH.
    + apply existsb_eqb_In in E. intuition (subst; auto).
    + rewrite in_app_iff. simpl. tauto.
Qed.

Lemma add_keys_NoDup (seen ks : list string) :
  NoDup seen -> NoDup (add_keys seen ks).
Proof.
  revert seen. induction ks as [| n ks IH]; intros seen Hnd; simpl.
  - exact Hnd.
  - destruct (existsb (String.eqb n) seen) eqn:E; apply IH; [exact Hnd |].
    apply NoDup_app; [exact Hnd | repeat constructor; auto |].
    intros m Hm [<- | []].
    apply existsb_eqb_In in Hm. congruence.
Qed.

Lemma fold_add_keys_In (rows : list record) (seen : list string) (k : string) :
  In k (fold_left (fun seen r => add_keys seen (map fst r)) rows seen) <->
  In k seen \/ exists r, In r rows /\ In k (map fst r).
Proof.
  revert seen. induction rows as [| r rows IH]; intros seen; simpl.
  - split; [auto | intros [H | (r & [] & _)]; exact H].
  - rewrite IH, add_keys_In. split.
    + intros [[H | H] | (r' & Hr' & H)]; eauto 6.
    + intros [H | (r' & [<- | Hr'] & H)]; eauto 6.
Qed.

Lemma fold_add_keys_NoDup (rows : list record) (seen : list string) :
  NoDup seen ->
  NoDup (fold_left (fun seen r => add_keys seen (map fst r)) rows seen).
Proof.
  revert seen. induction rows as [| r rows IH]; intros seen Hnd; simpl.
  - exact Hnd.
  - apply IH, add_keys_NoDup, Hnd.
Qed.

(** The columns of the frame are the fields of the rows. *)
Lemma union_keys_In (rows : list record) (k : string) :
  In k (union_keys rows) <-> exists r, In r rows /\ In k (map fst r).
Proof.
  unfold union_keys. rewrite fold_add_keys_In. simpl. tauto.
Qed.

Lemma col_names_frame_of_records (rows : list record) :
  col_names (frame_of_records rows) = union_keys rows.
Proof.
  unfold col_names, frame_of_records. cbn [columns].
  rewrite map_map. cbn [fst]. apply map_id.
Qed.

Lemma lookup_keyed (f : string -> list value) (ks : list string) (k : string) :
  In k ks -> lookup k (map (fun n => (n, f n)) ks) = Some (f k).
Proof.
  induction ks as [| n ks IH]; simpl; [tauto |].
  destruct (String.eqb k n) eqn:E.
  - apply String.eqb_eq in E. now subst.
  - intros [-> | H]; [rewrite String.eqb_refl in E; discriminate | auto].
Qed.

Lemma infer_column_length (cells : list value) :
  List.length (infer_column cells) = List.length cells.
Proof. unfold infer_column. destruct (float_column cells); [apply length_map | reflexivity]. Qed.

(** What the inference keeps of a cell: whether it is null, and the cell
    itself when it is a string or a boolean. *)
Lemma infer_column_nth (cells : list value) (i : nat) (v : value) :
  nth_error cells i = Some v ->
  exists c,
    nth_error (infer_column cells) i = Some c /\
    isnull c = isnull v /\
    (forall s, v = VStr s -> c = VStr s) /\
    (forall b, v = VBool b -> c = VBool b).
Proof.
  intros H. unfold infer_column. destruct (float_column cells).
  - exists (infer_cell v). rewrite nth_error_map, H. split; [reflexivity |].
    repeat split; try (intros ? ->; reflexivity).
    destruct v as [| s | [q | | |] | b]; reflexivity.
  - exists v. repeat split; auto.
Qed.

(** X10: the frame [run_query] makes of the rows of a result is well
    formed, whatever the rows: its column names are distinct and every
    column has one cell per row. *)
Theorem frame_of_records_wf (rows : list record) : wf (frame_of_records rows).
Proof.
  split.
  - fold (col_names (frame_of_records rows)).
    rewrite col_names_frame_of_records.
    apply fold_add_keys_NoDup. constructor.
  - unfold frame_of_records. cbn [columns nrows].
    apply Forall_forall. intros c Hc. apply in_map_iff in Hc.
    destruct Hc as (k & <- & _). cbn [snd].
    rewrite infer_column_length. apply length_map.
Qed.

Lemma dict_get_In (k : string) (r : record) (v : value) :
  dict_get k r = Some v -> In k (map fst r).
Proof.
  induction r as [| [n w] r IH]; simpl; [discriminate |].
  destruct (String.eqb k n) eqn:E.
  - apply String.eqb_eq in E. auto.
  - auto.
Qed.

(** X11: reading the frame gives the rows back, as far as the inference
    of the column types keeps them.  A name is a column of the frame
    exactly when some row has a field of that name; the column then has
    one cell per row, which is null exactly when the row lacks the field
    or holds a null in it, and which is the value of the field when that
    is a string or a boolean. *)
Theorem frame_of_records_cells (rows : list record) (k : string) :
  (has_col k (frame_of_records rows) = true <->
   exists r, In r rows /\ In k (map fst r)) /\
  (has_col k (frame_of_records rows) = true ->
   exists col,
     getitem (frame_of_records rows) k = Returned col /\
     List.length col = List.length rows /\
     forall i r,
       nth_error rows i = Some r ->
       exists c,
         nth_error col i = Some c /\
         (isnull c = true <-> forall v, dict_get k r = Some v -> isnull v = true) /\
         (forall s, dict_get k r = Some (VStr s) -> c = VStr s) /\
         (forall b, dict_get k r = Some (VBool b) -> c = VBool b)).
Proof.
  split.
  - rewrite has_col_In, col_names_frame_of_records. apply union_keys_In.
  - intros Hk. rewrite has_col_In, col_names_frame_of_records in Hk.
    exists (infer_column (map (cell_of k) rows)). split; [| split].
    + unfold getitem, frame_of_records. cbn [columns].
      rewrite (lookup_keyed (fun n => infer_column (map (cell_of n) rows)) _ _ Hk).
      reflexivity.
    + rewrite infer_column_length. apply length_map.
    + intros i r Hr.
      destruct (infer_column_nth (map (cell_of k) rows) i (cell_of k r))
        as (c & Hc & Hnull & Hstr & Hbool).
      { rewrite nth_error_map, Hr. reflexivity. }
      exists c. split; [exact Hc |]. rewrite Hnull. unfold cell_of in *.
      destruct (dict_get k r) as [v |].
      * split; [| split].
        -- split; [intros H w Hw; injection Hw as <-; exact H | intros H; apply H; reflexivity].
        -- intros s Hs. injection Hs as ->. apply Hstr. reflexivity.
        -- intros b Hb. injection Hb as ->. apply Hbool. reflexivity.
      * split; [| split]; try discriminate.
        split; [intros _ w Hw; discriminate Hw | reflexivity].
Qed.

Lemma frame_of_records_cells_witness :
  (has_col "purchase" (frame_of_records rows_sample) = true <->
   exists r, In r rows_sample /\ In "purchase" (map fst r)) /\
  (has_col "purchase" (frame_of_records rows_sample) = true ->
   exists col,
     getitem (frame_of_records rows_sample) "purchase" = Returned col /\
     List.length col = List.length rows_sample /\
     forall i r,
       nth_error rows_sample i = Some r ->
       exists c,
         nth_error col i = Some c /\
         (isnull c = true <->
          forall v, dict_get "purchase" r = Some v -> isnull v = true) /\
         (forall s, dict_get "purchase" r = Some (VStr s) -> c = VStr s) /\
         (forall b, dict_get "purchase" r = Some (VBool b) -> c = VBool b)).
Proof.
  exact (frame_of_records_cells rows_sample "purchase").
Defined.

(* ================================================================= *)
(** * Further properties: the bar chart *)

Lemma record_rate_bounded (keys events : list value) (k : value) :
  In k (group_keys keys) ->
  exists q, record_rate keys events k = VNum (Fin q) /\ (0 <= q /\ q <= 1)%Q.
Proof.
  intros Hk. pose proof (group_size_in_keys _ _ Hk) as Hpos.
  exists (fraction (group_successes keys events k) (group_size keys k)). split.
  - unfold record_rate. rewrite (div_of_nat _ _ Hpos). reflexivity.
  - apply fraction_bounds; [apply group_successes_le | exact Hpos].
Qed.

Lemma forallb_map_num (f : value -> float64) (ks : list value) :
  forallb (fun v => negb (is_str v)) (map (fun k => VNum (f k)) ks) = true.
Proof. induction ks as [| k ks IH]; simpl; auto. Qed.

(** X12: the bar chart of a table of conversion rates, on a dataset whose
    assignment values are strings: it is drawn, with one bar per record,
    each annotated with its width, and every bar ends within the limits 0
    and 1 the chart sets on the x axis. *)
Theorem conversion_chart_within_limits
  (df df' cr : DataFrame) (event1_col event2_col assignment_col : string)
  (lift : option float64) (keys : list value) :
  wf df ->
  calculate_conversion_rates df event1_col event2_col assignment_col
    = (df', Returned (Some cr, lift)) ->
  getitem df' assignment_col = Returned keys ->
  (forall v, In v keys -> notnull v = true -> is_str v = true) ->
  exists chart,
    create_horizontal_conversion_chart (Some cr) (Some assignment_col)
      = Returned (Some chart) /\
    List.length (bars chart) = nrows cr /\
    annotations chart = map snd (bars chart) /\
    Forall (fun bar =>
              exists q, snd bar = VNum (Fin q) /\
                        (fst (bar_xlim chart) <= q /\ q <= snd (bar_xlim chart))%Q)
           (bars chart).
Proof.
  intros Hwf Hcall Hkeys Hstr.
  destruct (calculate_returned _ _ _ _ _ _ _ Hwf Hcall)
    as (keys' & events & _ & Hname & _ & Hk & _ & _ & _ & _ & -> & _).
  rewrite Hkeys in Hk. injection Hk as <-.
  unfold create_horizontal_conversion_chart.
  rewrite getitem_records_rate.
  assert (Hbars : forall labels,
    List.length labels = List.length (group_keys keys) ->
    List.length (combine labels (map (record_rate keys events) (group_keys keys)))
      = nrows (records_table assignment_col keys events) /\
    Forall (fun bar : value * value =>
              exists q, snd bar = VNum (Fin q) /\ (0 <= q /\ q <= 1)%Q)
      (combine labels (map (record_rate keys events) (group_keys keys)))).
  { intros labels Hlen. split.
    - rewrite length_combine, length_map, Hlen, nrows_records_table. lia.
    - apply Forall_forall. intros [l w] Hin. apply in_combine_r in Hin.
      apply in_map_iff in Hin. destruct Hin as (k & <- & Hk).
      apply record_rate_bounded, Hk. }
  destruct (String.eqb assignment_col "conversion_rate") eqn:Eg.
  - apply String.eqb_eq in Eg. subst assignment_col.
    rewrite getitem_records_rate. cbn [bind]. unfold barh.
    unfold record_rate at 2. rewrite forallb_map_num, orb_true_r. cbn [bind].
    eexists. split; [reflexivity |]. cbn [bars annotations bar_xlim fst snd].
    destruct (Hbars (map (record_rate keys events) (group_keys keys)))
      as [Hlen Hall]; [apply length_map |].
    repeat split; assumption.
  - apply String.eqb_neq in Eg.
    rewrite (getitem_records_key _ _ _ Eg). cbn [bind]. unfold barh.
    assert (Hs : forallb is_str (group_keys keys) = true).
    { apply forallb_forall. intros k Hk.
      destruct (group_keys_in _ _ Hk) as [Hin Hnn]. auto. }
    rewrite Hs. cbn [orb bind].
    eexists. split; [reflexivity |]. cbn [bars annotations bar_xlim fst snd].
    destruct (Hbars (group_keys keys) eq_refl) as [Hlen Hall].
    repeat split; assumption.
Qed.

Lemma conversion_chart_within_limits_witness :
  exists chart,
    create_horizontal_conversion_chart (Some records_scenario) (Some "variant")
      = Returned (Some chart) /\
    List.length (bars chart) = nrows records_scenario /\
    annotations chart = map snd (bars chart) /\
    Forall (fun bar =>
              exists q, snd bar = VNum (Fin q) /\
                        (fst (bar_xlim chart) <= q /\ q <= snd (bar_xlim chart))%Q)
           (bars chart).
Proof.
  apply (conversion_chart_within_limits
           df_scenario df_scenario_enriched records_scenario
           "signup" "purchase" "variant" (Some (Fin 0))
           [VStr "A"; VStr "A"; VStr "B"; VStr "B"]).
  - exact wf_df_scenario.
  - vm_compute. reflexivity.
  - reflexivity.
  - intros v Hv _. simpl in Hv.
    destruct Hv as [<- | [<- | [<- | [<- | []]]]]; reflexivity.
Defined.

(* ================================================================= *)
(** * Further properties: a test on a single outcome *)

Lemma unique_constant (v : value) (l : list value) :
  l <> [] -> (forall w, In w l -> w = v) -> unique l = [v].
Proof.
  induction l as [| a l IH]; intros Hne Hall; [now contradiction Hne |].
  assert (Ha : a = v) by (apply Hall; left; reflexivity). subst a.
  cbn [unique]. destruct l as [| a' l'].
  - reflexivity.
  - rewrite IH; [| discriminate | intros w Hw; apply Hall; right; exact Hw].
    cbn [filter]. rewrite same_key_refl. reflexivity.
Qed.

Lemma group_keys_constant (v : value) (l : list value) :
  notnull v = true ->
  l <> [] -> (forall w, In w l -> w = v) -> group_keys l = [v].
Proof.
  intros Hv Hne Hall. unfold group_keys.
  rewrite filter_all by (intros w Hw; rewrite (Hall w Hw); exact Hv).
  rewrite (unique_constant v l Hne Hall). reflexivity.
Qed.

Section SingleOutcome.

Variable power_divergence :
  list (list Z) -> list (list float64) -> Z -> float64 * float64.

(** Without a degree of freedom [chi2_contingency] computes nothing: the
    statistic is 0 and the p-value 1. *)
Lemma chi2_contingency_no_freedom (t : Crosstab) (r : Chi2Result) :
  chi2_contingency power_divergence t = Returned r ->
  dof r = 0%Z ->
  statistic r = Float.of_Z 0 /\ pvalue r = Float.of_Z 1.
Proof.
  unfold chi2_contingency.
  destruct (existsb _ (cells t)); [discriminate |].
  destruct (n_rows t * n_cols t =? 0)%nat; [discriminate |].
  destruct (existsb _ (expected_freq t)); [discriminate |].
  match goal with
  | [ |- (if ?b then _ else _) = _ -> _ ] => destruct b eqn:E
  end; intros H; injection H as <-; cbn [dof statistic pvalue].
  - intros _. split; reflexivity.
  - intros H0. apply Z.eqb_neq in E. contradiction.
Qed.

(** X13: a dataset in which every row converted, or none did.  As soon as
    one row has an assignment the chi-squared test returns, and it is
    degenerate: no degree of freedom, statistic 0 and p-value 1, so that
    the page reports no significant difference, however the variants
    differ in size. *)
Theorem chi_squared_test_of_one_outcome
  (df : DataFrame) (assignment_col : string) (index flags : list value)
  (b : bool) :
  getitem df assignment_col = Returned index ->
  getitem df converted = Returned flags ->
  List.length index = List.length flags ->
  existsb notnull index = true ->
  (forall f, In f flags -> f = VBool b) ->
  exists r,
    perform_chi_squared_test power_divergence (Some df) assignment_col
      = Returned (Some r) /\
    dof r = 0%Z /\
    statistic r = Float.of_Z 0 /\
    pvalue r = Float.of_Z 1 /\
    verdict r = NotSignificant (Float.of_Z 1) alpha.
Proof.
  intros Hindex Hflags Hlen Hsome Hall.
  assert (Hrows : observed_rows index flags <> []).
  { intros E. apply (observed_rows_flags index flags Hlen) in E.
    - congruence.
    - intros f Hf. rewrite (Hall f Hf). reflexivity. }
  destruct (chi2_contingency_returns power_divergence index flags Hrows) as [r Hr].
  destruct (chi2_contingency_returned power_divergence _ _ Hr) as (_ & Hdof & _).
  assert (Hcols : n_cols (crosstab index flags) = 1%nat).
  { unfold n_cols, crosstab. cbn [col_labels].
    rewrite (group_keys_constant (VBool b)); [reflexivity | reflexivity | |].
    - destruct (observed_rows index flags); [now contradiction Hrows | discriminate].
    - intros w Hw. apply in_map_iff in Hw. destruct Hw as ([k f] & <- & Hin).
      unfold observed_rows in Hin. apply filter_In in Hin.
      destruct Hin as [Hin _]. apply in_combine_r in Hin. apply Hall, Hin. }
  rewrite Hcols in Hdof.
  assert (Hzero : dof r = 0%Z) by lia.
  destruct (chi2_contingency_no_freedom _ _ Hr Hzero) as [Hs Hp].
  exists r.
  rewrite (perform_with_columns power_divergence _ _ _ _ Hindex Hflags), Hr.
  repeat split; try assumption.
  unfold verdict. rewrite Hp. reflexivity.
Qed.

End SingleOutcome.

Lemma chi_squared_test_of_one_outcome_witness :
  exists r,
    perform_chi_squared_test no_statistic (Some df_all_converted) "variant"
      = Returned (Some r) /\
    dof r = 0%Z /\
    statistic r = Float.of_Z 0 /\
    pvalue r = Float.of_Z 1 /\
    verdict r = NotSignificant (Float.of_Z 1) alpha.
Proof.
  apply (chi_squared_test_of_one_outcome no_statistic df_all_converted "variant"
           [VStr "A"; VStr "B"] [VBool true; VBool true] true).
  - reflexivity.
  - reflexivity.
  - reflexivity.
  - reflexivity.
  - intros f Hf. simpl in Hf. destruct Hf as [<- | [<- | []]]; reflexivity.
Defined.

(* ================================================================= *)
(** * Further properties: the page *)

Lemma not_isnull_twice (vs : list value) :
  not_isnull (not_isnull vs) = repeat (VBool true) (List.length vs).
Proof.
  unfold not_isnull. rewrite map_map.
  induction vs as [| v vs IH]; simpl; [reflexivity |]. f_equal. exact IH.
Qed.

(** Line 163 on a dataset that has the second event column. *)
Lemma derive_again_step (df : DataFrame) (pg : page) (e2 : string)
  (events : list value) :
  getitem df e2 = Returned events ->
  derive_again (Some e2) (df, pg) =
  ((setitem df converted (not_isnull events), pg), Returned tt).
Proof.
  intros H. unfold derive_again, and_then, get_state, try_call, put_state.
  cbn [fst snd]. rewrite H. reflexivity.
Qed.

(** X14: line 163 derives the column once more after the call.  When the
    second event column is not the derived column itself this changes
    nothing.  When it is, the flags are derived from the flags: every row
    of the dataset the later steps see is marked converted, whatever its
    event was. *)
Theorem derive_again_after_call
  (df : DataFrame) (event1_col event2_col assignment_col : string) (pg : page) :
  wf df ->
  guard df event1_col event2_col assignment_col = false ->
  exists df'',
    derive_again (Some event2_col)
      (fst (calculate_conversion_rates df event1_col event2_col assignment_col), pg)
    = ((df'', pg), Returned tt) /\
    (event2_col <> converted ->
     df'' = fst (calculate_conversion_rates df event1_col event2_col assignment_col)) /\
    (event2_col = converted ->
     getitem df'' converted = Returned (repeat (VBool true) (nrows df))).
Proof.
  intros Hwf Hg.
  destruct (calculate_state _ event1_col _ _ Hg) as (events & Hev & ->).
  pose proof (wf_getitem_length _ _ _ Hwf Hev) as Hlen.
  set (df' := setitem df converted (not_isnull events)).
  assert (Hf : getitem df' converted = Returned (not_isnull events)).
  { unfold df'. rewrite getitem_setitem, String.eqb_refl. reflexivity. }
  destruct (string_dec event2_col converted) as [-> | Hne].
  - exists (setitem df' converted (not_isnull (not_isnull events))).
    split; [apply derive_again_step, Hf |]. split; [intros H; now contradiction H |].
    intros _. rewrite getitem_setitem, String.eqb_refl, not_isnull_twice, Hlen.
    reflexivity.
  - exists df'.
    assert (Hev' : getitem df' event2_col = Returned events).
    { unfold df'. rewrite getitem_setitem.
      apply String.eqb_neq in Hne. rewrite Hne. exact Hev. }
    split; [| split; [reflexivity | intros H; contradiction]].
    rewrite (derive_again_step _ _ _ _ Hev'), (setitem_same _ _ _ Hf).
    reflexivity.
Qed.

Lemma wf_df_with_converted : wf df_with_converted.
Proof. prove_wf. Defined.

Lemma derive_again_after_call_witness :
  exists df'',
    derive_again (Some converted)
      (fst (calculate_conversion_rates df_with_converted
              "purchase" converted "variant"), [])
    = ((df'', []), Returned tt) /\
    (converted <> converted ->
     df'' = fst (calculate_conversion_rates df_with_converted
                   "purchase" converted "variant")) /\
    (converted = converted ->
     getitem df'' converted = Returned (repeat (VBool true) (nrows df_with_converted))).
Proof.
  apply (derive_again_after_call df_with_converted "purchase" converted "variant" []).
  - exact wf_df_with_converted.
  - reflexivity.
Defined.

(** The page after the conversion rates, when the call returned a table. *)
Lemma show_conversion_rates_returned
  (df df' df'' cr : DataFrame) (e1 e2 g : string) (lift : option float64)
  (chart : BarChart) (pg : page) :
  calculate_conversion_rates df e1 e2 g = (df', Returned (Some cr, lift)) ->
  (forall pg', derive_again (Some e2) (df', pg') = ((df'', pg'), Returned tt)) ->
  create_horizontal_conversion_chart (Some cr) (Some g) = Returned (Some chart) ->
  show_conversion_rates (Some e1) (Some e2) (Some g) (df, pg) =
  ((df'', pg ++ [Write SampleData; Table (head 10 df); PyplotBars chart;
                 Write (match lift with
                        | Some lift_drop => LiftDrop lift_drop
                        | None => NoLiftDrop
                        end)]),
   Returned tt).
Proof.
  intros Hcall Hderive Hchart.
  unfold show_conversion_rates, and_then, show, get_state, put_state, try_call,
    calculate_selected.
  cbn [fst snd]. rewrite Hcall. cbn [fst snd]. rewrite Hderive, Hchart.
  destruct lift; cbn [fst snd]; rewrite <- !app_assoc; reflexivity.
Qed.

Section Pages.

Variable client : string -> outcome (list record).
Variable power_divergence :
  list (list Z) -> list (list float64) -> Z -> float64 * float64.
Variable beta_pdf : float64 -> float64 -> float64 -> float64.

Lemma show_chi_squared_test_returned
  (df : DataFrame) (g : string) (r : Chi2Result) (pg : page) :
  perform_chi_squared_test power_divergence (Some df) g = Returned (Some r) ->
  show_chi_squared_test power_divergence (Some g) (df, pg) =
  ((df, pg ++ [Write ChiSquaredResults;
               Write (ChiSquaredStatistic (statistic r));
               Write (PValue (pvalue r));
               Write (DegreesOfFreedom (dof r));
               Write (verdict r)]),
   Returned tt).
Proof.
  intros H.
  unfold show_chi_squared_test, and_then, show, get_state, try_call, verdict.
  cbn [fst snd]. rewrite H.
  destruct (float_ltb (pvalue r) alpha); cbn [fst snd];
    rewrite <- !app_assoc; reflexivity.
Qed.

Lemma show_posterior_chart_returned
  (df : DataFrame) (g : string) (fig : Figure) (pg : page) :
  create_posterior_distribution_chart beta_pdf (Some df) g = Returned (Some fig) ->
  show_posterior_chart beta_pdf (Some g) (df, pg) =
  ((df, pg ++ [PyplotPosterior fig]), Returned tt).
Proof.
  intros H. unfold show_posterior_chart, and_then, show, get_state, try_call.
  cbn [fst snd]. rewrite H. reflexivity.
Qed.


Lemma getitem_returned_has_col (df : DataFrame) (c : string) (vs : list value) :
  getitem df c = Returned vs -> has_col c df = true.
Proof.
  intros H. apply has_col_lookup. unfold getitem in H.
  destruct (lookup c (columns df)); [eauto | discriminate].
Qed.

(** Line 163 after a call whose second event column is not the derived
    column: the dataset stays as the call left it. *)
Lemma derive_again_unchanged (df : DataFrame) (e1 e2 g : string) (pg : page) :
  guard df e1 e2 g = false ->
  e2 <> converted ->
  derive_again (Some e2) (fst (calculate_conversion_rates df e1 e2 g), pg) =
  ((fst (calculate_conversion_rates df e1 e2 g), pg), Returned tt).
Proof.
  intros Hg Hne.
  destruct (calculate_state _ e1 _ _ Hg) as (events & Hev & ->).
  set (df' := setitem df converted (not_isnull events)).
  assert (Hf : getitem df' converted = Returned (not_isnull events)).
  { unfold df'. rewrite getitem_setitem, String.eqb_refl. reflexivity. }
  assert (Hev' : getitem df' e2 = Returned events).
  { unfold df'. rewrite getitem_setitem.
    apply String.eqb_neq in Hne. rewrite Hne. exact Hev. }
  rewrite (derive_again_step _ _ _ _ Hev'), (setitem_same _ _ _ Hf).
  reflexivity.
Qed.

(** The bar chart of the records of string labels is drawn. *)
Lemma conversion_chart_drawn (g : string) (keys events : list value) :
  (forall v, In v keys -> notnull v = true -> is_str v = true) ->
  exists chart,
    create_horizontal_conversion_chart (Some (records_table g keys events)) (Some g)
      = Returned (Some chart).
Proof.
  intros Hstr. unfold create_horizontal_conversion_chart.
  rewrite getitem_records_rate.
  destruct (String.eqb g "conversion_rate") eqn:Eg.
  - apply String.eqb_eq in Eg. subst g.
    rewrite getitem_records_rate. cbn [bind]. unfold barh.
    unfold record_rate at 2. rewrite forallb_map_num, orb_true_r. cbn [bind].
    eexists. reflexivity.
  - apply String.eqb_neq in Eg.
    rewrite (getitem_records_key _ _ _ Eg). cbn [bind]. unfold barh.
    assert (Hs : forallb is_str (group_keys keys) = true).
    { apply forallb_forall. intros k Hk.
      destruct (group_keys_in _ _ Hk) as [Hin Hnn]. auto. }
    rewrite Hs. cbn [orb bind]. eexists. reflexivity.
Qed.

Lemma nonempty_length (s : string) :
  s <> "" -> (String.length s =? 0)%nat = false.
Proof. destruct s; [intros H; now contradiction H | reflexivity]. Qed.

Lemma selectbox_no_option (held : selection) : selectbox [] held = None.
Proof. reflexivity. Qed.

(** The analysis under selections that are all [None]. *)
Lemma show_analysis_unselected (df : DataFrame) (pg : page) :
  show_analysis power_divergence beta_pdf None None None (df, pg) =
  ((df, pg ++ [Write SampleData; Table (head 10 df); Write ColumnProblem;
               Write NoChiSquaredTest; Write NoPosteriorChart]),
   Returned tt).
Proof.
  unfold show_analysis, show_conversion_rates, show_chi_squared_test,
    show_posterior_chart, and_then, show, get_state, put_state, try_call,
    calculate_selected.
  cbn [fst snd]. rewrite <- !app_assoc. reflexivity.
Qed.

(** The posterior chart of a boolean derived column and an assignment
    column that holds "A" and "B", both met, and nothing else. *)
Lemma posterior_chart_drawn
  (df : DataFrame) (g : string) (keys flags : list value) :
  getitem df g = Returned keys ->
  getitem df converted = Returned flags ->
  Forall is_bool flags ->
  exactly_A_and_B keys ->
  existsb isnull keys = false ->
  exists fig,
    create_posterior_distribution_chart beta_pdf (Some df) g = Returned (Some fig).
Proof.
  intros Hk Hf Hbool (HA & HB & Hall) Hnull.
  unfold create_posterior_distribution_chart.
  rewrite (getitem_returned_has_col _ _ _ Hk), (getitem_returned_has_col _ _ _ Hf), Hk.
  cbn [negb orb bind].
  rewrite variants_test; [| | exact HA | exact HB].
  - destruct (posterior_lines_returned beta_pdf df g keys flags
                (linspace 0 1 1000) (unique keys) Hk Hf Hbool) as (ls & Hls & _).
    rewrite Hls. cbn [bind]. eexists. reflexivity.
  - apply Forall_forall. intros v Hv. apply Hall; [exact Hv |].
    apply (proj2 (all_notnull_no_null keys) Hnull v Hv).
Qed.

(** X15: the analysis of a proper test.  On a dataset whose assignment
    column holds "A" and "B", both met, and nothing else, under a column
    selection that passes the guard, whose assignment column is named
    neither "count" nor "sum" nor "conversion_rate" nor "converted", and
    whose second event column is not named "converted", no step raises
    and the page shows, in this order: the sample table, the bar chart of
    the rates, the lift, the four lines of the chi-squared test and its
    verdict, and the posterior chart; none of the fallback messages is
    shown, and the test and the posterior chart are those of the dataset
    as the first call left it. *)
Theorem analysis_of_a_proper_test
  (df : DataFrame) (event1_col event2_col assignment_col : string)
  (keys : list value) (pg : page) :
  wf df ->
  guard df event1_col event2_col assignment_col = false ->
  name_taken assignment_col = false ->
  assignment_col <> "conversion_rate" ->
  assignment_col <> converted ->
  event2_col <> converted ->
  getitem df assignment_col = Returned keys ->
  exactly_A_and_B keys ->
  existsb isnull keys = false ->
  exists cr lift chart r fig,
    calculate_conversion_rates df event1_col event2_col assignment_col
      = (fst (calculate_conversion_rates df event1_col event2_col assignment_col),
         Returned (Some cr, Some lift)) /\
    create_horizontal_conversion_chart (Some cr) (Some assignment_col)
      = Returned (Some chart) /\
    perform_chi_squared_test power_divergence
      (Some (fst (calculate_conversion_rates df event1_col event2_col assignment_col)))
      assignment_col = Returned (Some r) /\
    create_posterior_distribution_chart beta_pdf
      (Some (fst (calculate_conversion_rates df event1_col event2_col assignment_col)))
      assignment_col = Returned (Some fig) /\
    show_analysis power_divergence beta_pdf
      (Some event1_col) (Some event2_col) (Some assignment_col) (df, pg) =
    ((fst (calculate_conversion_rates df event1_col event2_col assignment_col),
      pg ++ [Write SampleData; Table (head 10 df);
             PyplotBars chart; Write (LiftDrop lift);
             Write ChiSquaredResults;
             Write (ChiSquaredStatistic (statistic r));
             Write (PValue (pvalue r));
             Write (DegreesOfFreedom (dof r));
             Write (verdict r);
             PyplotPosterior fig]),
     Returned tt).
Proof.
  intros Hwf Hg Hname Hrate Hconv He2 Hinput HAB Hnull.
  destruct (calculate_outcome _ event1_col _ _ Hwf Hg)
    as (keys' & events & Hev & Hkeys & Hsame & _ & _ & _ & Hout).
  rewrite (Hsame Hconv) in Hinput. injection Hinput as ->.
  rewrite Hname, (lift_of_records_A_and_B _ _ _ Hrate HAB) in Hout.
  destruct (calculate_leaves_flags _ event1_col _ _ Hwf Hg)
    as (keys' & events' & Hev' & Hk' & Hf & Hlen).
  rewrite Hkeys in Hk'. injection Hk' as <-.
  rewrite Hev in Hev'. injection Hev' as <-.
  set (df' := fst (calculate_conversion_rates df event1_col event2_col
                     assignment_col)) in *.
  assert (Hcall : calculate_conversion_rates df event1_col event2_col assignment_col
                  = (df', Returned (Some (records_table assignment_col keys events),
                                    Some (Float.div
                                            (Float.sub (rate_of keys events (VStr "B"))
                                                       (rate_of keys events (VStr "A")))
                                            (rate_of keys events (VStr "A")))))).
  { rewrite <- Hout. unfold df'. apply surjective_pairing. }
  assert (Hnn : forall v, In v keys -> notnull v = true).
  { apply all_notnull_no_null, Hnull. }
  destruct (conversion_chart_drawn assignment_col keys events) as [chart Hchart].
  { intros v Hv Hv'. destruct HAB as (_ & _ & Hall).
    destruct (Hall v Hv Hv') as [-> | ->]; reflexivity. }
  destruct (chi2_contingency_returns power_divergence keys (not_isnull events))
    as [r Hr].
  { intros E.
    apply (observed_rows_flags keys (not_isnull events)) in E.
    - destruct HAB as (HA & _).
      assert (Hex : existsb notnull keys = true).
      { apply existsb_exists. exists (VStr "A"). split; [exact HA | reflexivity]. }
      congruence.
    - rewrite not_isnull_length. exact Hlen.
    - apply not_isnull_notnull. }
  assert (Htest : perform_chi_squared_test power_divergence (Some df') assignment_col
                  = Returned (Some r)).
  { rewrite (perform_with_columns power_divergence _ _ _ _ Hkeys Hf), Hr.
    reflexivity. }
  assert (Hbool : Forall is_bool (not_isnull events)).
  { apply Forall_forall. intros v Hv. apply in_map_iff in Hv.
    destruct Hv as (w & <- & _). eexists. reflexivity. }
  destruct (posterior_chart_drawn df' assignment_col keys (not_isnull events)
              Hkeys Hf Hbool HAB Hnull) as [fig Hfig].
  exists (records_table assignment_col keys events). eexists. exists chart, r, fig.
  split; [exact Hcall |]. split; [exact Hchart |].
  split; [exact Htest |]. split; [exact Hfig |].
  unfold show_analysis, and_then.
  rewrite (show_conversion_rates_returned df df' df' _ _ _ _ _ chart pg Hcall
             (fun pg' => derive_again_unchanged df event1_col _ _ pg' Hg He2)
             Hchart).
  rewrite (show_chi_squared_test_returned _ _ _ _ Htest).
  rewrite (show_posterior_chart_returned _ _ _ _ Hfig).
  rewrite <- !app_assoc. reflexivity.
Qed.

(** X16: the assignment column named "count" or "sum".  The exception of
    the first call is not caught: the run ends after the sample table, with
    no test and no chart on the page, and the dataset keeps the derived
    column the call had written. *)
Theorem analysis_aborts_on_aggregate_name
  (df : DataFrame) (event1_col event2_col assignment_col : string) (pg : page) :
  wf df ->
  guard df event1_col event2_col assignment_col = false ->
  name_taken assignment_col = true ->
  show_analysis power_divergence beta_pdf
    (Some event1_col) (Some event2_col) (Some assignment_col) (df, pg) =
  ((fst (calculate_conversion_rates df event1_col event2_col assignment_col),
    pg ++ [Write SampleData; Table (head 10 df)]),
   Raised ValueError).
Proof.
  intros Hwf Hg Hname.
  destruct (calculate_outcome _ event1_col _ _ Hwf Hg)
    as (keys & events & _ & _ & _ & _ & _ & _ & Hout).
  rewrite Hname in Hout.
  unfold show_analysis, show_conversion_rates, and_then, show, get_state,
    put_state, try_call, calculate_selected.
  cbn [fst snd]. rewrite Hout. rewrite <- !app_assoc. reflexivity.
Qed.

(** X17: the first click.  A session that holds no frame lists no column,
    so the three selections are [None] when the query runs: whatever rows
    the query returns, the page shows their sample table and the three
    fallback messages, no rate, no test and no chart, and the session
    keeps the frame of the rows for the next run. *)
Theorem first_click_shows_no_statistics
  (i : Inputs) (s : Session) (pg : page) (rows : list record) :
  session_df s = None ->
  clicked i = true ->
  query_text i <> "" ->
  client (query_text i) = Returned rows ->
  script client power_divergence beta_pdf i (s, pg) =
  ((mkSession (Some (frame_of_records rows)) None None None,
    pg ++ widgets [] ++
    [Write SampleData; Table (head 10 (frame_of_records rows));
     Write ColumnProblem; Write NoChiSquaredTest; Write NoPosteriorChart]),
   Returned tt).
Proof.
  intros Hs Hclick Hquery Hrows.
  unfold script, and_then, show, get_state, put_state, run_query, ret, on_frame.
  cbn [fst snd]. rewrite Hs, Hclick, (nonempty_length _ Hquery), Hrows.
  rewrite !selectbox_no_option.
  cbn [fst snd event1_column event2_column assignment_column].
  rewrite show_analysis_unselected.
  unfold widgets. rewrite <- !app_assoc. reflexivity.
Qed.

(** X18: a query that fails.  The error is shown, nothing is analysed, the
    run ends without raising, and the session no longer holds a frame: the
    columns it listed are gone at the next run. *)
Theorem failed_query_drops_frame
  (i : Inputs) (s : Session) (pg : page) (e : exn) :
  clicked i = true ->
  query_text i <> "" ->
  client (query_text i) = Raised e ->
  exists s',
    script client power_divergence beta_pdf i (s, pg) =
    ((s', pg ++ widgets (listed_columns s) ++ [Error (AnErrorOccurred e)]),
     Returned tt) /\
    session_df s' = None /\
    listed_columns s' = [].
Proof.
  intros Hclick Hquery Hfail.
  unfold script, and_then, show, get_state, put_state, run_query, ret.
  cbn [fst snd]. rewrite Hclick, (nonempty_length _ Hquery), Hfail.
  unfold and_then, show, ret. cbn [fst snd].
  eexists. split.
  - unfold widgets, listed_columns. rewrite <- !app_assoc. reflexivity.
  - split; reflexivity.
Qed.

End Pages.

Lemma analysis_of_a_proper_test_witness :
  exists cr lift chart r fig,
    calculate_conversion_rates df_scenario "signup" "purchase" "variant"
      = (fst (calculate_conversion_rates df_scenario "signup" "purchase" "variant"),
         Returned (Some cr, Some lift)) /\
    create_horizontal_conversion_chart (Some cr) (Some "variant")
      = Returned (Some chart) /\
    perform_chi_squared_test no_statistic
      (Some (fst (calculate_conversion_rates df_scenario "signup" "purchase" "variant")))
      "variant" = Returned (Some r) /\
    create_posterior_distribution_chart no_density
      (Some (fst (calculate_conversion_rates df_scenario "signup" "purchase" "variant")))
      "variant" = Returned (Some fig) /\
    show_analysis no_statistic no_density
      (Some "signup") (Some "purchase") (Some "variant") (df_scenario, []) =
    ((fst (calculate_conversion_rates df_scenario "signup" "purchase" "variant"),
      [] ++ [Write SampleData; Table (head 10 df_scenario);
             PyplotBars chart; Write (LiftDrop lift);
             Write ChiSquaredResults;
             Write (ChiSquaredStatistic (statistic r));
             Write (PValue (pvalue r));
             Write (DegreesOfFreedom (dof r));
             Write (verdict r);
             PyplotPosterior fig]),
     Returned tt).
Proof.
  apply (analysis_of_a_proper_test no_statistic no_density
           df_scenario "signup" "purchase" "variant"
           [VStr "A"; VStr "A"; VStr "B"; VStr "B"] []).
  - exact wf_df_scenario.
  - reflexivity.
  - reflexivity.
  - discriminate.
  - discriminate.
  - discriminate.
  - reflexivity.
  - repeat split; simpl; auto.
    intros v Hv _. unfold is_A_or_B. simpl in Hv. intuition.
  - reflexivity.
Defined.

Lemma analysis_aborts_on_aggregate_name_witness :
  show_analysis no_statistic no_density
    (Some "purchase") (Some "purchase") (Some "count") (df_count_column, []) =
  ((fst (calculate_conversion_rates df_count_column "purchase" "purchase" "count"),
    [] ++ [Write SampleData; Table (head 10 df_count_column)]),
   Raised ValueError).
Proof.
  apply (analysis_aborts_on_aggregate_name no_statistic no_density
           df_count_column "purchase" "purchase" "count" []).
  - exact wf_df_count_column.
  - reflexivity.
  - reflexivity.
Defined.

Lemma first_click_shows_no_statistics_witness :
  script client_sample no_statistic no_density click_sample (new_session, []) =
  ((mkSession (Some (frame_of_records rows_sample)) None None None,
    [] ++ widgets [] ++
    [Write SampleData; Table (head 10 (frame_of_records rows_sample));
     Write ColumnProblem; Write NoChiSquaredTest; Write NoPosteriorChart]),
   Returned tt).
Proof.
  apply (first_click_shows_no_statistics client_sample no_statistic no_density
           click_sample new_session [] rows_sample).
  - reflexivity.
  - reflexivity.
  - discriminate.
  - reflexivity.
Defined.

Lemma failed_query_drops_frame_witness :
  exists s',
    script client_failing no_statistic no_density click_sample
      (mkSession (Some df_scenario) (Some "signup") (Some "purchase") (Some "variant"),
       []) =
    ((s', [] ++ widgets (listed_columns
                           (mkSession (Some df_scenario) (Some "signup")
                                      (Some "purchase") (Some "variant")))
             ++ [Error (AnErrorOccurred ValueError)]),
     Returned tt) /\
    session_df s' = None /\
    listed_columns s' = [].
Proof.
  apply (failed_query_drops_frame client_failing no_statistic no_density
           click_sample
           (mkSession (Some df_scenario) (Some "signup") (Some "purchase")
                      (Some "variant"))
           [] ValueError).
  - reflexivity.
  - discriminate.
  - reflexivity.
Defined.
